(** * pyvista.core.validate.checkers: a shallow embedding

    The checks of [src/pyvista/core/validate/checkers.py] are embedded as
    Rocq functions returning either normally or with a raised exception.
    The Python and NumPy objects the checks inspect (classes, dtypes,
    scalars, arrays) are modelled first, then the checks in the order in
    which they call one another, then the properties. *)

From Stdlib Require Import String Ascii.
From Stdlib Require Import ZArith QArith Qround Lqa Bool Lia List Permutation.
From Stdlib Require Import Sorted Qabs Qpower.
Import ListNotations.

Set Warnings "-register-all".

Local Open Scope Z_scope.

(* ================================================================== *)
(** ** Numbers *)

(** A floating-point quantity is modelled by the exact rational it
    denotes, or one of the three non-finite values.  Comparison and
    [floor] are exact on the floats of one dtype; the rounding NumPy
    makes when it converts the operands of a comparison to another
    dtype is modelled with the comparisons, by [np_cast]. *)
Inductive xreal : Type :=
| Fin (q : Q)
| PInf
| NInf
| NaN.

Definition xreal_of_Z (z : Z) : xreal := Fin (inject_Z z).

Definition xeqb (a b : xreal) : bool :=
  match a, b with
  | Fin p, Fin q => Qeq_bool p q
  | PInf, PInf => true
  | NInf, NInf => true
  | _, _ => false
  end.

Definition xltb (a b : xreal) : bool :=
  match a, b with
  | NaN, _ | _, NaN => false
  | Fin p, Fin q => negb (Qle_bool q p)
  | NInf, NInf => false
  | NInf, _ => true
  | _, NInf => false
  | PInf, _ => false
  | Fin _, PInf => true
  end.

Definition xleb (a b : xreal) : bool := xltb a b || xeqb a b.
Definition xgtb (a b : xreal) : bool := xltb b a.
Definition xgeb (a b : xreal) : bool := xleb b a.

Definition xisnan (a : xreal) : bool :=
  match a with NaN => true | _ => false end.

Definition xisfinite (a : xreal) : bool :=
  match a with Fin _ => true | _ => false end.

Definition xfloor (a : xreal) : xreal :=
  match a with
  | Fin q => Fin (inject_Z (Qfloor q))
  | other => other
  end.

(** An array element or NumPy scalar: a real or a complex number.
    Booleans and integers are the reals 0, 1 and [n]. *)
Inductive scalar : Type :=
| SReal (x : xreal)
| SCplx (re im : xreal).

Definition cparts (s : scalar) : xreal * xreal :=
  match s with
  | SReal x => (x, Fin 0)
  | SCplx re im => (re, im)
  end.

(** NumPy's element comparisons.  Complex numbers are ordered
    lexicographically (the CLT, CLE, CGT, CGE, CEQ loops of NumPy 1.x);
    on reals, whose imaginary part is 0, they are the usual ones. *)
Definition s_cmp (strict_r : xreal -> xreal -> bool)
                 (im_r : xreal -> xreal -> bool) (a b : scalar) : bool :=
  let '(xr, xi) := cparts a in
  let '(yr, yi) := cparts b in
  (strict_r xr yr && negb (xisnan xi) && negb (xisnan yi))
  || (xeqb xr yr && im_r xi yi).

Definition s_lt : scalar -> scalar -> bool := s_cmp xltb xltb.
Definition s_le : scalar -> scalar -> bool := s_cmp xltb xleb.
Definition s_gt : scalar -> scalar -> bool := s_cmp xgtb xgtb.
Definition s_ge : scalar -> scalar -> bool := s_cmp xgtb xgeb.

Definition s_eq (a b : scalar) : bool :=
  let '(xr, xi) := cparts a in
  let '(yr, yi) := cparts b in
  xeqb xr yr && xeqb xi yi.

Definition s_isfinite (a : scalar) : bool :=
  let '(xr, xi) := cparts a in xisfinite xr && xisfinite xi.

Definition s_of_Z (z : Z) : scalar := SReal (xreal_of_Z z).
Definition s_of_bool (b : bool) : scalar := s_of_Z (if b then 1 else 0).

(** [np.floor] on one real element. *)
Definition s_floor (a : scalar) : scalar :=
  match a with
  | SReal x => SReal (xfloor x)
  | SCplx re im => SCplx re im
  end.

(* ================================================================== *)
(** ** Classes and dtypes *)

(** The dtypes of boolean and numeric arrays.  Arrays of text, of
    objects, of dates or of records have other dtypes; they are left
    out, and what is proved of every [dtype] below is proved of these
    fourteen. *)
Inductive dtype : Type :=
| bool_
| int8 | int16 | int32 | int64
| uint8 | uint16 | uint32 | uint64
| float16 | float32 | float64
| complex64 | complex128.

(** The classes the checks name or meet: built-in types, the abstract
    numeric tower of [numbers], the two container interfaces of
    [collections.abc], and NumPy's scalar hierarchy.  [C_np d] is
    [dtype.type], the scalar class of dtype [d]. *)
Inductive pyclass : Type :=
| C_object | C_NoneType
| C_bool | C_int | C_float | C_complex
| C_str | C_tuple | C_list | C_ndarray
| C_Number | C_Complex | C_Real | C_Rational | C_Integral
| C_Iterable | C_Sequence
| C_generic | C_number | C_integer | C_signedinteger | C_unsignedinteger
| C_inexact | C_floating | C_complexfloating
| C_np (d : dtype).

Scheme Equality for dtype.
Scheme Equality for pyclass.

(** Direct bases of a class, together with the abstract classes it is
    registered with.  [bool] derives from [int]; [int], [float] and
    [complex] are registered with [Integral], [Real] and [Complex];
    NumPy registers [integer], [floating], [inexact] and [number] with
    [Integral], [Real], [Complex] and [Number]; [np.float64] and
    [np.complex128] also derive from [float] and [complex], while
    [np.bool_] derives from [np.generic] alone. *)
Definition parents (c : pyclass) : list pyclass :=
  match c with
  | C_object => []
  | C_NoneType => [C_object]
  | C_bool => [C_int]
  | C_int => [C_object; C_Integral]
  | C_float => [C_object; C_Real]
  | C_complex => [C_object; C_Complex]
  | C_str | C_tuple | C_list => [C_object; C_Sequence]
  | C_ndarray => [C_object; C_Iterable]
  | C_Number => [C_object]
  | C_Complex => [C_Number]
  | C_Real => [C_Complex]
  | C_Rational => [C_Real]
  | C_Integral => [C_Rational]
  | C_Iterable => [C_object]
  | C_Sequence => [C_Iterable]
  | C_generic => [C_object]
  | C_number => [C_generic; C_Number]
  | C_integer => [C_number; C_Integral]
  | C_signedinteger | C_unsignedinteger => [C_integer]
  | C_inexact => [C_number; C_Complex]
  | C_floating => [C_inexact; C_Real]
  | C_complexfloating => [C_inexact]
  | C_np bool_ => [C_generic]
  | C_np (int8 | int16 | int32 | int64) => [C_signedinteger]
  | C_np (uint8 | uint16 | uint32 | uint64) => [C_unsignedinteger]
  | C_np (float16 | float32) => [C_floating]
  | C_np float64 => [C_floating; C_float]
  | C_np complex64 => [C_complexfloating]
  | C_np complex128 => [C_complexfloating; C_complex]
  end.

Fixpoint ancestors (fuel : nat) (c : pyclass) : list pyclass :=
  c :: match fuel with
       | O => []
       | S f => flat_map (ancestors f) (parents c)
       end.

(** [issubclass(c, k)]; the longest chain, from [bool] to [object]
    through the numeric tower, has eight classes. *)
Definition issubclass (c k : pyclass) : bool :=
  existsb (pyclass_beq k) (ancestors 8 c).

(** [np.issubdtype(d, k)] for a dtype [d] and a class [k] of NumPy's
    scalar hierarchy, [np.generic] and below: there it is
    [issubclass(d.type, k)].  The checks of this module pass it
    [np.number], [np.floating] and [np.integer].  A base of another
    kind is first turned into a dtype by NumPy; that step is not
    modelled, and the properties of [check_is_subdtype] that depend on
    the answer are stated for NumPy's classes ([numpy_base]). *)
Definition issubdtype (d : dtype) (k : pyclass) : bool :=
  issubclass (C_np d) k.

Definition dtype_is_complex (d : dtype) : bool :=
  match d with complex64 | complex128 => true | _ => false end.

(* ================================================================== *)
(** ** Arrays and Python values *)

(** An n-dimensional array: its dtype, its shape and its elements in
    row-major order. *)
Record ndarray : Type := mk_ndarray {
  arr_dtype : dtype;
  arr_shape : list Z;
  arr_data : list scalar
}.

Definition ndim (a : ndarray) : Z := Z.of_nat (length (arr_shape a)).
Definition shape_size (s : list Z) : Z := fold_right Z.mul 1 s.
Definition size (a : ndarray) : Z := shape_size (arr_shape a).

Definition scalar_fits (d : dtype) (x : scalar) : bool :=
  match x with
  | SReal _ => negb (dtype_is_complex d)
  | SCplx _ _ => dtype_is_complex d
  end.

(** Well-formed arrays: non-negative dimensions, as many elements as
    the shape announces, each of the kind of the dtype. *)
Definition wf_array (a : ndarray) : bool :=
  forallb (fun n => 0 <=? n) (arr_shape a)
  && (Z.of_nat (length (arr_data a)) =? size a)
  && forallb (scalar_fits (arr_dtype a)) (arr_data a).

(** Python values that are not NumPy objects. *)
Inductive value : Type :=
| VNone
| VBool (b : bool)
| VInt (z : Z)
| VFloat (x : xreal)
| VComplex (re im : xreal)
| VStr (s : string)
| VTuple (l : list value)
| VList (l : list value).

(** Any object handed to a check. *)
Inductive pyobj : Type :=
| Val (v : value)
| NpScalar (d : dtype) (x : scalar)
| Arr (a : ndarray).

Definition type_of_value (v : value) : pyclass :=
  match v with
  | VNone => C_NoneType
  | VBool _ => C_bool
  | VInt _ => C_int
  | VFloat _ => C_float
  | VComplex _ _ => C_complex
  | VStr _ => C_str
  | VTuple _ => C_tuple
  | VList _ => C_list
  end.

Definition type_of (o : pyobj) : pyclass :=
  match o with
  | Val v => type_of_value v
  | NpScalar d _ => C_np d
  | Arr _ => C_ndarray
  end.

(** The number a Python value denotes, if it is one. *)
Definition num_of_value (v : value) : option scalar :=
  match v with
  | VBool b => Some (s_of_bool b)
  | VInt z => Some (s_of_Z z)
  | VFloat x => Some (SReal x)
  | VComplex re im => Some (SCplx re im)
  | _ => None
  end.

(** Python's [==] on values: numbers compare by value across types,
    strings, tuples and lists with their own kind, element by element. *)
Fixpoint py_eq (a b : value) : bool :=
  match a, b with
  | VNone, VNone => true
  | VStr s, VStr t => String.eqb s t
  | VTuple l, VTuple m =>
      (fix go (l m : list value) : bool :=
         match l, m with
         | [], [] => true
         | x :: l', y :: m' => py_eq x y && go l' m'
         | _, _ => false
         end) l m
  | VList l, VList m =>
      (fix go (l m : list value) : bool :=
         match l, m with
         | [], [] => true
         | x :: l', y :: m' => py_eq x y && go l' m'
         | _, _ => false
         end) l m
  | _, _ =>
      match num_of_value a, num_of_value b with
      | Some x, Some y => s_eq x y
      | _, _ => false
      end
  end.

(** [x in seq] for a list or tuple literal [seq]. *)
Definition py_in (x : value) (seq : list value) : bool :=
  existsb (py_eq x) seq.

(** [isinstance(d, int) and d >= n] style tests need the integer a
    value of class [int] (or [bool]) holds. *)
Definition int_of_value (v : value) : option Z :=
  match v with
  | VBool b => Some (if b then 1 else 0)
  | VInt z => Some z
  | _ => None
  end.

(** The second argument of [isinstance]: a class or a tuple of classes. *)
Inductive classinfo : Type :=
| CI_class (c : pyclass)
| CI_tuple (cs : list pyclass).

Definition isinstance_class (c : pyclass) (ci : classinfo) : bool :=
  match ci with
  | CI_class k => issubclass c k
  | CI_tuple ks => existsb (issubclass c) ks
  end.

Definition isinstance (o : pyobj) (ci : classinfo) : bool :=
  isinstance_class (type_of o) ci.

(* ================================================================== *)
(** ** Exceptions and messages *)

(** A message is kept as the f-string that builds it: literal text
    (and interpolated strings, which print as themselves) next to the
    interpolated objects, whose rendering is Python's and NumPy's. *)
Inductive frag : Type :=
| Txt (s : string)
| FInt (z : Z)
| FObj (o : pyobj)
| FDtype (d : dtype)
| FClass (c : pyclass)
| FClassinfo (ci : classinfo).

Definition message : Type := list frag.

Inductive exn_kind : Type :=
| TypeError | ValueError | OverflowError | RuntimeError
| NotImplementedError.

Inductive exn : Type := Exn (k : exn_kind) (m : message).

Definition exn_kind_of (e : exn) : exn_kind := let 'Exn k _ := e in k.

Scheme Equality for exn_kind.

Inductive result (A : Type) : Type :=
| Return (a : A)
| Raise (e : exn).
Arguments Return {A} a.
Arguments Raise {A} e.

Definition bind {A B : Type} (c : result A) (k : A -> result B) : result B :=
  match c with
  | Return a => k a
  | Raise e => Raise e
  end.

Declare Scope check_scope.
Delimit Scope check_scope with check.
Notation "x <- c ;; k" := (bind c (fun x => k))
  (at level 61, c at next level, right associativity) : check_scope.
Notation "c ;; k" := (bind c (fun _ => k))
  (at level 61, right associativity) : check_scope.
Local Open Scope check_scope.

(** A check passes by returning nothing. *)
Definition Pass : result unit := Return tt.

(** [try: c except K: h]. *)
Definition try_except {A : Type} (c : result A) (k : exn_kind)
    (h : exn -> result A) : result A :=
  match c with
  | Raise e => if exn_kind_beq (exn_kind_of e) k then h e else Raise e
  | r => r
  end.

Abbreviation raise_TypeError m := (Raise (Exn TypeError m)).
Abbreviation raise_ValueError m := (Raise (Exn ValueError m)).

Definition passes (r : result unit) : Prop := r = Pass.
Definition raises {A : Type} (k : exn_kind) (r : result A) : Prop :=
  exists m, r = Raise (Exn k m).

(** The text a message starts with. *)
Definition leading_text (m : message) : string :=
  match m with
  | Txt s :: _ => s
  | _ => EmptyString
  end.

(** A message all of whose fragments are text reads as their
    concatenation. *)
Fixpoint plain_text (m : message) : option string :=
  match m with
  | [] => Some EmptyString
  | Txt s :: m' => option_map (String.append s) (plain_text m')
  | _ :: _ => None
  end.

(* ================================================================== *)
(** ** Instance, string and iterable checks *)

(** [check_is_instance].  [name] is a string here, so the guard that
    raises when it is not one never fires; [classinfo] is a class or a
    tuple of classes, the form to which the source brings a [Union]. *)
Definition check_is_instance (obj : pyobj) (classinfo : classinfo)
    (allow_subclass : bool) (name : string) : result unit :=
  let num_classes :=
    match classinfo with
    | CI_tuple cs => length cs
    | CI_class _ => 1%nat
    end in
  let is_instance := isinstance obj classinfo in
  let fail (msg_body : string) :=
    raise_TypeError [Txt name; Txt " "; Txt msg_body; Txt " ";
                     FClassinfo classinfo; Txt ". Got ";
                     FClass (type_of obj); Txt " instead."] in
  if allow_subclass && negb is_instance then
    if Nat.eqb num_classes 1
    then fail "must be an instance of"%string
    else fail "must be an instance of any type"%string
  else if negb allow_subclass then
    match classinfo with
    | CI_tuple cs =>
        if negb (existsb (pyclass_beq (type_of obj)) cs)
        then fail "must have one of the following types"%string
        else Pass
    | CI_class c =>
        if negb (pyclass_beq (type_of obj) c)
        then fail "must have type"%string
        else Pass
    end
  else Pass.

Definition check_is_type (obj : pyobj) (classinfo : classinfo)
    (name : string) : result unit :=
  try_except (check_is_instance obj classinfo false name)
             TypeError (fun e => Raise e).

Definition check_is_string (obj : pyobj) (allow_subclass : bool)
    (name : string) : result unit :=
  try_except (check_is_instance obj (CI_class C_str) allow_subclass name)
             TypeError (fun e => Raise e).

Definition check_is_sequence (obj : pyobj) (name : string) : result unit :=
  try_except (check_is_instance obj (CI_class C_Sequence) true name)
             TypeError (fun e => Raise e).

Definition check_is_iterable (obj : pyobj) (name : string) : result unit :=
  try_except (check_is_instance obj (CI_class C_Iterable) true name)
             TypeError (fun e => Raise e).

Fixpoint chars_of (s : string) : list value :=
  match s with
  | EmptyString => []
  | String c s' => VStr (String c EmptyString) :: chars_of s'
  end.

(** The items a [for] loop over a value visits. *)
Definition py_iter (v : value) : list value :=
  match v with
  | VTuple l | VList l => l
  | VStr s => chars_of s
  | _ => []
  end.

(** The checks of a list comprehension, run in order until one raises. *)
Fixpoint for_each {A : Type} (f : A -> result unit) (l : list A)
    : result unit :=
  match l with
  | [] => Pass
  | x :: l' => f x ;; for_each f l'
  end.

Definition check_is_iterable_of_some_type (iterable_obj : value)
    (some_type : classinfo) (allow_subclass : bool) (name : string)
    : result unit :=
  check_is_iterable (Val iterable_obj) name ;;
  try_except
    (for_each
       (fun item =>
          check_is_instance (Val item) some_type allow_subclass
            ("All items of " ++ name)%string)
       (py_iter iterable_obj))
    TypeError (fun e => Raise e).

Definition check_is_iterable_of_strings (iterable_obj : value)
    (allow_subclass : bool) (name : string) : result unit :=
  try_except
    (check_is_iterable_of_some_type iterable_obj (CI_class C_str)
       allow_subclass name)
    TypeError (fun e => Raise e).

(** [string_in in string_iterable] once both arguments are checked:
    membership in a list or tuple, containment in a string. *)
Definition py_contains (container : value) (x : value) : bool :=
  match container, x with
  | VStr s, VStr t =>
      match String.index 0 t s with Some _ => true | None => false end
  | _, _ => py_in x (py_iter container)
  end.

Definition newline_tab : string :=
  String (ascii_of_nat 10) (String (ascii_of_nat 9) EmptyString).

Definition str_of_value (v : value) : string :=
  match v with VStr s => s | _ => EmptyString end.

Definition check_is_string_in_iterable (string_in : value)
    (string_iterable : value) (name : string) : result unit :=
  check_is_string (Val string_in) true name ;;
  check_is_iterable_of_strings string_iterable true "String Iterable" ;;
  if negb (py_contains string_iterable string_in) then
    raise_ValueError
      [Txt name; Txt " '"; Txt (str_of_value string_in);
       Txt "' is not in the iterable. ";
       Txt name; Txt " must be one of: "; Txt newline_tab;
       FObj (Val string_iterable)]
  else Pass.

(** [check_is_number].  The final [else] of the source raises
    [NotImplementedError]; the membership check before it leaves no
    definition to reach it with. *)
Definition check_is_number (num : pyobj) (definition : value)
    (must_be_real : bool) (name : string) : result unit :=
  check_is_string_in_iterable definition
    (VList [VStr "abstract"; VStr "builtin"; VStr "numpy"]) "String" ;;
  valid_type <-
    (if py_eq definition (VStr "abstract") then
       Return (if must_be_real then CI_class C_Real else CI_class C_Number)
     else if py_eq definition (VStr "builtin") then
       Return (if must_be_real then CI_tuple [C_float; C_int]
               else CI_tuple [C_float; C_int; C_complex])
     else if py_eq definition (VStr "numpy") then
       Return (if must_be_real then CI_tuple [C_floating; C_integer]
               else CI_class C_number)
     else Raise (Exn NotImplementedError [])) ;;
  try_except (check_is_instance num valid_type true name)
             TypeError (fun e => Raise e).

(* ================================================================== *)
(** ** Conversion to arrays *)

Definition dtype_rank (d : dtype) : nat :=
  match d with
  | bool_ => 0
  | complex64 | complex128 => 3
  | float16 | float32 | float64 => 2
  | _ => 1
  end.

(** The dtype of an array built from elements of dtypes [d1] and [d2]
    taken among those Python numbers convert to. *)
Definition promote (d1 d2 : dtype) : dtype :=
  if Nat.leb (dtype_rank d2) (dtype_rank d1) then d1 else d2.

(** An element stored under dtype [d]. *)
Definition coerce (d : dtype) (x : scalar) : scalar :=
  if dtype_is_complex d
  then let '(re, im) := cparts x in SCplx re im
  else x.

Definition list_eqb_Z (a b : list Z) : bool :=
  (Nat.eqb (length a) (length b))
  && forallb (fun p => fst p =? snd p) (combine a b).

(** Stack converted items of one common shape along a new first axis. *)
Definition stack (items : list ndarray) : option ndarray :=
  match items with
  | [] => Some (mk_ndarray float64 [0] [])
  | first :: _ =>
      if forallb (fun a => list_eqb_Z (arr_shape a) (arr_shape first)) items
      then
        let d := fold_right (fun a => promote (arr_dtype a)) bool_ items in
        Some (mk_ndarray d
                (Z.of_nat (length items) :: arr_shape first)
                (map (coerce d) (flat_map arr_data items)))
      else None
  end.

Fixpoint array_of_value (v : value) : option ndarray :=
  match v with
  | VBool b => Some (mk_ndarray bool_ [] [s_of_bool b])
  | VInt z => Some (mk_ndarray int64 [] [s_of_Z z])
  | VFloat x => Some (mk_ndarray float64 [] [SReal x])
  | VComplex re im => Some (mk_ndarray complex128 [] [SCplx re im])
  | VTuple l | VList l =>
      match
        (fix go (l : list value) : option (list ndarray) :=
           match l with
           | [] => Some []
           | x :: l' =>
               match array_of_value x, go l' with
               | Some a, Some rest => Some (a :: rest)
               | _, _ => None
               end
           end) l
      with
      | Some items => stack items
      | None => None
      end
  | VNone | VStr _ => None
  end.

(** Modelled from the spec: [cast_to_ndarray] of
    [pyvista.core.utilities.arrays], the collaborator that returns a
    materialized array with a concrete dtype and shape for an array-like
    or scalar-like input.  An array is returned as it is, a number
    becomes a 0-dimensional array, a rectangular nesting of sequences of
    numbers an array of that shape; anything else (ragged nestings,
    [None], and text, for which this model has no dtype) is refused with
    a value error. *)
Definition cast_to_ndarray (o : pyobj) : result ndarray :=
  match o with
  | Arr a => Return a
  | NpScalar d x => Return (mk_ndarray d [] [x])
  | Val v =>
      match array_of_value v with
      | Some a => Return a
      | None =>
          raise_ValueError
            [Txt "Input cannot be cast as "; FClass C_ndarray; Txt "."]
      end
  end.

(** [arr if isinstance(arr, np.ndarray) else cast_to_ndarray(arr)]. *)
Definition as_ndarray (o : pyobj) : result ndarray :=
  match o with
  | Arr a => Return a
  | _ => cast_to_ndarray o
  end.

(* ================================================================== *)
(** ** Dtype checks *)

Definition classinfo_list (ci : classinfo) : list pyclass :=
  match ci with
  | CI_class c => [c]
  | CI_tuple cs => cs
  end.

(** [check_is_subdtype] on the dtype its subject resolves to. *)
Definition check_is_subdtype (input_obj : dtype) (base_dtype : classinfo)
    (name : string) : result unit :=
  let bases := classinfo_list base_dtype in
  if existsb (issubdtype input_obj) bases then Pass
  else
    let msg := [Txt name; Txt " has incorrect dtype of '";
                FDtype input_obj; Txt "'. "] in
    match bases with
    | [b] =>
        raise_TypeError
          (msg ++ [Txt "The dtype must be a subtype of "; FClass b; Txt "."])
    | _ =>
        raise_TypeError
          (msg ++ [Txt "The dtype must be a subtype of at least one of ";
                   Txt (String (ascii_of_nat 10) EmptyString);
                   FClassinfo base_dtype; Txt "."])
    end.

Definition check_is_numeric (arr : pyobj) (name : string) : result unit :=
  arr <- as_ndarray arr ;;
  if existsb (dtype_beq (arr_dtype arr))
       [int32; int64; float32; float64; complex128]
  then Pass
  else
    try_except
      (check_is_subdtype (arr_dtype arr) (CI_class C_number) name)
      TypeError
      (fun e => raise_TypeError [Txt name; Txt " must be numeric."]).

Definition check_is_real (arr : pyobj) (name : string) : result unit :=
  arr <- as_ndarray arr ;;
  if existsb (dtype_beq (arr_dtype arr)) [int32; int64; float32; float64]
  then Pass
  else
    try_except
      (check_is_subdtype (arr_dtype arr)
         (CI_tuple [C_floating; C_integer]) name)
      TypeError
      (fun e => raise_TypeError [Txt name; Txt " must have real numbers."]).

(* ================================================================== *)
(** ** Value checks *)


(** The dtype of [np.floor]'s result: floats keep theirs, booleans and
    integers are converted to the smallest float that holds them. *)
Definition floor_dtype (d : dtype) : dtype :=
  match d with
  | bool_ | int8 | uint8 => float16
  | int16 | uint16 => float32
  | int32 | uint32 | int64 | uint64 => float64
  | other => other
  end.

(** [np.floor]: defined on boolean, integer and floating arrays;
    NumPy has no floor of a complex array and raises a type error. *)
Definition np_floor (a : ndarray) : result ndarray :=
  if dtype_is_complex (arr_dtype a) then
    raise_TypeError [Txt "ufunc 'floor' not supported for the input types"]
  else
    Return (mk_ndarray (floor_dtype (arr_dtype a)) (arr_shape a)
              (map s_floor (arr_data a))).

(** [np.array_equal]: same shape and all elements equal. *)
Definition array_equal (a b : ndarray) : bool :=
  list_eqb_Z (arr_shape a) (arr_shape b)
  && (Nat.eqb (length (arr_data a)) (length (arr_data b)))
  && forallb (fun p => s_eq (fst p) (snd p))
       (combine (arr_data a) (arr_data b)).

Definition check_is_integerlike (arr : pyobj) (strict : bool)
    (name : string) : result unit :=
  arr <- as_ndarray arr ;;
  if strict then
    try_except
      (check_is_subdtype (arr_dtype arr) (CI_class C_integer) "Input")
      TypeError (fun e => Raise e)
  else
    floored <- np_floor arr ;;
    if negb (array_equal arr floored)
    then raise_ValueError [Txt name; Txt " must have integer-like values."]
    else Pass.

(** The number a comparison value stands for. *)
Definition scalar_of_obj (o : pyobj) : option scalar :=
  match o with
  | Val v => num_of_value v
  | NpScalar _ x => Some x
  | Arr a =>
      match arr_shape a, arr_data a with
      | [], [x] => Some x
      | _, _ => None
      end
  end.

(** *** The dtype in which an array is compared with a number

    [arr > value] is computed by one loop on operands of one dtype:
    NumPy converts the array and the number to
    [np.result_type(arr, value)] first.  The source needs NumPy 1.x
    (it names [np.complex_]), whose rules these are: dtypes are
    promoted along NumPy's lattice, and when the array has one or more
    dimensions and its kind (boolean, integer, inexact) is not below
    the kind of the number, the number counts with the smallest dtype
    that holds its value. *)

Inductive dkind : Type := K_bool | K_int | K_uint | K_float | K_complex.

Definition dtype_kind (d : dtype) : dkind :=
  match d with
  | bool_ => K_bool
  | int8 | int16 | int32 | int64 => K_int
  | uint8 | uint16 | uint32 | uint64 => K_uint
  | float16 | float32 | float64 => K_float
  | complex64 | complex128 => K_complex
  end.

(** The size of an element, in bits. *)
Definition dtype_bits (d : dtype) : Z :=
  match d with
  | bool_ | int8 | uint8 => 8
  | int16 | uint16 | float16 => 16
  | int32 | uint32 | float32 => 32
  | int64 | uint64 | float64 | complex64 => 64
  | complex128 => 128
  end.

Definition int_of_bits (n : Z) : dtype :=
  if n <=? 8 then int8 else if n <=? 16 then int16
  else if n <=? 32 then int32 else int64.

Definition uint_of_bits (n : Z) : dtype :=
  if n <=? 8 then uint8 else if n <=? 16 then uint16
  else if n <=? 32 then uint32 else uint64.

Definition float_of_bits (n : Z) : dtype :=
  if n <=? 16 then float16 else if n <=? 32 then float32 else float64.

Definition complex_of_bits (n : Z) : dtype :=
  if n <=? 64 then complex64 else complex128.

(** The size of the smallest float that holds every value of a dtype
    (of each part, for a complex dtype). *)
Definition float_bits (d : dtype) : Z :=
  match dtype_kind d with
  | K_bool => 16
  | K_int | K_uint =>
      if dtype_bits d <=? 8 then 16
      else if dtype_bits d <=? 16 then 32 else 64
  | K_float => dtype_bits d
  | K_complex => dtype_bits d / 2
  end.

(** A signed integer of [n] bits with an unsigned one of [m] bits: the
    signed type that holds both, and [float64] when none does. *)
Definition signed_with (n m : Z) : dtype :=
  if m <? n then int_of_bits n
  else if m <? 64 then int_of_bits (2 * m)
  else float64.

(** [np.promote_types]. *)
Definition promote_types (a b : dtype) : dtype :=
  match dtype_kind a, dtype_kind b with
  | K_bool, _ => b
  | _, K_bool => a
  | K_int, K_int => int_of_bits (Z.max (dtype_bits a) (dtype_bits b))
  | K_uint, K_uint => uint_of_bits (Z.max (dtype_bits a) (dtype_bits b))
  | K_int, K_uint => signed_with (dtype_bits a) (dtype_bits b)
  | K_uint, K_int => signed_with (dtype_bits b) (dtype_bits a)
  | K_complex, _ | _, K_complex =>
      complex_of_bits (2 * Z.max (float_bits a) (float_bits b))
  | _, _ => float_of_bits (Z.max (float_bits a) (float_bits b))
  end.

(** 2 to the power [e], for an exponent of either sign. *)
Definition Qpow2 (e : Z) : Q := Qpower 2 e.

(** The binary exponent of a positive rational: the [e] with
    [2^e <= q < 2^(e+1)]. *)
Definition Qlog2 (q : Q) : Z :=
  let e := Z.log2 (Qnum q) - Z.log2 (Zpos (Qden q)) in
  if Qle_bool (Qpow2 e) q then e else e - 1.

(** Rounding to the nearest integer, a tie to the even one. *)
Definition round_half_even (m : Q) : Z :=
  let f := Qfloor m in
  match Qcompare (m - inject_Z f) (1 # 2) with
  | Lt => f
  | Gt => f + 1
  | Eq => if Z.even f then f else f + 1
  end.

(** Rounding to the nearest binary float with a significand of [prec]
    bits, whose smallest subnormal is [2^emin]; a tie goes to the even
    significand.  No overflow is modelled: the dtype NumPy converts to
    holds the values converted. *)
Definition round_to (prec emin : Z) (q : Q) : Q :=
  let q := Qred q in
  if Qeq_bool q 0 then 0
  else
    let s := Qabs q in
    let u := Z.max (Qlog2 s - prec + 1) emin in
    let k := round_half_even (s / Qpow2 u) in
    (if Qle_bool 0 q then 1 else -1) * inject_Z k * Qpow2 u.

(** Precision and smallest subnormal of a floating dtype, and of the
    parts of a complex one. *)
Definition float_format (d : dtype) : option (Z * Z) :=
  match d with
  | float16 => Some (11, -24)
  | float32 | complex64 => Some (24, -149)
  | float64 | complex128 => Some (53, -1074)
  | _ => None
  end.

Definition xround (prec emin : Z) (x : xreal) : xreal :=
  match x with
  | Fin q => Fin (round_to prec emin q)
  | other => other
  end.

(** The conversion of an element of dtype [source] to dtype [target],
    for a target promoted from the source.  A conversion to a float or
    complex dtype rounds; one to an integer dtype keeps the value, which
    the target holds. *)
Definition np_cast (target source : dtype) (x : scalar) : scalar :=
  if dtype_beq target source then x
  else
    match float_format target with
    | Some (prec, emin) =>
        match x with
        | SReal r => SReal (xround prec emin r)
        | SCplx re im => SCplx (xround prec emin re) (xround prec emin im)
        end
    | None => x
    end.

(** [arr.astype(d)]. *)
Definition astype (d : dtype) (arr : ndarray) : ndarray :=
  mk_ndarray d (arr_shape arr) (map (np_cast d (arr_dtype arr)) (arr_data arr)).

(** [np.min_scalar_type] of an integer, with the mark NumPy keeps when
    it is an unsigned type whose signed counterpart holds the value
    too. *)
Definition min_int_type (z : Z) : dtype * bool :=
  if z <? 0 then
    ((if -128 <=? z then int8 else if -32768 <=? z then int16
      else if - 2 ^ 31 <=? z then int32 else int64), false)
  else if z <=? 255 then (uint8, z <=? 127)
  else if z <=? 65535 then (uint16, z <=? 32767)
  else if z <=? 2 ^ 32 - 1 then (uint32, z <=? 2 ^ 31 - 1)
  else (uint64, z <=? 2 ^ 63 - 1).

(** The double nearest to 3.4e38, NumPy's bound for a value that
    [float32] holds. *)
Definition float32_limit : Q := round_to 53 (-1074) (inject_Z (34 * 10 ^ 37)).

(** [np.min_scalar_type] of a float of dtype [own]: [float16] for a
    value strictly between -65000 and 65000 and for a non-finite one,
    then [float32] within its bound, and not more than [own]. *)
Definition min_float_type (own : dtype) (x : xreal) : dtype :=
  match own, x with
  | float16, _ => float16
  | _, Fin q =>
      if negb (Qle_bool q (-65000)) && negb (Qle_bool 65000 q) then float16
      else
        match own with
        | float32 => float32
        | _ =>
            if negb (Qle_bool q (- float32_limit))
               && negb (Qle_bool float32_limit q)
            then float32 else float64
        end
  | _, _ => float16
  end.

(** [np.min_scalar_type] of a number of dtype [d].  A boolean or a
    complex bound does not reach a comparison ([check_is_real] refuses
    it), so these keep their dtype here. *)
Definition min_scalar_type (d : dtype) (v : scalar) : dtype * bool :=
  match dtype_kind d, v with
  | (K_int | K_uint), SReal (Fin q) => min_int_type (Qfloor q)
  | K_float, SReal x => (min_float_type d x, false)
  | _, _ => (d, false)
  end.

Definition to_signed (d : dtype) : dtype :=
  match d with
  | uint8 => int8
  | uint16 => int16
  | uint32 => int32
  | uint64 => int64
  | other => other
  end.

(** NumPy's three kinds for value-based promotion. *)
Definition kind_order (d : dtype) : nat :=
  match dtype_kind d with
  | K_bool => 0
  | K_int | K_uint => 1
  | K_float | K_complex => 2
  end.

Definition unsigned_or_bool (d : dtype) : bool :=
  match dtype_kind d with
  | K_bool | K_uint => true
  | _ => false
  end.

(** [np.result_type(arr, value)] for a number [value] of dtype [d]. *)
Definition result_type (arr : ndarray) (d : dtype) (v : scalar) : dtype :=
  if (ndim arr =? 0) || Nat.ltb (kind_order (arr_dtype arr)) (kind_order d)
  then promote_types (arr_dtype arr) d
  else
    let '(m, small) := min_scalar_type d v in
    promote_types (arr_dtype arr)
      (if small && negb (unsigned_or_bool (arr_dtype arr))
       then to_signed m else m).

(** The dtype NumPy gives a number: a Python [int] is an [int64], or a
    [uint64] from 2^63 on; a Python [float] a [float64]. *)
Definition dtype_of_number (o : pyobj) : dtype :=
  match o with
  | Val (VBool _) => bool_
  | Val (VInt z) => if z <? 2 ^ 63 then int64 else uint64
  | Val (VComplex _ _) => complex128
  | Val _ => float64
  | NpScalar d _ => d
  | Arr a => arr_dtype a
  end.

(** [np.all(arr OP value)] on operands of one dtype. *)
Definition all_cmp (op : scalar -> scalar -> bool) (arr : ndarray)
    (value : scalar) : bool :=
  forallb (fun x => op x value) (arr_data arr).

(** [np.all(arr OP value)] for an array and a number [v] given as
    [value]: both are converted to their common dtype, then compared. *)
Definition np_all (op : scalar -> scalar -> bool) (arr : ndarray)
    (value : pyobj) (v : scalar) : bool :=
  let d := dtype_of_number value in
  let c := result_type arr d v in
  all_cmp op (astype c arr) (np_cast c d v).

(** [check_is_greater_than].  [value] has passed [check_is_number] and
    [check_is_real] when the comparison is made, so it is a number. *)
Definition check_is_greater_than (arr : pyobj) (value : pyobj)
    (strict : bool) (name : string) : result unit :=
  arr <- as_ndarray arr ;;
  check_is_number value (VStr "abstract") true "Object" ;;
  check_is_real value "Array" ;;
  match scalar_of_obj value with
  | None => raise_TypeError [Txt "'>' not supported"]
  | Some v =>
      if strict && negb (np_all s_gt arr value v) then
        raise_ValueError
          [Txt name; Txt " values must all be greater than ";
           FObj value; Txt "."]
      else if negb (np_all s_ge arr value v) then
        raise_ValueError
          [Txt name; Txt " values must all be greater than or equal to ";
           FObj value; Txt "."]
      else Pass
  end.

Definition check_is_less_than (arr : pyobj) (value : pyobj)
    (strict : bool) (name : string) : result unit :=
  arr <- as_ndarray arr ;;
  check_is_number value (VStr "abstract") true "Object" ;;
  check_is_real value "Array" ;;
  match scalar_of_obj value with
  | None => raise_TypeError [Txt "'<' not supported"]
  | Some v =>
      if strict && negb (np_all s_lt arr value v) then
        raise_ValueError
          [Txt name; Txt " values must all be less than ";
           FObj value; Txt "."]
      else if negb (np_all s_le arr value v) then
        raise_ValueError
          [Txt name; Txt " values must all be less than or equal to ";
           FObj value; Txt "."]
      else Pass
  end.

Definition check_is_nonnegative (arr : pyobj) (name : string)
    : result unit :=
  try_except (check_is_greater_than arr (Val (VInt 0)) false name)
             ValueError (fun e => Raise e).

(* ================================================================== *)
(** ** Shapes *)

Definition is_None (v : value) : bool :=
  match v with VNone => true | _ => false end.

Definition tuple_of_ints (l : list Z) : value := VTuple (map VInt l).

(** The literal shapes [_validate_shape_value] returns at once. *)
Definition common_shapes : list value :=
  [tuple_of_ints [-1]; tuple_of_ints [1]; tuple_of_ints [3];
   tuple_of_ints [2]; tuple_of_ints [1; 3]; tuple_of_ints [-1; 3]].

(** [isinstance(d, int) and d >= -1]. *)
Definition _is_valid_dim (d : value) : bool :=
  match int_of_value d with
  | Some z => -1 <=? z
  | None => false
  end.

Definition is_tuple (v : value) : bool :=
  match v with VTuple _ => true | _ => false end.

(** The part of [_validate_shape_value] after the early returns. *)
Definition _validate_shape_value_general (shape : value) : result value :=
  if _is_valid_dim shape then Return (VTuple [shape])
  else if is_tuple shape && forallb _is_valid_dim (py_iter shape)
  then Return shape
  else
    check_is_instance (Val shape) (CI_tuple [C_int; C_tuple]) true "Shape" ;;
    shape <-
      (if isinstance (Val shape) (CI_class C_int)
       then Return (VTuple [shape])
       else
         check_is_iterable_of_some_type shape (CI_class C_int) true "Shape" ;;
         Return shape) ;;
    check_is_greater_than (Val shape) (Val (VInt (-1))) false "Shape" ;;
    Raise (Exn RuntimeError [Txt "This line should not be reachable."]).

Definition _validate_shape_value (shape : value) : result value :=
  if is_None shape then
    raise_TypeError [Txt "`None` is not a valid shape. Use `()` instead."]
  else if py_eq shape (VTuple []) then Return shape
  else if py_in shape common_shapes then Return shape
  else _validate_shape_value_general shape.

(** The general validation alone, as [_validate_shape_value] would run
    without its early returns for common inputs. *)
Definition _validate_shape_value_slow (shape : value) : result value :=
  if is_None shape then
    raise_TypeError [Txt "`None` is not a valid shape. Use `()` instead."]
  else _validate_shape_value_general shape.

(** [all(map(f, a, b))]: [map] stops with the shorter sequence. *)
Fixpoint all_map2 {A B : Type} (f : A -> B -> bool) (a : list A)
    (b : list B) : bool :=
  match a, b with
  | x :: a', y :: b' => f x y && all_map2 f a' b'
  | _, _ => true
  end.

(** [_shape_is_allowed], local to [check_has_shape]: [a] is the array's
    shape, [b] the allowed one, where -1 stands for any size. *)
Definition _shape_is_allowed (a b : list value) : bool :=
  if Nat.eqb (length a) (length b)
     && all_map2 (fun x y => if py_eq x y then true else py_eq y (VInt (-1)))
          a b
  then true
  else false.

Definition array_shape_value (a : ndarray) : value :=
  tuple_of_ints (arr_shape a).

(** The loop of [check_has_shape] over the allowed shapes: [true] as
    soon as one is matched, an exception as soon as one is invalid. *)
Fixpoint shape_loop (array_shape : list value) (shapes : list value)
    : result bool :=
  match shapes with
  | [] => Return false
  | input_shape :: rest =>
      input_shape <- _validate_shape_value input_shape ;;
      if _shape_is_allowed array_shape (py_iter input_shape)
      then Return true
      else shape_loop array_shape rest
  end.

Definition check_has_shape (arr : pyobj) (shape : value) (name : string)
    : result unit :=
  arr <- as_ndarray arr ;;
  let shape :=
    match shape with
    | VList _ => shape
    | _ => VList [shape]
    end in
  found <- shape_loop (py_iter (array_shape_value arr)) (py_iter shape) ;;
  if found then Pass
  else
    let msg := [Txt name; Txt " has shape "; FObj (Val (array_shape_value arr));
                Txt " which is not allowed. "] in
    match py_iter shape with
    | [only] =>
        raise_ValueError (msg ++ [Txt "Shape must be "; FObj (Val only); Txt "."])
    | _ =>
        raise_ValueError
          (msg ++ [Txt "Shape must be one of "; FObj (Val shape); Txt "."])
    end.

(* ================================================================== *)
(** ** Sortedness and ranges *)

(** The pairs [(arr[first], arr[second])] of consecutive elements along
    axis [axis] of a row-major array. *)
Definition axis_pairs (a : ndarray) (axis : nat) : list (scalar * scalar) :=
  let stride := Z.to_nat (shape_size (skipn (S axis) (arr_shape a))) in
  let d := Z.to_nat (nth axis (arr_shape a) 0) in
  flat_map
    (fun i =>
       if Nat.ltb (S (Nat.modulo (Nat.div i stride) d)) d then
         match nth_error (arr_data a) i,
               nth_error (arr_data a) (i + stride) with
         | Some x, Some y => [(x, y)]
         | _, _ => []
         end
       else [])
    (seq 0 (length (arr_data a))).

(** The comparison and the failure message of [check_is_sorted], once
    the axis is a valid non-negative index. *)
Definition sorted_along (arr : ndarray) (ascending strict : bool)
    (axis : nat) (name : string) : result unit :=
  let op :=
    if ascending && negb strict then s_le
    else if ascending && strict then s_lt
    else if negb ascending && negb strict then s_ge
    else s_gt in
  let is_sorted := forallb (fun p => op (fst p) (snd p)) (axis_pairs arr axis) in
  if negb is_sorted then
    let msg_body :=
      if size arr <=? 4 then [FObj (Arr arr)]
      else [Txt "with "; FInt (size arr); Txt " elements"] in
    let order := if ascending then "ascending"%string else "descending"%string in
    let strict := if strict then "strict "%string else EmptyString in
    raise_ValueError
      ([Txt name; Txt " "] ++ msg_body ++
       [Txt " must be sorted in "; Txt strict; Txt order; Txt " order."])
  else Pass.

(** [check_is_sorted] with its default [ascending], [strict] and
    [axis = -1], the form in which [check_is_in_range] and
    [check_has_length] call it. *)
Definition check_is_sorted_default (arr : pyobj) (name : string)
    : result unit :=
  arr <- as_ndarray arr ;;
  if ndim arr =? 0 then Pass
  else sorted_along arr true false (Z.to_nat (ndim arr - 1)) name.

(** [arr[i]] on a one-dimensional array: a NumPy scalar. *)
Definition item (a : ndarray) (i : nat) : pyobj :=
  NpScalar (arr_dtype a) (nth i (arr_data a) (SReal NaN)).

Definition check_is_in_range (arr : pyobj) (rng : pyobj)
    (strict_lower strict_upper : bool) (name : string) : result unit :=
  rng_ <- cast_to_ndarray rng ;;
  check_has_shape (Arr rng_) (VInt 2) "Range" ;;
  check_is_sorted_default (Arr rng_) "Range" ;;
  arr <- as_ndarray arr ;;
  try_except
    (check_is_greater_than (Arr arr) (item rng_ 0) strict_lower name ;;
     check_is_less_than (Arr arr) (item rng_ 1) strict_upper name)
    ValueError (fun e => Raise e).

Definition flatten (a : ndarray) : ndarray :=
  mk_ndarray (arr_dtype a) [size a] (arr_data a).

(** [int(axis)] for a value that passed [check_is_number]. *)
Definition py_int (v : value) : result Z :=
  match v with
  | VBool b => Return (if b then 1 else 0)
  | VInt z => Return z
  | VFloat (Fin q) => Return (if Qle_bool 0 q then Qfloor q else Qceiling q)
  | VFloat NaN =>
      raise_ValueError [Txt "cannot convert float NaN to integer"]
  | VFloat _ =>
      Raise (Exn OverflowError [Txt "cannot convert float infinity to integer"])
  | _ => raise_TypeError [Txt "int() argument must be a number"]
  end.

Definition check_is_sorted (arr : pyobj) (ascending strict : bool)
    (axis : value) (name : string) : result unit :=
  arr <- as_ndarray arr ;;
  if ndim arr =? 0 then Pass
  else
    resolved <-
      (if is_None axis then Return (flatten arr, -1)
       else
         axis <-
           (if negb (py_eq axis (VInt (-1))) then
              check_is_number (Val axis) (VStr "abstract") true "Axis" ;;
              check_is_integerlike (Val axis) false "Axis" ;;
              axis <- py_int axis ;;
              try_except
                (check_is_in_range (Val (VInt axis))
                   (Val (VList [VInt (- ndim arr); VInt (ndim arr - 1)]))
                   false false "Axis")
                ValueError
                (fun _ =>
                   raise_ValueError
                     [Txt "Axis "; FInt axis;
                      Txt " is out of bounds for ndim "; FInt (ndim arr);
                      Txt "."]) ;;
              Return (VInt axis)
            else Return axis) ;;
         match axis with
         | VInt z => Return (arr, if z <? 0 then ndim arr + z else z)
         | VBool b => Return (arr, if b then 1 else 0)
         | VFloat _ =>
             raise_TypeError
               [Txt "list indices must be integers or slices, not float"]
         | _ => raise_TypeError [Txt "'<' not supported"]
         end) ;;
    let '(arr, axis) := resolved in
    let index := if axis <? 0 then ndim arr + axis else axis in
    sorted_along arr ascending strict (Z.to_nat index) name.

(* ================================================================== *)
(** ** Scalars and lengths *)

(** The handler of the [try] is a bare [raise]: a type error leaves
    the check as it was raised. *)
Definition check_is_scalar (scalar : pyobj) (must_be_real : bool)
    (name : string) : result unit :=
  try_except
    (match scalar with
     | Arr a =>
         if 0 <? ndim a then
           raise_ValueError
             [Txt name; Txt " must be a 0-dimensional array, got `ndim=";
              FInt (ndim a); Txt "` instead."]
         else if must_be_real then check_is_real scalar name
         else check_is_numeric scalar name
     | _ => check_is_number scalar (VStr "abstract") must_be_real "Object"
     end)
    TypeError (fun e => Raise e).

(** [len(arr)]. *)
Definition py_len (o : pyobj) : result Z :=
  match o with
  | Val (VTuple l) | Val (VList l) => Return (Z.of_nat (length l))
  | Val (VStr s) => Return (Z.of_nat (String.length s))
  | Arr a =>
      match arr_shape a with
      | n :: _ => Return n
      | [] => raise_TypeError [Txt "len() of unsized object"]
      end
  | _ => raise_TypeError [Txt "object has no len()"]
  end.

Definition check_has_length (arr : pyobj)
    (exact_length min_length max_length : value)
    (must_be_1d allow_scalar : bool) (name : string) : result unit :=
  arr <-
    (if allow_scalar then
       if isinstance arr (CI_class C_Number) then
         a <- cast_to_ndarray arr ;;
         Return (Arr (mk_ndarray (arr_dtype a) [1] (arr_data a)))
       else
         match arr with
         | Arr a =>
             if ndim a =? 0
             then Return (Arr (mk_ndarray (arr_dtype a) [1] (arr_data a)))
             else Return arr
         | _ => Return arr
         end
     else Return arr) ;;
  check_is_instance arr (CI_tuple [C_Sequence; C_ndarray]) true name ;;
  (if must_be_1d then check_has_shape arr (VInt (-1)) "Array" else Pass) ;;
  arr_len <- py_len arr ;;
  (if negb (is_None exact_length) then
     exact_length <- cast_to_ndarray (Val exact_length) ;;
     check_is_integerlike (Arr exact_length) false "'exact_length'" ;;
     if negb (existsb (fun x => s_eq x (s_of_Z arr_len)) (arr_data exact_length))
     then
       raise_ValueError
         [Txt name; Txt " must have a length equal to any of: ";
          FObj (Arr exact_length); Txt ". ";
          Txt "Got length "; FInt arr_len; Txt " instead."]
     else Pass
   else Pass) ;;
  min_arr <-
    (if negb (is_None min_length) then
       m <- cast_to_ndarray (Val min_length) ;;
       check_is_scalar (Arr m) true "Min length" ;;
       check_is_real (Arr m) "Min length" ;;
       Return (Some m)
     else Return None) ;;
  max_arr <-
    (if negb (is_None max_length) then
       m <- cast_to_ndarray (Val max_length) ;;
       check_is_scalar (Arr m) true "Max length" ;;
       check_is_real (Arr m) "Max length" ;;
       Return (Some m)
     else Return None) ;;
  match min_arr, max_arr with
  | Some lo, Some hi =>
      match stack [lo; hi] with
      | Some both => check_is_sorted_default (Arr both) "Range"
      | None =>
          raise_ValueError
            [Txt "Input cannot be cast as "; FClass C_ndarray; Txt "."]
      end
  | _, _ => Pass
  end ;;
  match min_arr with
  | Some lo =>
      if existsb (fun x => s_lt (s_of_Z arr_len) x) (arr_data lo) then
        raise_ValueError
          [Txt name; Txt " must have a minimum length of ";
           FObj (Arr lo); Txt ". ";
           Txt "Got length "; FInt arr_len; Txt " instead."]
      else Pass
  | None => Pass
  end ;;
  match max_arr with
  | Some hi =>
      if existsb (fun x => s_gt (s_of_Z arr_len) x) (arr_data hi) then
        raise_ValueError
          [Txt name; Txt " must have a maximum length of ";
           FObj (Arr hi); Txt ". ";
           Txt "Got length "; FInt arr_len; Txt " instead."]
      else Pass
  | None => Pass
  end.

(* ================================================================== *)
(** ** Notions the properties are stated with *)

(** The definitions [check_is_number] accepts. *)
Definition definitions : list string :=
  ["abstract"; "builtin"; "numpy"]%string.

(** [isinstance(v, int)] on values. *)
Definition is_int (v : value) : bool :=
  match int_of_value v with Some _ => true | None => false end.

(** [ShapeLike = Union[int, Tuple[()], Tuple[int, ...]]]. *)
Definition is_ShapeLike (v : value) : bool :=
  match v with
  | VTuple l => forallb is_int l
  | _ => is_int v
  end.

(** A shape that [_validate_shape_value] accepts. *)
Definition valid_shape (v : value) : Prop :=
  exists t, _validate_shape_value v = Return t.

(** An array shape matches an allowed shape, taken alone. *)
Definition matches (array_shape : list value) (spec : value) : bool :=
  match _validate_shape_value spec with
  | Return t => _shape_is_allowed array_shape (py_iter t)
  | Raise _ => false
  end.

(** An element that equals its own floor. *)
Definition equals_own_floor (x : scalar) : bool := s_eq x (s_floor x).

Definition is_floating (d : dtype) : bool :=
  match d with float16 | float32 | float64 => true | _ => false end.

(** The dtypes of real numbers: integers and floats, not booleans. *)
Definition is_real_dtype (d : dtype) : bool :=
  issubdtype d C_floating || issubdtype d C_integer.

(** A bound pair as [check_is_in_range] wants it: of shape [(2,)] and
    in ascending order, equal bounds allowed. *)
Definition valid_range (r : ndarray) : bool :=
  match arr_shape r, arr_data r with
  | [2], [lo; hi] => s_le lo hi
  | _, _ => false
  end.

(** The dtypes of arrays made of Python [bool]s and [int]s. *)
Definition py_int_dtype (d : dtype) : bool :=
  match d with bool_ | int64 => true | _ => false end.

(** A value within the range of a dtype: between the least and the
    greatest integer of an integer dtype; any value for a floating or
    a complex dtype, whose elements are floats already. *)
Definition within (d : dtype) (x : scalar) : bool :=
  match dtype_kind d, x with
  | K_bool, SReal (Fin q) => (0 <=? Qfloor q) && (Qfloor q <=? 1)
  | K_int, SReal (Fin q) =>
      (- 2 ^ (dtype_bits d - 1) <=? Qfloor q)
      && (Qfloor q <? 2 ^ (dtype_bits d - 1))
  | K_uint, SReal (Fin q) =>
      (0 <=? Qfloor q) && (Qfloor q <? 2 ^ dtype_bits d)
  | (K_float | K_complex), _ => true
  | _, _ => false
  end.

(** A list or tuple of lengths, as given for [exact_length]. *)
Definition lengths (ls : list Z) : value := VList (map VInt ls).

(** Sample arrays. *)
Definition vector (d : dtype) (l : list scalar) : ndarray :=
  mk_ndarray d [Z.of_nat (length l)] l.

Definition ints (l : list Z) : ndarray := vector int64 (map s_of_Z l).

Definition floats (l : list Q) : ndarray :=
  vector float64 (map (fun q => SReal (Fin q)) l).

Definition zero_dim (d : dtype) (x : scalar) : ndarray :=
  mk_ndarray d [] [x].

Definition empty_complex : ndarray := vector complex128 [].

(** A Python [int] converted to an array. *)
Definition int_item (z : Z) : ndarray := mk_ndarray int64 [] [s_of_Z z].


(** The bases of a dtype check are classes of NumPy's scalar
    hierarchy. *)
Definition numpy_base (base : classinfo) : bool :=
  forallb (fun k => issubclass k C_generic) (classinfo_list base).

(** The failure of a check that another one calls is passed on: when
    [sub] raises, [caller] raises the same exception. *)
Definition passes_on {A B : Type} (sub : result A) (caller : result B)
    : Prop :=
  forall e, sub = Raise e -> caller = Raise e.

(** A shape that takes none of the early returns of
    [_validate_shape_value] and meets neither of its two accepting
    tests, so that the checks after them are reached. *)
Definition needs_checks (shape : value) : bool :=
  negb (is_None shape)
  && negb (py_eq shape (VTuple []))
  && negb (py_in shape common_shapes)
  && negb (_is_valid_dim shape)
  && negb (is_tuple shape && forallb _is_valid_dim (py_iter shape)).

(** The subject of [check_has_length] got as far as having its length
    [n] taken: it is a sequence or an array, and one-dimensional if
    that was asked. *)
Definition length_taken (arr : pyobj) (must_be_1d : bool) (name : string)
    (n : Z) : Prop :=
  check_is_instance arr (CI_tuple [C_Sequence; C_ndarray]) true name = Pass
  /\ (must_be_1d = true -> check_has_shape arr (VInt (-1)) "Array" = Pass)
  /\ py_len arr = Return n.

(** The [exact_length] of [check_has_length] is absent, or a valid
    collection of lengths that holds [n]. *)
Definition exact_length_met (n : Z) (exact_length : value) : Prop :=
  is_None exact_length = true
  \/ exists e,
       cast_to_ndarray (Val exact_length) = Return e
       /\ check_is_integerlike (Arr e) false "'exact_length'" = Pass
       /\ existsb (fun x => s_eq x (s_of_Z n)) (arr_data e) = true.

(** A length bound of [check_has_length]: absent, or converted to an
    array that passed the two checks made on it under [label]. *)
Definition length_bound (bound : value) (label : string)
    (m : option ndarray) : Prop :=
  (is_None bound = true /\ m = None)
  \/ exists b,
       cast_to_ndarray (Val bound) = Return b
       /\ check_is_scalar (Arr b) true label = Pass
       /\ check_is_real (Arr b) label = Pass
       /\ m = Some b.

(** Optional arguments: [None], or an integer, or a list of lengths. *)
Definition opt_int (o : option Z) : value :=
  match o with Some z => VInt z | None => VNone end.


(** The array a value converts to, when it converts. *)
Definition item_of (v : value) : ndarray :=
  match array_of_value v with
  | Some a => a
  | None => int_item 0
  end.

(** The integer of a value of class [int] or [bool]. *)
Definition int_or_zero (v : value) : Z :=
  match int_of_value v with Some z => z | None => 0 end.

(** The comparison [check_is_sorted] makes between an element and its
    successor, by direction and strictness. *)
Definition sorted_op (ascending strict : bool) : scalar -> scalar -> bool :=
  match ascending, strict with
  | true, false => s_le
  | true, true => s_lt
  | false, false => s_ge
  | false, true => s_gt
  end.

(** An element next to its successor, along a list. *)
Definition adjacent (l : list scalar) : list (scalar * scalar) :=
  combine l (tl l).

(** [np.isnan] on one element: a complex number is NaN when either of
    its parts is. *)
Definition s_isnan (x : scalar) : bool :=
  let '(re, im) := cparts x in xisnan re || xisnan im.

(** The Python values that are real numbers for the comparison checks:
    of class [int] or [float], and not of class [bool]. *)
Definition is_real_number (v : value) : bool :=
  match v with
  | VInt _ | VFloat _ => true
  | _ => false
  end.

(** The number of a value, for values that are numbers. *)
Definition number_of (v : value) : scalar :=
  match num_of_value v with
  | Some x => x
  | None => SReal NaN
  end.

(* ================================================================== *)
(** * Properties *)

(** ** Numbers *)

Lemma Qeq_bool_Z (a b : Z) : Qeq_bool (inject_Z a) (inject_Z b) = (a =? b).
Proof. unfold Qeq_bool; cbn. now rewrite !Z.mul_1_r. Qed.

Lemma Qle_bool_Z (a b : Z) : Qle_bool (inject_Z a) (inject_Z b) = (a <=? b).
Proof. unfold Qle_bool; cbn. now rewrite !Z.mul_1_r. Qed.

Lemma xeqb_Z (a b : Z) : xeqb (xreal_of_Z a) (xreal_of_Z b) = (a =? b).
Proof. apply Qeq_bool_Z. Qed.

Lemma xltb_Z (a b : Z) : xltb (xreal_of_Z a) (xreal_of_Z b) = (a <? b).
Proof. cbn. rewrite Qle_bool_Z. lia. Qed.

Ltac int_cmp :=
  unfold s_le, s_lt, s_ge, s_gt, s_eq, s_cmp, s_of_Z, xgtb, xgeb, xleb;
  cbn [cparts xisnan negb];
  change (Fin 0) with (xreal_of_Z 0);
  rewrite ?xeqb_Z, ?xltb_Z; cbn [Z.eqb Z.ltb Z.compare]; lia.

Lemma s_le_Z (a b : Z) : s_le (s_of_Z a) (s_of_Z b) = (a <=? b).
Proof. int_cmp. Qed.
Lemma s_lt_Z (a b : Z) : s_lt (s_of_Z a) (s_of_Z b) = (a <? b).
Proof. int_cmp. Qed.
Lemma s_ge_Z (a b : Z) : s_ge (s_of_Z a) (s_of_Z b) = (b <=? a).
Proof. int_cmp. Qed.
Lemma s_gt_Z (a b : Z) : s_gt (s_of_Z a) (s_of_Z b) = (b <? a).
Proof. int_cmp. Qed.
Lemma s_eq_Z (a b : Z) : s_eq (s_of_Z a) (s_of_Z b) = (a =? b).
Proof. int_cmp. Qed.

Lemma floor_Z (z : Z) : s_floor (s_of_Z z) = s_of_Z z.
Proof. unfold s_floor, s_of_Z, xreal_of_Z, xfloor. now rewrite Qfloor_Z. Qed.

Lemma int_equals_own_floor (z : Z) : equals_own_floor (s_of_Z z) = true.
Proof. unfold equals_own_floor. rewrite floor_Z, s_eq_Z. lia. Qed.

(** Reflection of the rational comparisons into propositions. *)
Ltac q_reflect :=
  repeat match goal with
  | |- context [Qeq_bool ?p ?q] =>
      let E := fresh "E" in
      destruct (Qeq_bool p q) eqn:E;
      [apply Qeq_bool_iff in E | apply Qeq_bool_neq in E]
  | |- context [Qle_bool ?p ?q] =>
      let E := fresh "E" in
      destruct (Qle_bool p q) eqn:E;
      [apply Qle_bool_iff in E
      | assert (~ (p <= q)%Q)
          by (let F := fresh in intro F; apply Qle_bool_iff in F; congruence);
        clear E]
  | H : context [Qeq_bool ?p ?q] |- _ =>
      let E := fresh "E" in
      destruct (Qeq_bool p q) eqn:E;
      [apply Qeq_bool_iff in E | apply Qeq_bool_neq in E]
  | H : context [Qle_bool ?p ?q] |- _ =>
      let E := fresh "E" in
      destruct (Qle_bool p q) eqn:E;
      [apply Qle_bool_iff in E
      | assert (~ (p <= q)%Q)
          by (let F := fresh in intro F; apply Qle_bool_iff in F; congruence);
        clear E]
  end.

Ltac x_cases :=
  cbn [xeqb xltb xleb xgtb xgeb xisnan negb andb orb] in *;
  q_reflect; cbn [negb andb orb] in *;
  try reflexivity; try discriminate; try (exfalso; lra).

(** With equal bounds, being between them is being equal to them. *)
Lemma between_equal_bounds (x : scalar) (l h : xreal) :
  s_eq (SReal l) (SReal h) = true ->
  s_ge x (SReal l) && s_le x (SReal h) = s_eq x (SReal l).
Proof.
  unfold s_eq, s_ge, s_le, s_cmp, xgtb, xgeb, xleb.
  destruct x as [a | a b]; cbn [cparts]; intros H.
  - destruct a as [a| | |], l as [l| | |], h as [h| | |]; x_cases.
  - destruct a as [a| | |], l as [l| | |], h as [h| | |], b as [b| | |];
      x_cases.
Qed.

(** ** Booleans and the definitions of a number *)

(** C1, amended. Under each of the three definitions
    [check_is_number] raises a type error on every NumPy boolean
    ([np.bool_]); on a built-in [bool] it raises a type error under
    ['numpy'] only and accepts it under ['abstract'] and ['builtin'],
    where [bool], a subclass of [int], counts as a number. *)
Theorem check_is_number_on_booleans (must_be_real : bool) (name : string) :
  Forall (fun definition =>
            forall x, raises TypeError
              (check_is_number (NpScalar bool_ x) (VStr definition)
                 must_be_real name))
         definitions
  /\ (forall b, raises TypeError
        (check_is_number (Val (VBool b)) (VStr "numpy") must_be_real name))
  /\ (forall b, passes
        (check_is_number (Val (VBool b)) (VStr "abstract") must_be_real name))
  /\ (forall b, passes
        (check_is_number (Val (VBool b)) (VStr "builtin") must_be_real name)).
Proof.
  repeat split.
  - repeat constructor; intros x; destruct must_be_real; eexists;
      vm_compute; reflexivity.
  - intros b; destruct must_be_real; eexists; vm_compute; reflexivity.
  - intros b; destruct must_be_real; reflexivity.
  - intros b; destruct must_be_real; reflexivity.
Qed.

(** C1, as stated, fails: [True] is accepted under the default
    definition. *)
Lemma builtin_bool_is_a_number :
  passes (check_is_number (Val (VBool true)) (VStr "abstract") true "Object")
  /\ ~ raises TypeError
         (check_is_number (Val (VBool true)) (VStr "abstract") true "Object").
Proof.
  split; [reflexivity|]. intros [m H]. discriminate H.
Qed.

(** ** Shapes *)

Lemma py_eq_int (a b : Z) : py_eq (VInt a) (VInt b) = (a =? b).
Proof.
  cbn. unfold s_eq, s_of_Z, xreal_of_Z; cbn. unfold Qeq_bool; cbn.
  rewrite !Z.mul_1_r. apply andb_true_r.
Qed.

Lemma py_eq_int_r (x : value) (z k : Z) :
  int_of_value x = Some z -> py_eq x (VInt k) = (z =? k).
Proof.
  destruct x; cbn; try discriminate.
  - intros [= <-]. unfold s_eq, s_of_bool, s_of_Z, xreal_of_Z; cbn.
    unfold Qeq_bool; cbn. rewrite !Z.mul_1_r. apply andb_true_r.
  - intros [= <-]. apply py_eq_int.
Qed.

Lemma valid_dim_of_eq (x : value) (k : Z) :
  is_int x = true -> py_eq x (VInt k) = true -> -1 <= k ->
  _is_valid_dim x = true.
Proof.
  unfold is_int, _is_valid_dim. destruct (int_of_value x) as [z|] eqn:E; try discriminate.
  intros _ H Hk. rewrite (py_eq_int_r _ _ _ E) in H. lia.
Qed.

Lemma general_valid_tuple (l : list value) :
  forallb _is_valid_dim l = true ->
  _validate_shape_value_general (VTuple l) = Return (VTuple l).
Proof.
  intros H. unfold _validate_shape_value_general. cbn. rewrite H. reflexivity.
Qed.

(** C2. On every shape-like input (an [int] or a tuple of [int]s)
    [_validate_shape_value], with its early returns for the common
    literal shapes and the empty tuple, returns the same tuple and
    raises the same exception as the general validation alone. *)
Theorem fast_path_agrees (shape : value) :
  is_ShapeLike shape = true ->
  _validate_shape_value shape = _validate_shape_value_slow shape.
Proof.
  intros H. destruct shape as [ | b | z | x | re im | s | l | l]; try discriminate H;
    try reflexivity.
  cbn in H. unfold _validate_shape_value, _validate_shape_value_slow.
  cbn [is_None].
  destruct (py_eq (VTuple l) (VTuple [])) eqn:E0.
  { destruct l; [reflexivity | discriminate E0]. }
  destruct (py_in (VTuple l) common_shapes) eqn:E1; [| reflexivity].
  symmetry. apply general_valid_tuple.
  destruct l as [|x [|y [|z l]]].
  - reflexivity.
  - cbn in H. rewrite andb_true_r in H.
    cbn [forallb]. rewrite andb_true_r.
    unfold py_in, common_shapes, tuple_of_ints in E1. cbn [existsb map py_eq] in E1.
    rewrite !andb_true_r, !andb_false_r, !orb_false_r in E1.
    repeat (apply orb_true_iff in E1; destruct E1 as [E1|E1]);
      eapply valid_dim_of_eq; eauto; lia.
  - cbn in H. rewrite andb_true_r in H. apply andb_true_iff in H as [Hx Hy].
    cbn [forallb]. rewrite andb_true_r.
    unfold py_in, common_shapes, tuple_of_ints in E1. cbn [existsb map py_eq] in E1.
    rewrite !andb_true_r, !andb_false_r, !orb_false_r in E1. cbn [orb] in E1.
    apply orb_true_iff in E1; destruct E1 as [E1|E1];
      apply andb_true_iff in E1 as [Ex Ey]; apply andb_true_iff; split;
      eapply valid_dim_of_eq; eauto; lia.
  - exfalso. unfold py_in, common_shapes, tuple_of_ints in E1.
    cbn [existsb map py_eq] in E1.
    rewrite !andb_false_r in E1. discriminate.
Qed.

Lemma fast_path_agrees_witness :
  _validate_shape_value (tuple_of_ints [-1; 3]) =
  _validate_shape_value_slow (tuple_of_ints [-1; 3]).
Proof. exact (fast_path_agrees (tuple_of_ints [-1; 3]) eq_refl). Defined.

Lemma try_except_reraise {A} (c : result A) k :
  try_except c k (fun e => Raise e) = c.
Proof. destruct c as [a|e]; cbn; [reflexivity | destruct (exn_kind_beq _ _); reflexivity]. Qed.

Lemma all_map2_Forall2 (s w : list Z) :
  length s = length w ->
  all_map2 (fun x y => if py_eq x y then true else py_eq y (VInt (-1)))
    (map VInt s) (map VInt w) = true <->
  Forall2 (fun x y => x = y \/ y = -1) s w.
Proof.
  revert w. induction s as [|x s IH]; intros [|y w] Hlen; cbn in Hlen; try discriminate.
  - cbn. split; auto.
  - injection Hlen as Hlen. change (map VInt (x :: s)) with (VInt x :: map VInt s).
    change (map VInt (y :: w)) with (VInt y :: map VInt w).
    cbn [all_map2]. rewrite !py_eq_int, andb_true_iff, (IH w Hlen).
    split.
    + intros [H1 H2]. constructor; auto.
      destruct (x =? y) eqn:E; [left; lia | right; lia].
    + intros H. inversion H; subst. split; auto.
      destruct (x =? y) eqn:E; auto. lia.
Qed.

(** C5. A concrete shape [s] matches a normalized spec [w] iff they
    have the same length and at every position the size equals the
    spec entry or the entry is -1; shapes of different lengths never
    match. *)
Theorem shape_is_allowed_spec (s w : list Z) :
  _shape_is_allowed (map VInt s) (map VInt w) = true <->
  length s = length w /\ Forall2 (fun x y => x = y \/ y = -1) s w.
Proof.
  unfold _shape_is_allowed. rewrite !length_map.
  destruct (Nat.eqb (length s) (length w)) eqn:E.
  - apply Nat.eqb_eq in E. cbn [andb].
    split.
    + intros H. split; auto. apply all_map2_Forall2; auto.
      destruct (all_map2 _ _ _); auto; discriminate.
    + intros [_ H]. apply all_map2_Forall2 in H; auto. rewrite H. reflexivity.
  - apply Nat.eqb_neq in E. cbn. split; [discriminate | intros [H _]; contradiction].
Qed.

Lemma list_is_not_a_shape (l : list value) : ~ valid_shape (VList l).
Proof. intros [t H]. vm_compute in H. discriminate H. Qed.

Lemma shape_loop_valid (s : list value) (specs : list value) :
  Forall valid_shape specs ->
  shape_loop s specs = Return (existsb (matches s) specs).
Proof.
  induction 1 as [|spec specs [t Ht] _ IH]; [reflexivity|].
  cbn [shape_loop existsb]. unfold matches at 1. rewrite Ht. cbn [bind].
  destruct (_shape_is_allowed s (py_iter t)); [reflexivity | exact IH].
Qed.

Lemma has_shape_passes_iff (a : ndarray) (shape : value) (name : string) b :
  shape_loop (py_iter (array_shape_value a))
    (py_iter match shape with VList _ => shape | _ => VList [shape] end) = Return b ->
  passes (check_has_shape (Arr a) shape name) <-> b = true.
Proof.
  intros H. unfold passes, check_has_shape. cbn [as_ndarray bind].
  set (specs := match shape with VList _ => shape | _ => VList [shape] end) in *.
  rewrite H. cbn [bind]. destruct b.
  - split; reflexivity.
  - split; [|intros H0; discriminate H0].
    destruct (py_iter specs) as [|? [|? ?]]; intros H0; discriminate H0.
Qed.

Lemma has_shape_list (a : ndarray) (specs : list value) (name : string) :
  Forall valid_shape specs ->
  passes (check_has_shape (Arr a) (VList specs) name) <->
  existsb (matches (py_iter (array_shape_value a))) specs = true.
Proof.
  intros H. apply has_shape_passes_iff. cbn [py_iter]. now apply shape_loop_valid.
Qed.

Lemma has_shape_single (a : ndarray) (spec : value) (name : string) :
  valid_shape spec ->
  passes (check_has_shape (Arr a) spec name) <->
  matches (py_iter (array_shape_value a)) spec = true.
Proof.
  intros H.
  assert (E : match spec with VList _ => spec | _ => VList [spec] end = VList [spec]).
  { destruct spec; try reflexivity. now apply list_is_not_a_shape in H. }
  rewrite (has_shape_passes_iff a spec name (existsb (matches (py_iter (array_shape_value a))) [spec])).
  - cbn. now rewrite orb_false_r.
  - rewrite E. cbn [py_iter]. apply shape_loop_valid. now constructor.
Qed.

Lemma has_shape_not_cast (arr : pyobj) (shape : value) (name : string) e :
  as_ndarray arr = Raise e -> ~ passes (check_has_shape arr shape name).
Proof. intros H. unfold passes, check_has_shape. rewrite H. discriminate. Qed.

Lemma existsb_Permutation {A} (f : A -> bool) (l l' : list A) :
  Permutation l l' -> existsb f l = existsb f l'.
Proof.
  induction 1; cbn; try congruence.
  destruct (f x), (f y); reflexivity.
Qed.

(** C3, amended. When every spec of the list is itself a valid shape,
    [check_has_shape] succeeds on the list iff it succeeds on at least
    one spec taken alone, and permuting the list does not change
    whether the check passes or raises. *)
Theorem has_shape_any_of (arr : pyobj) (specs : list value) (name : string) :
  Forall valid_shape specs ->
  (passes (check_has_shape arr (VList specs) name) <->
   Exists (fun spec => passes (check_has_shape arr spec name)) specs)
  /\ (forall specs', Permutation specs specs' ->
      (passes (check_has_shape arr (VList specs) name) <->
       passes (check_has_shape arr (VList specs') name))).
Proof.
  intros Hv. destruct (as_ndarray arr) as [a|e] eqn:Ha.
  - assert (Hsame : forall shape,
              check_has_shape arr shape name =
              check_has_shape (Arr a) shape name).
    { intros shape. unfold check_has_shape. rewrite Ha. reflexivity. }
    split.
    + rewrite Hsame, (has_shape_list a specs name Hv).
      rewrite existsb_exists, Exists_exists.
      split; intros [spec [Hin H]]; exists spec; split; auto.
      * rewrite Hsame. apply has_shape_single; auto.
        rewrite Forall_forall in Hv; auto.
      * rewrite Hsame in H. apply has_shape_single in H; auto.
        rewrite Forall_forall in Hv; auto.
    + intros specs' Hp. rewrite !Hsame.
      rewrite (has_shape_list a specs name Hv).
      rewrite (has_shape_list a specs' name).
      * now rewrite (existsb_Permutation _ _ _ Hp).
      * rewrite Forall_forall in *. intros x Hx. apply Hv.
        eapply Permutation_in; [symmetry; exact Hp | exact Hx].
  - split.
    + split.
      * intros H. now apply (has_shape_not_cast _ _ _ _ Ha) in H.
      * rewrite Exists_exists. intros [spec [_ H]].
        now apply (has_shape_not_cast _ _ _ _ Ha) in H.
    + intros specs' _.
      split; intros H; now apply (has_shape_not_cast _ _ _ _ Ha) in H.
Qed.

Lemma has_shape_any_of_witness :
  passes (check_has_shape (Arr (ints [1; 2; 3]))
            (VList [tuple_of_ints [2]; tuple_of_ints [-1]]) "Array")
  <-> Exists (fun spec =>
                passes (check_has_shape (Arr (ints [1; 2; 3])) spec "Array"))
        [tuple_of_ints [2]; tuple_of_ints [-1]].
Proof.
  refine (proj1 (has_shape_any_of (Arr (ints [1; 2; 3]))
                   [tuple_of_ints [2]; tuple_of_ints [-1]] "Array" _)).
  repeat constructor; eexists; reflexivity.
Defined.

(** C3, as stated, fails: on a one-dimensional array of three elements
    the spec (3,) passes alone and in front of the invalid spec (-2,),
    but the same list in the other order raises. *)
Lemma has_shape_order_matters :
  passes (check_has_shape (Arr (ints [1; 2; 3])) (tuple_of_ints [3]) "Array")
  /\ passes (check_has_shape (Arr (ints [1; 2; 3]))
               (VList [tuple_of_ints [3]; tuple_of_ints [-2]]) "Array")
  /\ raises ValueError
       (check_has_shape (Arr (ints [1; 2; 3]))
          (VList [tuple_of_ints [-2]; tuple_of_ints [3]]) "Array")
  /\ Permutation [tuple_of_ints [3]; tuple_of_ints [-2]]
                 [tuple_of_ints [-2]; tuple_of_ints [3]].
Proof.
  split; [reflexivity|]. split; [reflexivity|]. split.
  - eexists. vm_compute. reflexivity.
  - apply perm_swap.
Qed.

(* ------------------------------------------------------------------ *)
(** ** Sub-checks on bounds and pairs *)

Lemma number_int (z : Z) (name : string) :
  check_is_number (Val (VInt z)) (VStr "abstract") true name = Pass.
Proof. reflexivity. Qed.

Lemma number_real_scalar (d : dtype) (x : scalar) (name : string) :
  is_real_dtype d = true ->
  check_is_number (NpScalar d x) (VStr "abstract") true name = Pass.
Proof. destruct d; intros H; try discriminate H; reflexivity. Qed.

Lemma real_scalar (d : dtype) (x : scalar) (name : string) :
  is_real_dtype d = true -> check_is_real (NpScalar d x) name = Pass.
Proof. destruct d; intros H; try discriminate H; reflexivity. Qed.

(** Conversions that change nothing: to the dtype an operand has, and
    to a boolean or integer dtype. *)
Lemma dtype_beq_refl (d : dtype) : dtype_beq d d = true.
Proof. destruct d; reflexivity. Qed.

Lemma np_cast_same (d : dtype) (x : scalar) : np_cast d d x = x.
Proof. unfold np_cast. now rewrite dtype_beq_refl. Qed.

Lemma np_cast_integer (c d : dtype) (x : scalar) :
  float_format c = None -> np_cast c d x = x.
Proof.
  intros H. unfold np_cast. rewrite H. now destruct (dtype_beq c d).
Qed.

Lemma all_cmp_astype (op : scalar -> scalar -> bool) (c : dtype)
    (a : ndarray) (v : scalar) :
  (forall x, np_cast c (arr_dtype a) x = x) ->
  all_cmp op (astype c a) v = all_cmp op a v.
Proof.
  intros H. unfold all_cmp, astype. cbn [arr_data].
  induction (arr_data a) as [|x l IH]; [reflexivity|].
  cbn [map forallb]. now rewrite H, IH.
Qed.

(** In a boolean or integer common dtype the comparison is the one of
    the values as they are. *)
Lemma np_all_integer (op : scalar -> scalar -> bool) (a : ndarray)
    (value : pyobj) (v : scalar) :
  float_format (result_type a (dtype_of_number value) v) = None ->
  np_all op a value v = all_cmp op a v.
Proof.
  intros H. unfold np_all. rewrite (np_cast_integer _ _ v H).
  apply all_cmp_astype. intros x. now apply np_cast_integer.
Qed.

(** So it is when array and number have the dtype they are compared
    in. *)
Lemma np_all_same (op : scalar -> scalar -> bool) (a : ndarray)
    (value : pyobj) (v : scalar) :
  dtype_of_number value = arr_dtype a ->
  result_type a (arr_dtype a) v = arr_dtype a ->
  np_all op a value v = all_cmp op a v.
Proof.
  intros Hd Hc. unfold np_all. rewrite Hd, Hc, np_cast_same.
  apply all_cmp_astype. intros x. apply np_cast_same.
Qed.

(** A conversion keeps NaN, the infinities and the finite values
    apart. *)
Lemma np_cast_isnan (c d : dtype) (x : scalar) :
  (let '(re, im) := cparts (np_cast c d x) in xisnan re || xisnan im) =
  (let '(re, im) := cparts x in xisnan re || xisnan im).
Proof.
  unfold np_cast. destruct (dtype_beq c d); [reflexivity|].
  destruct (float_format c) as [[prec emin]|]; [|reflexivity].
  destruct x as [[q| | |]|[p| | |] [q| | |]]; reflexivity.
Qed.

Lemma np_cast_isfinite (c d : dtype) (x : scalar) :
  s_isfinite (np_cast c d x) = s_isfinite x.
Proof.
  unfold np_cast. destruct (dtype_beq c d); [reflexivity|].
  destruct (float_format c) as [[prec emin]|]; [|reflexivity].
  destruct x as [[q| | |]|[p| | |] [q| | |]]; reflexivity.
Qed.

Lemma greater_than_real_bound (a : ndarray) (d : dtype) (v : scalar)
    (strict : bool) (name : string) :
  is_real_dtype d = true ->
  check_is_greater_than (Arr a) (NpScalar d v) strict name =
  if strict && negb (np_all s_gt a (NpScalar d v) v) then
    raise_ValueError [Txt name; Txt " values must all be greater than ";
                      FObj (NpScalar d v); Txt "."]
  else if negb (np_all s_ge a (NpScalar d v) v) then
    raise_ValueError [Txt name; Txt " values must all be greater than or equal to ";
                      FObj (NpScalar d v); Txt "."]
  else Pass.
Proof.
  intros H. unfold check_is_greater_than. cbn [as_ndarray bind].
  rewrite (number_real_scalar d v _ H), (real_scalar d v _ H). reflexivity.
Qed.

Lemma less_than_real_bound (a : ndarray) (d : dtype) (v : scalar)
    (strict : bool) (name : string) :
  is_real_dtype d = true ->
  check_is_less_than (Arr a) (NpScalar d v) strict name =
  if strict && negb (np_all s_lt a (NpScalar d v) v) then
    raise_ValueError [Txt name; Txt " values must all be less than ";
                      FObj (NpScalar d v); Txt "."]
  else if negb (np_all s_le a (NpScalar d v) v) then
    raise_ValueError [Txt name; Txt " values must all be less than or equal to ";
                      FObj (NpScalar d v); Txt "."]
  else Pass.
Proof.
  intros H. unfold check_is_less_than. cbn [as_ndarray bind].
  rewrite (number_real_scalar d v _ H), (real_scalar d v _ H). reflexivity.
Qed.

Lemma has_shape_pair (d : dtype) (data : list scalar) (name : string) :
  check_has_shape (Arr (mk_ndarray d [2] data)) (VInt 2) name = Pass.
Proof. reflexivity. Qed.

Lemma sorted_default_pair (d : dtype) (lo hi : scalar) (name : string) :
  check_is_sorted_default (Arr (mk_ndarray d [2] [lo; hi])) name =
  if s_le lo hi then Pass
  else raise_ValueError
         [Txt name; Txt " "; FObj (Arr (mk_ndarray d [2] [lo; hi]));
          Txt " must be sorted in "; Txt EmptyString; Txt "ascending"; Txt " order."].
Proof.
  unfold check_is_sorted_default, sorted_along.
  cbn [as_ndarray bind ndim arr_shape length Z.of_nat Z.eqb Z.sub Z.to_nat].
  change (axis_pairs _ _) with [(lo, hi)].
  cbn [forallb fst snd andb negb]. rewrite andb_true_r.
  destruct (s_le lo hi); reflexivity.
Qed.

Lemma sorted_default_zero_dim (d : dtype) (data : list scalar) (name : string) :
  check_is_sorted_default (Arr (mk_ndarray d [] data)) name = Pass.
Proof. reflexivity. Qed.

Lemma integerlike_int (z : Z) (name : string) :
  check_is_integerlike (Val (VInt z)) false name = Pass.
Proof.
  unfold check_is_integerlike. cbn -[s_of_Z s_eq s_floor].
  unfold array_equal. cbn -[s_of_Z s_eq s_floor].
  fold (equals_own_floor (s_of_Z z)). now rewrite int_equals_own_floor.
Qed.

(** The range check [check_is_sorted] makes on an integer axis. *)
Lemma in_range_axis (z n : Z) :
  1 <= n ->
  check_is_in_range (Val (VInt z)) (Val (VList [VInt (- n); VInt (n - 1)]))
    false false "Axis" =
  if negb (- n <=? z) then
    raise_ValueError
      [Txt "Axis"; Txt " values must all be greater than or equal to ";
       FObj (NpScalar int64 (s_of_Z (- n))); Txt "."]
  else if negb (z <=? n - 1) then
    raise_ValueError
      [Txt "Axis"; Txt " values must all be less than or equal to ";
       FObj (NpScalar int64 (s_of_Z (n - 1))); Txt "."]
  else Pass.
Proof.
  intros Hn. unfold check_is_in_range.
  change (cast_to_ndarray (Val (VList [VInt (- n); VInt (n - 1)])))
    with (Return (mk_ndarray int64 [2] [s_of_Z (- n); s_of_Z (n - 1)])).
  cbn [bind]. rewrite has_shape_pair. cbn [bind].
  rewrite sorted_default_pair, s_le_Z.
  replace (- n <=? n - 1) with true by lia. cbn [bind as_ndarray cast_to_ndarray array_of_value].
  unfold item. cbn [arr_dtype arr_data nth].
  rewrite greater_than_real_bound, less_than_real_bound by reflexivity.
  rewrite !np_all_integer by reflexivity.
  unfold all_cmp. cbn [arr_data forallb andb]. rewrite s_ge_Z, s_le_Z, !andb_true_r.
  destruct (- n <=? z), (z <=? n - 1); reflexivity.
Qed.
(** ** Sortedness and the axis *)

Lemma sorted_axis_out_of_bounds (a : ndarray) (ascending strict : bool)
    (z : Z) (name : string) :
  1 <= ndim a -> z < - ndim a \/ ndim a <= z ->
  check_is_sorted (Arr a) ascending strict (VInt z) name =
  raise_ValueError [Txt "Axis "; FInt z; Txt " is out of bounds for ndim ";
                    FInt (ndim a); Txt "."].
Proof.
  intros Hn Hz. unfold check_is_sorted. cbn [as_ndarray bind is_None].
  replace (ndim a =? 0) with false by lia.
  rewrite py_eq_int. replace (z =? -1) with false by lia. cbn [negb].
  rewrite number_int, integerlike_int. cbn [bind py_int].
  rewrite (in_range_axis z (ndim a) Hn).
  destruct (- ndim a <=? z) eqn:E1; cbn [negb].
  - replace (z <=? ndim a - 1) with false by lia. reflexivity.
  - reflexivity.
Qed.

Lemma own_floor_of_minus_one (q : Q) :
  equals_own_floor (SReal (Fin q)) = false ->
  py_eq (VFloat (Fin q)) (VInt (-1)) = false.
Proof.
  unfold equals_own_floor. cbn. unfold s_eq. cbn [cparts xeqb].
  intros H. destruct (Qeq_bool q (inject_Z (-1))) eqn:E; [|reflexivity].
  exfalso. apply Qeq_bool_iff in E.
  assert (F : Qeq_bool q (inject_Z (Qfloor q)) = true).
  { apply Qeq_bool_iff. rewrite E at 2. rewrite Qfloor_Z. exact E. }
  rewrite F in H. cbn in H. discriminate H.
Qed.

Lemma sorted_axis_fractional (a : ndarray) (ascending strict : bool)
    (q : Q) (name : string) :
  1 <= ndim a -> equals_own_floor (SReal (Fin q)) = false ->
  check_is_sorted (Arr a) ascending strict (VFloat (Fin q)) name =
  raise_ValueError [Txt "Axis"; Txt " must have integer-like values."].
Proof.
  intros Hn Hq. unfold check_is_sorted. cbn [as_ndarray bind is_None].
  replace (ndim a =? 0) with false by lia.
  rewrite (own_floor_of_minus_one q Hq). cbn [negb].
  change (check_is_number (Val (VFloat (Fin q))) (VStr "abstract") true "Axis")
    with Pass.
  cbn [bind].
  assert (E : check_is_integerlike (Val (VFloat (Fin q))) false "Axis" =
          raise_ValueError [Txt "Axis"; Txt " must have integer-like values."]).
  { unfold check_is_integerlike. cbn -[s_eq s_floor].
    unfold array_equal. cbn -[s_eq s_floor].
    fold (equals_own_floor (SReal (Fin q))). rewrite Hq. reflexivity. }
  rewrite E. reflexivity.
Qed.

Lemma sorted_axis_text (a : ndarray) (ascending strict : bool)
    (s : string) (name : string) :
  1 <= ndim a ->
  raises TypeError (check_is_sorted (Arr a) ascending strict (VStr s) name).
Proof.
  intros Hn. unfold check_is_sorted. cbn [as_ndarray bind is_None].
  replace (ndim a =? 0) with false by lia.
  change (py_eq (VStr s) (VInt (-1))) with false. cbn [negb].
  change (check_is_number (Val (VStr s)) (VStr "abstract") true "Axis")
    with (@Raise unit (Exn TypeError
           [Txt "Axis"; Txt " "; Txt "must be an instance of"; Txt " ";
            FClassinfo (CI_class C_Real); Txt ". Got "; FClass C_str;
            Txt " instead."])).
  cbn [bind]. eexists. reflexivity.
Qed.

(** C10. On a 0-dimensional array [check_is_sorted] returns before
    the axis is looked at, so it passes for every axis; on an array of
    one dimension or more an out-of-range axis and a fractional one
    raise a value error and a text axis a type error. *)
Theorem sorted_zero_dim_ignores_axis (arr : pyobj) (a : ndarray)
    (ascending strict : bool) (name : string) :
  as_ndarray arr = Return a ->
  (ndim a = 0 ->
   forall axis, passes (check_is_sorted arr ascending strict axis name))
  /\ (1 <= ndim a ->
      (forall z, z < - ndim a \/ ndim a <= z ->
         raises ValueError (check_is_sorted arr ascending strict (VInt z) name))
      /\ (forall q, equals_own_floor (SReal (Fin q)) = false ->
         raises ValueError
           (check_is_sorted arr ascending strict (VFloat (Fin q)) name))
      /\ (forall s,
         raises TypeError (check_is_sorted arr ascending strict (VStr s) name))).
Proof.
  intros Ha.
  assert (Hsame : forall axis,
            check_is_sorted arr ascending strict axis name =
            check_is_sorted (Arr a) ascending strict axis name).
  { intros axis. unfold check_is_sorted. rewrite Ha. reflexivity. }
  split.
  - intros H0 axis. unfold passes. rewrite Hsame. unfold check_is_sorted.
    cbn [as_ndarray bind]. rewrite H0. reflexivity.
  - intros Hn. repeat split.
    + intros z Hz. rewrite Hsame, sorted_axis_out_of_bounds by assumption.
      eexists; reflexivity.
    + intros q Hq. rewrite Hsame, sorted_axis_fractional by assumption.
      eexists; reflexivity.
    + intros s. rewrite Hsame. now apply sorted_axis_text.
Qed.

Lemma sorted_zero_dim_ignores_axis_witness :
  passes (check_is_sorted (Arr (zero_dim float64 (SReal (Fin 7)))) true false
            (VInt 5) "Array")
  /\ raises ValueError
       (check_is_sorted (Arr (ints [1; 2; 3])) true false (VInt 5) "Array").
Proof.
  split.
  - exact (proj1 (sorted_zero_dim_ignores_axis
                    (Arr (zero_dim float64 (SReal (Fin 7))))
                    (zero_dim float64 (SReal (Fin 7))) true false "Array"
                    eq_refl) eq_refl (VInt 5)).
  - assert (Hn : 1 <= ndim (ints [1; 2; 3])) by (vm_compute; discriminate).
    assert (Hz : 5 < - ndim (ints [1; 2; 3]) \/ ndim (ints [1; 2; 3]) <= 5)
      by (right; vm_compute; discriminate).
    exact (proj1 (proj2 (sorted_zero_dim_ignores_axis
                           (Arr (ints [1; 2; 3])) (ints [1; 2; 3]) true false
                           "Array" eq_refl) Hn) 5 Hz).
Defined.
(** ** Failures that are replaced and failures that are passed on *)

Lemma numeric_by_dtype (a : ndarray) (name : string) :
  check_is_numeric (Arr a) name =
  if issubdtype (arr_dtype a) C_number then Pass
  else raise_TypeError [Txt name; Txt " must be numeric."].
Proof.
  unfold check_is_numeric. cbn [as_ndarray bind].
  destruct (arr_dtype a); reflexivity.
Qed.

Lemma real_by_dtype (a : ndarray) (name : string) :
  check_is_real (Arr a) name =
  if is_real_dtype (arr_dtype a) then Pass
  else raise_TypeError [Txt name; Txt " must have real numbers."].
Proof.
  unfold check_is_real. cbn [as_ndarray bind].
  destruct (arr_dtype a); reflexivity.
Qed.

Lemma subdtype_generic_message (d : dtype) (k : pyclass) (name : string) :
  check_is_subdtype d (CI_class k) name =
  if issubdtype d k then Pass
  else raise_TypeError
         [Txt name; Txt " has incorrect dtype of '"; FDtype d; Txt "'. ";
          Txt "The dtype must be a subtype of "; FClass k; Txt "."].
Proof.
  unfold check_is_subdtype. cbn [classinfo_list existsb].
  rewrite orb_false_r. destruct (issubdtype d k); reflexivity.
Qed.

Lemma valid_range_inv (r : ndarray) :
  valid_range r = true ->
  exists d lo hi, r = mk_ndarray d [2] [lo; hi] /\ s_le lo hi = true.
Proof.
  destruct r as [d sh data]. unfold valid_range. cbn [arr_shape arr_data].
  intros H.
  repeat match type of H with
         | context [match ?x with _ => _ end] =>
             is_var x; destruct x; try discriminate H
         end.
  eexists _, _, _. split; [reflexivity | exact H].
Qed.

Lemma in_range_valid (a r : ndarray) (sl su : bool) (name : string) :
  valid_range r = true ->
  check_is_in_range (Arr a) (Arr r) sl su name =
  (check_is_greater_than (Arr a) (item r 0) sl name ;;
   check_is_less_than (Arr a) (item r 1) su name).
Proof.
  intros Hv. destruct (valid_range_inv r Hv) as (d & lo & hi & -> & Hs).
  unfold check_is_in_range. cbn [cast_to_ndarray bind].
  rewrite has_shape_pair. cbn [bind].
  rewrite sorted_default_pair, Hs. cbn [bind as_ndarray].
  apply try_except_reraise.
Qed.

Lemma has_shape_invalid_spec (a : ndarray) (spec : value)
    (rest : list value) (name : string) e :
  _validate_shape_value spec = Raise e ->
  check_has_shape (Arr a) (VList (spec :: rest)) name = Raise e.
Proof.
  intros H. unfold check_has_shape. cbn [as_ndarray bind py_iter shape_loop].
  rewrite H. reflexivity.
Qed.
Lemma scalar_of_value (v : value) (must_be_real : bool) (name : string) :
  check_is_scalar (Val v) must_be_real name =
  check_is_number (Val v) (VStr "abstract") must_be_real "Object".
Proof.
  unfold check_is_scalar. apply try_except_reraise.
Qed.

Lemma scalar_of_non_array (obj : pyobj) (must_be_real : bool)
    (name : string) :
  (forall b, obj <> Arr b) ->
  check_is_scalar obj must_be_real name =
  check_is_number obj (VStr "abstract") must_be_real "Object".
Proof.
  intros H. unfold check_is_scalar. rewrite try_except_reraise.
  destruct obj as [v|d x|b]; try reflexivity. now contradiction (H b).
Qed.

Lemma scalar_of_zero_dim (a : ndarray) (must_be_real : bool) (name : string) :
  ndim a = 0 ->
  check_is_scalar (Arr a) must_be_real name =
  if must_be_real then check_is_real (Arr a) name
  else check_is_numeric (Arr a) name.
Proof.
  intros H. unfold check_is_scalar.
  rewrite try_except_reraise, H. reflexivity.
Qed.

Lemma number_invalid_definition (num : pyobj) (definition : value)
    (must_be_real : bool) (name : string) e :
  check_is_string_in_iterable definition
    (VList [VStr "abstract"; VStr "builtin"; VStr "numpy"]) "String" = Raise e ->
  check_is_number num definition must_be_real name = Raise e.
Proof. intros H. unfold check_is_number. rewrite H. reflexivity. Qed.

(** [check_is_sorted] at its defaults is the form the other checks
    call. *)
Lemma sorted_at_defaults (a : ndarray) (name : string) :
  check_is_sorted (Arr a) true false (VInt (-1)) name =
  check_is_sorted_default (Arr a) name.
Proof.
  unfold check_is_sorted, check_is_sorted_default. cbn [as_ndarray bind].
  destruct (ndim a =? 0) eqn:E; [reflexivity|].
  change (py_eq (VInt (-1)) (VInt (-1))) with true.
  cbn [is_None negb bind].
  assert (H : 1 <= ndim a) by (unfold ndim in *; lia).
  cbn [Z.ltb Z.compare].
  replace (ndim a + -1 <? 0) with false by lia.
  replace (ndim a + -1) with (ndim a - 1) by lia.
  reflexivity.
Qed.

Lemma for_each_first_failure {A} (f : A -> result unit) (pre post : list A)
    (x : A) :
  Forall (fun y => f y = Pass) pre ->
  for_each f (pre ++ x :: post) = (f x ;; for_each f post).
Proof.
  induction 1 as [|y pre Hy _ IH]; [reflexivity|].
  cbn [app for_each]. rewrite Hy. unfold Pass at 1. cbn [bind]. exact IH.
Qed.

Lemma cast_not_none (v : value) (b : ndarray) :
  cast_to_ndarray (Val v) = Return b -> is_None v = false.
Proof. destruct v; intros H; try reflexivity. discriminate H. Qed.

(** The checks that call other checks in sequence. *)
Lemma comparison_passes_on (a : ndarray) (value : pyobj) (strict : bool)
    (name : string) :
  (passes_on (check_is_number value (VStr "abstract") true "Object")
     (check_is_greater_than (Arr a) value strict name)
   /\ (check_is_number value (VStr "abstract") true "Object" = Pass ->
       passes_on (check_is_real value "Array")
         (check_is_greater_than (Arr a) value strict name)))
  /\ (passes_on (check_is_number value (VStr "abstract") true "Object")
        (check_is_less_than (Arr a) value strict name)
      /\ (check_is_number value (VStr "abstract") true "Object" = Pass ->
          passes_on (check_is_real value "Array")
            (check_is_less_than (Arr a) value strict name))).
Proof.
  unfold passes_on, check_is_greater_than, check_is_less_than.
  cbn [as_ndarray bind].
  repeat split; try (intros e ->; reflexivity);
    intros -> e ->; reflexivity.
Qed.

Lemma in_range_passes_on (arr rng : pyobj) (r : ndarray) (sl su : bool)
    (name : string) :
  cast_to_ndarray rng = Return r ->
  passes_on (check_has_shape (Arr r) (VInt 2) "Range")
    (check_is_in_range arr rng sl su name)
  /\ (check_has_shape (Arr r) (VInt 2) "Range" = Pass ->
      passes_on (check_is_sorted (Arr r) true false (VInt (-1)) "Range")
        (check_is_in_range arr rng sl su name)
      /\ (check_is_sorted (Arr r) true false (VInt (-1)) "Range" = Pass ->
          forall a,
            as_ndarray arr = Return a ->
            passes_on (check_is_greater_than (Arr a) (item r 0) sl name)
              (check_is_in_range arr rng sl su name)
            /\ (check_is_greater_than (Arr a) (item r 0) sl name = Pass ->
                passes_on (check_is_less_than (Arr a) (item r 1) su name)
                  (check_is_in_range arr rng sl su name)))).
Proof.
  intros Hr. unfold passes_on, check_is_in_range. rewrite Hr. cbn [bind].
  split; [intros e ->; reflexivity|].
  intros ->. unfold Pass at 1. cbn [bind].
  rewrite sorted_at_defaults.
  split; [intros e ->; reflexivity|].
  intros -> a ->. unfold Pass at 1. cbn [bind].
  rewrite try_except_reraise.
  split; [intros e ->; reflexivity|].
  intros -> e ->. reflexivity.
Qed.

Lemma shape_loop_passes_on (s : list value) (pre rest : list value)
    (spec : value) e :
  Forall (fun p => valid_shape p /\ matches s p = false) pre ->
  _validate_shape_value spec = Raise e ->
  shape_loop s (pre ++ spec :: rest) = Raise e.
Proof.
  intros Hpre He. induction Hpre as [|p pre [[t Ht] Hm] _ IH].
  - cbn [app shape_loop]. rewrite He. reflexivity.
  - cbn [app shape_loop]. unfold matches in Hm. rewrite Ht in *.
    cbn [bind]. rewrite Hm. exact IH.
Qed.

Lemma has_shape_passes_on (a : ndarray) (name : string) :
  (forall pre spec rest e,
     Forall (fun p => valid_shape p
                      /\ matches (py_iter (array_shape_value a)) p = false)
       pre ->
     _validate_shape_value spec = Raise e ->
     check_has_shape (Arr a) (VList (pre ++ spec :: rest)) name = Raise e)
  /\ (forall spec,
        (forall l, spec <> VList l) ->
        passes_on (_validate_shape_value spec)
          (check_has_shape (Arr a) spec name)).
Proof.
  split.
  - intros pre spec rest e Hpre He. unfold check_has_shape.
    cbn [as_ndarray bind py_iter].
    rewrite (shape_loop_passes_on _ pre rest spec e Hpre He). reflexivity.
  - intros spec Hs e He. unfold check_has_shape. cbn [as_ndarray bind].
    destruct spec; try (cbn [py_iter shape_loop]; rewrite He; reflexivity).
    now contradiction (Hs l).
Qed.

Lemma number_is_instance (num : pyobj) (d : string) (must_be_real : bool)
    (name : string) :
  In d definitions ->
  exists ci,
    check_is_number num (VStr d) must_be_real name =
    check_is_instance num ci true name.
Proof.
  intros H. unfold check_is_number.
  assert (E : check_is_string_in_iterable (VStr d)
                (VList [VStr "abstract"; VStr "builtin"; VStr "numpy"])
                "String" = Pass).
  { cbn in H. destruct H as [<-|[<-|[<-|[]]]]; reflexivity. }
  rewrite E. unfold Pass. cbn [bind].
  cbn in H. destruct H as [<-|[<-|[<-|[]]]];
    cbn [py_eq String.eqb Ascii.eqb Bool.eqb]; cbn [bind];
    rewrite try_except_reraise; eexists; reflexivity.
Qed.

Lemma iterable_passes_on (iterable : value) (some_type : classinfo)
    (allow_subclass : bool) (name : string) :
  passes_on (check_is_iterable (Val iterable) name)
    (check_is_iterable_of_some_type iterable some_type allow_subclass name)
  /\ (check_is_iterable (Val iterable) name = Pass ->
      forall pre x post,
        py_iter iterable = pre ++ x :: post ->
        Forall
          (fun y => check_is_instance (Val y) some_type allow_subclass
                      ("All items of " ++ name) = Pass) pre ->
        passes_on
          (check_is_instance (Val x) some_type allow_subclass
             ("All items of " ++ name))
          (check_is_iterable_of_some_type iterable some_type allow_subclass
             name)).
Proof.
  unfold passes_on, check_is_iterable_of_some_type.
  split; [intros e ->; reflexivity|].
  intros -> pre x post -> Hpre e He. unfold Pass. cbn [bind].
  rewrite try_except_reraise, for_each_first_failure by exact Hpre.
  rewrite He. reflexivity.
Qed.

Lemma string_in_iterable_passes_on (string_in string_iterable : value)
    (name : string) :
  passes_on (check_is_string (Val string_in) true name)
    (check_is_string_in_iterable string_in string_iterable name)
  /\ (check_is_string (Val string_in) true name = Pass ->
      passes_on
        (check_is_iterable_of_strings string_iterable true "String Iterable")
        (check_is_string_in_iterable string_in string_iterable name)).
Proof.
  unfold passes_on, check_is_string_in_iterable.
  split; [intros e ->; reflexivity|].
  intros -> e ->. reflexivity.
Qed.

Lemma sorted_passes_on (a : ndarray) (ascending strict : bool)
    (axis : value) (name : string) :
  1 <= ndim a -> is_None axis = false -> py_eq axis (VInt (-1)) = false ->
  passes_on (check_is_number (Val axis) (VStr "abstract") true "Axis")
    (check_is_sorted (Arr a) ascending strict axis name)
  /\ (check_is_number (Val axis) (VStr "abstract") true "Axis" = Pass ->
      passes_on (check_is_integerlike (Val axis) false "Axis")
        (check_is_sorted (Arr a) ascending strict axis name)).
Proof.
  intros Hn Hnone Hpy. unfold passes_on, check_is_sorted.
  cbn [as_ndarray bind]. replace (ndim a =? 0) with false by lia.
  rewrite Hnone, Hpy. cbn [negb].
  split; [intros e ->; reflexivity|].
  intros -> e ->. reflexivity.
Qed.

(** [allow_scalar] calls no check: it only replaces the subject. *)
Lemma has_length_allow_scalar (arr : pyobj)
    (exact_length min_length max_length : value) (must_be_1d : bool)
    (name : string) :
  exists subject,
    check_has_length arr exact_length min_length max_length must_be_1d true
      name =
    check_has_length subject exact_length min_length max_length must_be_1d
      false name.
Proof.
  unfold check_has_length.
  destruct (isinstance arr (CI_class C_Number)) eqn:E.
  - destruct arr as [v|d x|a].
    + destruct v; try discriminate E; eexists; reflexivity.
    + eexists; reflexivity.
    + discriminate E.
  - destruct arr as [v|d x|a]; try (eexists; reflexivity).
    destruct (ndim a =? 0); eexists; reflexivity.
Qed.

Lemma exact_length_passes (n : Z) (exact_length : value) (name : string) :
  exact_length_met n exact_length ->
  (if negb (is_None exact_length) then
     exact_length' <- cast_to_ndarray (Val exact_length) ;;
     check_is_integerlike (Arr exact_length') false "'exact_length'" ;;
     if negb (existsb (fun x => s_eq x (s_of_Z n)) (arr_data exact_length'))
     then
       raise_ValueError
         [Txt name; Txt " must have a length equal to any of: ";
          FObj (Arr exact_length'); Txt ". ";
          Txt "Got length "; FInt n; Txt " instead."]
     else Pass
   else Pass) = Pass.
Proof.
  intros [H|(e & Hc & Hi & Hm)]; [now rewrite H|].
  rewrite (cast_not_none _ _ Hc). cbn [negb]. rewrite Hc. cbn [bind].
  rewrite Hi. unfold Pass. cbn [bind]. now rewrite Hm.
Qed.

Lemma length_bound_returns (bound : value) (label : string)
    (m : option ndarray) :
  length_bound bound label m ->
  (if negb (is_None bound) then
     b <- cast_to_ndarray (Val bound) ;;
     check_is_scalar (Arr b) true label ;;
     check_is_real (Arr b) label ;;
     Return (Some b)
   else Return None) = Return m.
Proof.
  intros [[H ->]|(b & Hc & Hs & Hr & ->)]; [now rewrite H|].
  rewrite (cast_not_none _ _ Hc). cbn [negb]. rewrite Hc. cbn [bind].
  rewrite Hs. unfold Pass. cbn [bind]. rewrite Hr. reflexivity.
Qed.

Lemma has_length_passes_on (arr : pyobj)
    (exact_length min_length max_length : value) (must_be_1d : bool)
    (name : string) :
  passes_on
    (check_is_instance arr (CI_tuple [C_Sequence; C_ndarray]) true name)
    (check_has_length arr exact_length min_length max_length must_be_1d
       false name)
  /\ (check_is_instance arr (CI_tuple [C_Sequence; C_ndarray]) true name
      = Pass ->
      passes_on (check_has_shape arr (VInt (-1)) "Array")
        (check_has_length arr exact_length min_length max_length true
           false name))
  /\ (forall n,
        length_taken arr must_be_1d name n ->
        (forall e,
           cast_to_ndarray (Val exact_length) = Return e ->
           passes_on (check_is_integerlike (Arr e) false "'exact_length'")
             (check_has_length arr exact_length min_length max_length
                must_be_1d false name))
        /\ (exact_length_met n exact_length ->
            (forall b,
               cast_to_ndarray (Val min_length) = Return b ->
               passes_on (check_is_scalar (Arr b) true "Min length")
                 (check_has_length arr exact_length min_length max_length
                    must_be_1d false name)
               /\ (check_is_scalar (Arr b) true "Min length" = Pass ->
                   passes_on (check_is_real (Arr b) "Min length")
                     (check_has_length arr exact_length min_length
                        max_length must_be_1d false name)))
            /\ (forall lo,
                  length_bound min_length "Min length" lo ->
                  (forall b,
                     cast_to_ndarray (Val max_length) = Return b ->
                     passes_on (check_is_scalar (Arr b) true "Max length")
                       (check_has_length arr exact_length min_length
                          max_length must_be_1d false name)
                     /\ (check_is_scalar (Arr b) true "Max length" = Pass ->
                         passes_on (check_is_real (Arr b) "Max length")
                           (check_has_length arr exact_length min_length
                              max_length must_be_1d false name)))
                  /\ (forall b c both,
                        lo = Some b ->
                        length_bound max_length "Max length" (Some c) ->
                        stack [b; c] = Some both ->
                        passes_on
                          (check_is_sorted (Arr both) true false (VInt (-1))
                             "Range")
                          (check_has_length arr exact_length min_length
                             max_length must_be_1d false name))))).
Proof.
  unfold passes_on, check_has_length. cbn [bind].
  split; [intros e ->; reflexivity|].
  split; [intros -> e ->; reflexivity|].
  intros n (Hi & Hs & Hl). rewrite Hi. unfold Pass at 1. cbn [bind].
  assert (E1 : (if must_be_1d then check_has_shape arr (VInt (-1)) "Array"
                else Pass) = Pass)
    by (destruct must_be_1d; [now apply Hs | reflexivity]).
  rewrite E1. unfold Pass at 1. cbn [bind]. rewrite Hl. cbn [bind].
  split.
  { intros e Hc x Hx. rewrite (cast_not_none _ _ Hc). cbn [negb].
    rewrite Hc. cbn [bind]. rewrite Hx. reflexivity. }
  intros Hex. rewrite (exact_length_passes n exact_length name Hex).
  unfold Pass at 1. cbn [bind].
  split.
  { intros b Hc. rewrite (cast_not_none _ _ Hc). cbn [negb].
    rewrite Hc. cbn [bind].
    split; [intros e ->; reflexivity|].
    intros -> e ->. reflexivity. }
  intros lo Hlo. rewrite (length_bound_returns _ _ _ Hlo). cbn [bind].
  split.
  { intros b Hc. rewrite (cast_not_none _ _ Hc). cbn [negb].
    rewrite Hc. cbn [bind].
    split; [intros e ->; reflexivity|].
    intros -> e ->. reflexivity. }
  intros b c both -> Hhi Hst e He.
  rewrite (length_bound_returns _ _ _ Hhi). cbn [bind]. rewrite Hst.
  rewrite sorted_at_defaults in He. rewrite He. reflexivity.
Qed.

Lemma needs_checks_general (shape : value) :
  needs_checks shape = true ->
  _validate_shape_value shape =
  (check_is_instance (Val shape) (CI_tuple [C_int; C_tuple]) true "Shape" ;;
   shape' <-
     (if isinstance (Val shape) (CI_class C_int)
      then Return (VTuple [shape])
      else
        check_is_iterable_of_some_type shape (CI_class C_int) true "Shape" ;;
        Return shape) ;;
   check_is_greater_than (Val shape') (Val (VInt (-1))) false "Shape" ;;
   Raise (Exn RuntimeError [Txt "This line should not be reachable."])).
Proof.
  unfold needs_checks. intros H.
  repeat (apply andb_true_iff in H as [H ?]).
  apply negb_true_iff in H.
  repeat match goal with
         | F : negb _ = true |- _ => apply negb_true_iff in F
         end.
  unfold _validate_shape_value, _validate_shape_value_general.
  repeat match goal with
         | F : _ = false |- _ => rewrite F
         end.
  reflexivity.
Qed.

Lemma validate_shape_passes_on (shape : value) :
  needs_checks shape = true ->
  passes_on
    (check_is_instance (Val shape) (CI_tuple [C_int; C_tuple]) true "Shape")
    (_validate_shape_value shape)
  /\ (check_is_instance (Val shape) (CI_tuple [C_int; C_tuple]) true "Shape"
      = Pass ->
      (isinstance (Val shape) (CI_class C_int) = true ->
       passes_on
         (check_is_greater_than (Val (VTuple [shape])) (Val (VInt (-1)))
            false "Shape")
         (_validate_shape_value shape))
      /\ (isinstance (Val shape) (CI_class C_int) = false ->
          passes_on
            (check_is_iterable_of_some_type shape (CI_class C_int) true
               "Shape")
            (_validate_shape_value shape)
          /\ (check_is_iterable_of_some_type shape (CI_class C_int) true
                "Shape" = Pass ->
              passes_on
                (check_is_greater_than (Val shape) (Val (VInt (-1))) false
                   "Shape")
                (_validate_shape_value shape)))).
Proof.
  intros H. rewrite (needs_checks_general shape H). unfold passes_on.
  split; [intros e ->; reflexivity|].
  intros ->. unfold Pass at 1. cbn [bind]. split.
  - intros -> e He. cbn [bind]. rewrite He. reflexivity.
  - intros ->. split; [intros e ->; reflexivity|].
    intros -> e He. unfold Pass. cbn [bind]. cbn [bind]. rewrite He.
    reflexivity.
Qed.

(** C4, amended. A failed dtype test inside [check_is_numeric] and
    [check_is_real] is re-raised as a type error with the message
    "{name} must be numeric." and "{name} must have real numbers." in
    place of the dtype message of [check_is_subdtype]; [check_is_sorted]
    likewise replaces the range failure of an out-of-bounds axis by
    "Axis {axis} is out of bounds for ndim {ndim}."; everywhere else a
    check passes the failure of a check it calls on as it is: the
    wrappers of one call ([check_is_integerlike] with [strict],
    [check_is_nonnegative], [check_is_type], [check_is_string],
    [check_is_sequence], [check_is_iterable],
    [check_is_iterable_of_strings], [check_is_scalar]) are the check
    they call, and the checks that call several in sequence
    ([check_is_greater_than], [check_is_less_than],
    [check_is_in_range], [check_has_shape], [check_is_number],
    [check_is_iterable_of_some_type], [check_is_string_in_iterable],
    [check_is_sorted] on its axis, [check_has_length] and
    [_validate_shape_value]) raise the failure of the first of them
    that fails. *)
Theorem reclassified_failures (a : ndarray) (name : string) :
  (check_is_numeric (Arr a) name =
     (if issubdtype (arr_dtype a) C_number then Pass
      else raise_TypeError [Txt name; Txt " must be numeric."])
   /\ plain_text [Txt name; Txt " must be numeric."] =
      Some (name ++ " must be numeric.")%string)
  /\ (check_is_real (Arr a) name =
        (if is_real_dtype (arr_dtype a) then Pass
         else raise_TypeError [Txt name; Txt " must have real numbers."])
      /\ plain_text [Txt name; Txt " must have real numbers."] =
         Some (name ++ " must have real numbers.")%string)
  /\ (forall ascending strict z,
        1 <= ndim a -> z < - ndim a \/ ndim a <= z ->
        check_is_sorted (Arr a) ascending strict (VInt z) name =
        raise_ValueError
          [Txt "Axis "; FInt z; Txt " is out of bounds for ndim ";
           FInt (ndim a); Txt "."])
  /\ (forall k,
        numpy_base (CI_class k) = true ->
        check_is_subdtype (arr_dtype a) (CI_class k) name =
        if issubdtype (arr_dtype a) k then Pass
        else raise_TypeError
               [Txt name; Txt " has incorrect dtype of '";
                FDtype (arr_dtype a); Txt "'. ";
                Txt "The dtype must be a subtype of "; FClass k; Txt "."])
  /\ check_is_integerlike (Arr a) true name =
     check_is_subdtype (arr_dtype a) (CI_class C_integer) "Input"
  /\ (forall arr,
        check_is_nonnegative arr name =
        check_is_greater_than arr (Val (VInt 0)) false name)
  /\ (forall value strict,
        (passes_on (check_is_number value (VStr "abstract") true "Object")
           (check_is_greater_than (Arr a) value strict name)
         /\ (check_is_number value (VStr "abstract") true "Object" = Pass ->
             passes_on (check_is_real value "Array")
               (check_is_greater_than (Arr a) value strict name)))
        /\ (passes_on (check_is_number value (VStr "abstract") true "Object")
              (check_is_less_than (Arr a) value strict name)
            /\ (check_is_number value (VStr "abstract") true "Object" = Pass ->
                passes_on (check_is_real value "Array")
                  (check_is_less_than (Arr a) value strict name))))
  /\ (forall arr rng r strict_lower strict_upper,
        cast_to_ndarray rng = Return r ->
        passes_on (check_has_shape (Arr r) (VInt 2) "Range")
          (check_is_in_range arr rng strict_lower strict_upper name)
        /\ (check_has_shape (Arr r) (VInt 2) "Range" = Pass ->
            passes_on
              (check_is_sorted (Arr r) true false (VInt (-1)) "Range")
              (check_is_in_range arr rng strict_lower strict_upper name)
            /\ (check_is_sorted (Arr r) true false (VInt (-1)) "Range"
                  = Pass ->
                forall b,
                  as_ndarray arr = Return b ->
                  passes_on
                    (check_is_greater_than (Arr b) (item r 0) strict_lower
                       name)
                    (check_is_in_range arr rng strict_lower strict_upper
                       name)
                  /\ (check_is_greater_than (Arr b) (item r 0) strict_lower
                        name = Pass ->
                      passes_on
                        (check_is_less_than (Arr b) (item r 1) strict_upper
                           name)
                        (check_is_in_range arr rng strict_lower
                           strict_upper name)))))
  /\ (forall r strict_lower strict_upper,
        valid_range r = true ->
        check_is_in_range (Arr a) (Arr r) strict_lower strict_upper name =
        (check_is_greater_than (Arr a) (item r 0) strict_lower name ;;
         check_is_less_than (Arr a) (item r 1) strict_upper name))
  /\ ((forall pre spec rest e,
         Forall
           (fun p => valid_shape p
                     /\ matches (py_iter (array_shape_value a)) p = false)
           pre ->
         _validate_shape_value spec = Raise e ->
         check_has_shape (Arr a) (VList (pre ++ spec :: rest)) name = Raise e)
      /\ (forall spec,
            (forall l, spec <> VList l) ->
            passes_on (_validate_shape_value spec)
              (check_has_shape (Arr a) spec name)))
  /\ (forall must_be_real,
        ndim a = 0 ->
        check_is_scalar (Arr a) must_be_real name =
        if must_be_real then check_is_real (Arr a) name
        else check_is_numeric (Arr a) name)
  /\ (forall obj must_be_real,
        (forall b, obj <> Arr b) ->
        check_is_scalar obj must_be_real name =
        check_is_number obj (VStr "abstract") must_be_real "Object")
  /\ (forall num definition must_be_real e,
        check_is_string_in_iterable definition
          (VList [VStr "abstract"; VStr "builtin"; VStr "numpy"]) "String"
        = Raise e ->
        check_is_number num definition must_be_real name = Raise e)
  /\ (forall num definition must_be_real,
        In definition definitions ->
        exists valid_type,
          check_is_number num (VStr definition) must_be_real name =
          check_is_instance num valid_type true name)
  /\ (forall obj classinfo,
        check_is_type obj classinfo name =
        check_is_instance obj classinfo false name)
  /\ (forall obj allow_subclass,
        check_is_string obj allow_subclass name =
        check_is_instance obj (CI_class C_str) allow_subclass name)
  /\ (forall obj,
        check_is_sequence obj name =
        check_is_instance obj (CI_class C_Sequence) true name)
  /\ (forall obj,
        check_is_iterable obj name =
        check_is_instance obj (CI_class C_Iterable) true name)
  /\ (forall iterable allow_subclass,
        check_is_iterable_of_strings iterable allow_subclass name =
        check_is_iterable_of_some_type iterable (CI_class C_str)
          allow_subclass name)
  /\ (forall iterable some_type allow_subclass,
        passes_on (check_is_iterable (Val iterable) name)
          (check_is_iterable_of_some_type iterable some_type allow_subclass
             name)
        /\ (check_is_iterable (Val iterable) name = Pass ->
            forall pre x post,
              py_iter iterable = pre ++ x :: post ->
              Forall
                (fun y => check_is_instance (Val y) some_type allow_subclass
                            ("All items of " ++ name) = Pass) pre ->
              passes_on
                (check_is_instance (Val x) some_type allow_subclass
                   ("All items of " ++ name))
                (check_is_iterable_of_some_type iterable some_type
                   allow_subclass name)))
  /\ (forall string_in string_iterable,
        passes_on (check_is_string (Val string_in) true name)
          (check_is_string_in_iterable string_in string_iterable name)
        /\ (check_is_string (Val string_in) true name = Pass ->
            passes_on
              (check_is_iterable_of_strings string_iterable true
                 "String Iterable")
              (check_is_string_in_iterable string_in string_iterable name)))
  /\ (forall ascending strict axis,
        1 <= ndim a -> is_None axis = false ->
        py_eq axis (VInt (-1)) = false ->
        passes_on (check_is_number (Val axis) (VStr "abstract") true "Axis")
          (check_is_sorted (Arr a) ascending strict axis name)
        /\ (check_is_number (Val axis) (VStr "abstract") true "Axis" = Pass ->
            passes_on (check_is_integerlike (Val axis) false "Axis")
              (check_is_sorted (Arr a) ascending strict axis name)))
  /\ (forall arr exact_length min_length max_length must_be_1d,
        exists subject,
          check_has_length arr exact_length min_length max_length
            must_be_1d true name =
          check_has_length subject exact_length min_length max_length
            must_be_1d false name)
  /\ (forall arr exact_length min_length max_length must_be_1d,
        passes_on
          (check_is_instance arr (CI_tuple [C_Sequence; C_ndarray]) true
             name)
          (check_has_length arr exact_length min_length max_length
             must_be_1d false name)
        /\ (check_is_instance arr (CI_tuple [C_Sequence; C_ndarray]) true
              name = Pass ->
            passes_on (check_has_shape arr (VInt (-1)) "Array")
              (check_has_length arr exact_length min_length max_length true
                 false name))
        /\ (forall n,
              length_taken arr must_be_1d name n ->
              (forall e,
                 cast_to_ndarray (Val exact_length) = Return e ->
                 passes_on
                   (check_is_integerlike (Arr e) false "'exact_length'")
                   (check_has_length arr exact_length min_length max_length
                      must_be_1d false name))
              /\ (exact_length_met n exact_length ->
                  (forall b,
                     cast_to_ndarray (Val min_length) = Return b ->
                     passes_on (check_is_scalar (Arr b) true "Min length")
                       (check_has_length arr exact_length min_length
                          max_length must_be_1d false name)
                     /\ (check_is_scalar (Arr b) true "Min length" = Pass ->
                         passes_on (check_is_real (Arr b) "Min length")
                           (check_has_length arr exact_length min_length
                              max_length must_be_1d false name)))
                  /\ (forall lo,
                        length_bound min_length "Min length" lo ->
                        (forall b,
                           cast_to_ndarray (Val max_length) = Return b ->
                           passes_on
                             (check_is_scalar (Arr b) true "Max length")
                             (check_has_length arr exact_length min_length
                                max_length must_be_1d false name)
                           /\ (check_is_scalar (Arr b) true "Max length"
                                 = Pass ->
                               passes_on
                                 (check_is_real (Arr b) "Max length")
                                 (check_has_length arr exact_length
                                    min_length max_length must_be_1d false
                                    name)))
                        /\ (forall b c both,
                              lo = Some b ->
                              length_bound max_length "Max length" (Some c) ->
                              stack [b; c] = Some both ->
                              passes_on
                                (check_is_sorted (Arr both) true false
                                   (VInt (-1)) "Range")
                                (check_has_length arr exact_length
                                   min_length max_length must_be_1d false
                                   name))))))
  /\ (forall shape,
        needs_checks shape = true ->
        passes_on
          (check_is_instance (Val shape) (CI_tuple [C_int; C_tuple]) true
             "Shape")
          (_validate_shape_value shape)
        /\ (check_is_instance (Val shape) (CI_tuple [C_int; C_tuple]) true
              "Shape" = Pass ->
            (isinstance (Val shape) (CI_class C_int) = true ->
             passes_on
               (check_is_greater_than (Val (VTuple [shape]))
                  (Val (VInt (-1))) false "Shape")
               (_validate_shape_value shape))
            /\ (isinstance (Val shape) (CI_class C_int) = false ->
                passes_on
                  (check_is_iterable_of_some_type shape (CI_class C_int)
                     true "Shape")
                  (_validate_shape_value shape)
                /\ (check_is_iterable_of_some_type shape (CI_class C_int)
                      true "Shape" = Pass ->
                    passes_on
                      (check_is_greater_than (Val shape) (Val (VInt (-1)))
                         false "Shape")
                      (_validate_shape_value shape))))).
Proof.
  split; [split; [apply numeric_by_dtype | reflexivity]|].
  split; [split; [apply real_by_dtype | reflexivity]|].
  split; [intros; now apply sorted_axis_out_of_bounds|].
  split; [intros; apply subdtype_generic_message|].
  split; [unfold check_is_integerlike; cbn [as_ndarray bind];
          apply try_except_reraise|].
  split; [intros; apply try_except_reraise|].
  split; [intros; apply comparison_passes_on|].
  split; [intros; now apply in_range_passes_on|].
  split; [intros; now apply in_range_valid|].
  split; [apply has_shape_passes_on|].
  split; [intros; now apply scalar_of_zero_dim|].
  split; [intros; now apply scalar_of_non_array|].
  split; [intros; now apply number_invalid_definition|].
  split; [intros; now apply number_is_instance|].
  split; [intros; apply try_except_reraise|].
  split; [intros; apply try_except_reraise|].
  split; [intros; apply try_except_reraise|].
  split; [intros; apply try_except_reraise|].
  split; [intros; apply try_except_reraise|].
  split; [intros; apply iterable_passes_on|].
  split; [intros; apply string_in_iterable_passes_on|].
  split; [intros; now apply sorted_passes_on|].
  split; [intros; apply has_length_allow_scalar|].
  split; [intros; apply has_length_passes_on|].
  intros shape H. now apply validate_shape_passes_on.
Qed.

Lemma reclassified_failures_witness :
  check_is_sorted (Arr (ints [1; 2; 3])) true false (VInt 5) "Array" =
  raise_ValueError
    [Txt "Axis "; FInt 5; Txt " is out of bounds for ndim ";
     FInt (ndim (ints [1; 2; 3])); Txt "."].
Proof.
  assert (Hn : 1 <= ndim (ints [1; 2; 3])) by (vm_compute; discriminate).
  assert (Hz : 5 < - ndim (ints [1; 2; 3]) \/ ndim (ints [1; 2; 3]) <= 5)
    by (right; vm_compute; discriminate).
  exact (proj1 (proj2 (proj2 (reclassified_failures (ints [1; 2; 3]) "Array")))
           true false 5 Hn Hz).
Defined.

(** C4, as stated, fails: the value error [check_is_in_range] raises
    for axis 5 of a one-dimensional array is not what [check_is_sorted]
    raises; it substitutes a message of its own. *)
Lemma axis_failure_is_replaced :
  check_is_in_range (Val (VInt 5)) (Val (VList [VInt (-1); VInt 0]))
    false false "Axis" =
  raise_ValueError
    [Txt "Axis"; Txt " values must all be less than or equal to ";
     FObj (NpScalar int64 (s_of_Z 0)); Txt "."]
  /\ check_is_sorted (Arr (ints [1; 2; 3])) true false (VInt 5) "Array" =
     raise_ValueError
       [Txt "Axis "; FInt 5; Txt " is out of bounds for ndim "; FInt 1;
        Txt "."]
  /\ check_is_sorted (Arr (ints [1; 2; 3])) true false (VInt 5) "Array" <>
     check_is_in_range (Val (VInt 5)) (Val (VList [VInt (-1); VInt 0]))
       false false "Axis".
Proof.
  split; [reflexivity|]. split; [reflexivity|].
  intros H. vm_compute in H. discriminate H.
Qed.
(** ** Ranges *)

Lemma has_shape_two (r : ndarray) (name : string) :
  check_has_shape (Arr r) (VInt 2) name =
  if list_eqb_Z (arr_shape r) [2] then Pass
  else raise_ValueError
         [Txt name; Txt " has shape "; FObj (Val (array_shape_value r));
          Txt " which is not allowed. ";
          Txt "Shape must be "; FObj (Val (VInt 2)); Txt "."].
Proof.
  unfold check_has_shape. cbn [as_ndarray bind py_iter shape_loop].
  change (_validate_shape_value (VInt 2)) with (Return (VTuple [VInt 2])).
  cbn [bind py_iter]. unfold array_shape_value, tuple_of_ints. cbn [py_iter].
  destruct (arr_shape r) as [|n [|m sh]]; try reflexivity.
  unfold _shape_is_allowed, list_eqb_Z. cbn [map length Nat.eqb andb all_map2 combine forallb fst snd].
  rewrite py_eq_int, !andb_true_r.
  change (py_eq (VInt 2) (VInt (-1))) with false.
  destruct (n =? 2); reflexivity.
Qed.

Lemma list_eqb_Z_eq (a b : list Z) : list_eqb_Z a b = true <-> a = b.
Proof.
  unfold list_eqb_Z. revert b. induction a as [|x a IH]; intros [|y b]; cbn;
    try (split; (reflexivity || discriminate)).
  rewrite andb_true_iff in *. specialize (IH b). rewrite andb_true_iff in IH.
  rewrite !andb_true_iff. rewrite Z.eqb_eq. split.
  - intros [H1 [H2 H3]]. f_equal; [assumption | now apply IH].
  - intros [= -> ->]. destruct IH as [_ IH]. destruct (IH eq_refl). auto.
Qed.

Lemma wf_pair (r : ndarray) :
  wf_array r = true -> arr_shape r = [2] ->
  exists lo hi, arr_data r = [lo; hi].
Proof.
  unfold wf_array, size. intros H E. rewrite E in H.
  apply andb_true_iff in H as [H _]. apply andb_true_iff in H as [_ H].
  apply Z.eqb_eq in H. cbn in H.
  destruct (arr_data r) as [|lo [|hi [|? ?]]]; cbn in H; try lia.
  now exists lo, hi.
Qed.

Lemma in_range_invalid (r : ndarray) (sl su : bool) (name : string) :
  wf_array r = true -> valid_range r = false ->
  exists m, leading_text m = "Range"%string /\
    forall arr, check_is_in_range arr (Arr r) sl su name = raise_ValueError m.
Proof.
  intros Hwf Hv. unfold check_is_in_range. cbn [cast_to_ndarray bind].
  rewrite has_shape_two.
  destruct (list_eqb_Z (arr_shape r) [2]) eqn:E.
  - apply list_eqb_Z_eq in E. destruct (wf_pair r Hwf E) as (lo & hi & Hd).
    destruct r as [d sh data]. cbn [arr_shape arr_data] in *. subst sh data.
    unfold valid_range in Hv. cbn [arr_shape arr_data] in Hv.
    cbn [bind]. rewrite sorted_default_pair, Hv.
    eexists. split; [|intros arr; reflexivity]. reflexivity.
  - eexists. split; [|intros arr; reflexivity]. reflexivity.
Qed.

Lemma forallb_pointwise {A} (f g : A -> bool) (l : list A) :
  (forall x, f x = g x) -> forallb f l = forallb g l.
Proof. intros H. induction l as [|x l IH]; cbn; [reflexivity | now rewrite H, IH]. Qed.

Lemma all_cmp_both (f g : scalar -> scalar -> bool) (a : ndarray) (u v : scalar) :
  all_cmp f a u && all_cmp g a v =
  forallb (fun x => f x u && g x v) (arr_data a).
Proof.
  unfold all_cmp. induction (arr_data a) as [|x l IH]; [reflexivity|].
  cbn [forallb]. rewrite <- IH.
  destruct (f x u), (g x v), (forallb _ l), (forallb _ l); reflexivity.
Qed.

(** *** Equal bounds *)

Ltac norm_pow :=
  repeat match goal with
  | |- context [Z.pow ?a ?b] =>
      let v := eval vm_compute in (Z.pow a b) in
      change (Z.pow a b) with v
  | H : context [Z.pow ?a ?b] |- _ =>
      let v := eval vm_compute in (Z.pow a b) in
      change (Z.pow a b) with v in H
  end.

Ltac split_ifs :=
  repeat match goal with
  | |- context [if ?b then _ else _] => destruct b eqn:?
  end.

(** A number within the range of the array's own dtype does not change
    the dtype of the comparison. *)
Lemma result_type_same (a : ndarray) (v : scalar) :
  is_real_dtype (arr_dtype a) = true -> within (arr_dtype a) v = true ->
  result_type a (arr_dtype a) v = arr_dtype a.
Proof.
  intros Hd Hw. unfold result_type. rewrite Nat.ltb_irrefl, orb_false_r.
  destruct (ndim a =? 0); [destruct (arr_dtype a); reflexivity|].
  destruct (arr_dtype a); try discriminate Hd;
    destruct v as [[q| | |]|re im]; try discriminate Hw;
    try reflexivity;
    unfold min_scalar_type, min_float_type, min_int_type, within in *;
    cbn [dtype_kind dtype_bits unsigned_or_bool negb andb] in *;
    norm_pow; split_ifs; try reflexivity; try (exfalso; lia).
Qed.

Lemma min_scalar_type_eq (d : dtype) (l h : xreal) :
  xeqb l h = true ->
  min_scalar_type d (SReal l) = min_scalar_type d (SReal h).
Proof.
  destruct l as [p| | |], h as [q| | |]; cbn [xeqb]; intros H;
    try discriminate H; try reflexivity.
  apply Qeq_bool_iff in H. unfold min_scalar_type, min_float_type.
  rewrite (Qfloor_comp p q H).
  rewrite (Qleb_comp p q H _ _ (Qeq_refl _)).
  rewrite (Qleb_comp _ _ (Qeq_refl 65000) p q H).
  rewrite (Qleb_comp p q H (- float32_limit)%Q _ (Qeq_refl _)).
  rewrite (Qleb_comp _ _ (Qeq_refl float32_limit) p q H).
  reflexivity.
Qed.

Lemma result_type_eq (a : ndarray) (d : dtype) (l h : xreal) :
  xeqb l h = true ->
  result_type a d (SReal l) = result_type a d (SReal h).
Proof.
  intros H. unfold result_type. now rewrite (min_scalar_type_eq d l h H).
Qed.

Lemma round_to_eq (prec emin : Z) (p q : Q) :
  (p == q)%Q -> round_to prec emin p = round_to prec emin q.
Proof. intros H. unfold round_to. now rewrite (Qred_complete p q H). Qed.

Lemma xround_eq (prec emin : Z) (l h : xreal) :
  xeqb l h = true -> xeqb (xround prec emin l) (xround prec emin h) = true.
Proof.
  destruct l as [p| | |], h as [q| | |]; cbn [xeqb xround]; intros H;
    try discriminate H; try reflexivity.
  apply Qeq_bool_iff in H. rewrite (round_to_eq prec emin p q H).
  apply Qeq_bool_iff. reflexivity.
Qed.

(** Equal reals are equal after conversion. *)
Lemma np_cast_eq (c d : dtype) (l h : xreal) :
  xeqb l h = true ->
  exists l' h',
    np_cast c d (SReal l) = SReal l' /\ np_cast c d (SReal h) = SReal h'
    /\ s_eq (SReal l') (SReal h') = true.
Proof.
  intros H. unfold np_cast.
  assert (E : forall x y, xeqb x y = true -> s_eq (SReal x) (SReal y) = true).
  { intros x y Hxy. unfold s_eq. cbn [cparts]. now rewrite Hxy. }
  destruct (dtype_beq c d); [now eexists _, _; repeat split; auto|].
  destruct (float_format c) as [[prec emin]|].
  - eexists _, _. repeat split. apply E. now apply xround_eq.
  - now eexists _, _; repeat split; auto.
Qed.

Lemma real_bounds (r : ndarray) (lo hi : scalar) :
  wf_array r = true -> is_real_dtype (arr_dtype r) = true ->
  arr_data r = [lo; hi] ->
  exists l h, lo = SReal l /\ hi = SReal h.
Proof.
  intros Hwf Hd Hdata.
  unfold wf_array in Hwf. apply andb_true_iff in Hwf as [_ Hf].
  rewrite Hdata in Hf. cbn [forallb] in Hf.
  apply andb_true_iff in Hf as [F1 F2]. apply andb_true_iff in F2 as [F2 _].
  assert (Hc : dtype_is_complex (arr_dtype r) = false)
    by (destruct (arr_dtype r); try reflexivity; discriminate Hd).
  unfold scalar_fits in F1, F2. rewrite Hc in F1, F2.
  destruct lo as [l|? ?]; [|discriminate F1].
  destruct hi as [h|? ?]; [|discriminate F2].
  now exists l, h.
Qed.

(** With equal bounds, the two comparisons of [check_is_in_range]
    amount to [np.all(arr == lo)], made in the common dtype. *)
Lemma in_range_equal_bounds (a r : ndarray) (lo hi : scalar) (name : string) :
  wf_array r = true -> valid_range r = true ->
  is_real_dtype (arr_dtype r) = true ->
  arr_data r = [lo; hi] -> s_eq lo hi = true ->
  passes (check_is_in_range (Arr a) (Arr r) false false name) <->
  np_all s_eq a (item r 0) lo = true.
Proof.
  intros Hwf Hv Hd Hdata Heq.
  rewrite (in_range_valid a r false false name Hv).
  unfold item. rewrite Hdata. cbn [nth].
  rewrite greater_than_real_bound, less_than_real_bound by assumption.
  cbn [andb].
  destruct (real_bounds r lo hi Hwf Hd Hdata) as (l & h & -> & ->).
  assert (Hlh : xeqb l h = true).
  { unfold s_eq in Heq. cbn [cparts] in Heq.
    now apply andb_true_iff in Heq as [Heq _]. }
  unfold np_all. cbn [dtype_of_number].
  rewrite <- (result_type_eq a (arr_dtype r) l h Hlh).
  set (c := result_type a (arr_dtype r) (SReal l)).
  destruct (np_cast_eq c (arr_dtype r) l h Hlh) as (l' & h' & -> & -> & E).
  unfold passes.
  assert (B : all_cmp s_ge (astype c a) (SReal l')
              && all_cmp s_le (astype c a) (SReal h')
              = all_cmp s_eq (astype c a) (SReal l')).
  { rewrite all_cmp_both. unfold all_cmp. apply forallb_pointwise.
    intros x. now apply between_equal_bounds. }
  rewrite <- B.
  destruct (all_cmp s_ge (astype c a) (SReal l')); cbn [negb andb bind].
  - destruct (all_cmp s_le (astype c a) (SReal h')); cbn [negb]; split;
      intros H; (reflexivity || discriminate H).
  - split; intros H; discriminate H.
Qed.

(** For an array of the dtype of the bounds nothing is converted. *)
Lemma equal_in_one_dtype (a : ndarray) (d : dtype) (lo : scalar) :
  arr_dtype a = d -> is_real_dtype d = true -> within d lo = true ->
  np_all s_eq a (NpScalar d lo) lo = true <->
  Forall (fun x => s_eq x lo = true) (arr_data a).
Proof.
  intros E Hd Hw. subst d.
  rewrite np_all_same; [|reflexivity | now apply result_type_same].
  unfold all_cmp. rewrite Forall_forall, forallb_forall. reflexivity.
Qed.

(** C6, amended. [check_is_in_range] validates the bound pair first:
    unless it has shape (2,) and is in non-strict ascending order, a
    value error about the range is raised whatever the subject is; then
    it makes the two bound comparisons, one after the other.  With
    non-strict bounds and equal real bounds it accepts exactly the
    arrays all of whose elements equal the bound as NumPy compares
    them, after conversion to the common dtype, that is the arrays with
    [np.all(arr == lo)]; for an array of the dtype of the bounds these
    are the arrays whose every element is equal to the bound. *)
Theorem in_range_validates_then_compares (r : ndarray)
    (strict_lower strict_upper : bool) (name : string) :
  wf_array r = true ->
  (valid_range r = false ->
     exists m, leading_text m = "Range"%string /\
       forall arr,
         check_is_in_range arr (Arr r) strict_lower strict_upper name =
         raise_ValueError m)
  /\ (valid_range r = true ->
      forall a,
        check_is_in_range (Arr a) (Arr r) strict_lower strict_upper name =
        (check_is_greater_than (Arr a) (item r 0) strict_lower name ;;
         check_is_less_than (Arr a) (item r 1) strict_upper name))
  /\ (valid_range r = true -> is_real_dtype (arr_dtype r) = true ->
      forall lo hi, arr_data r = [lo; hi] -> s_eq lo hi = true ->
      forall a,
        (passes (check_is_in_range (Arr a) (Arr r) false false name) <->
         np_all s_eq a (item r 0) lo = true)
        /\ (arr_dtype a = arr_dtype r -> within (arr_dtype r) lo = true ->
            (passes (check_is_in_range (Arr a) (Arr r) false false name) <->
             Forall (fun x => s_eq x lo = true) (arr_data a)))).
Proof.
  intros Hwf. split; [|split].
  - intros Hv. now apply in_range_invalid.
  - intros Hv a. now apply in_range_valid.
  - intros Hv Hd lo hi Hdata Heq a.
    pose proof (in_range_equal_bounds a r lo hi name Hwf Hv Hd Hdata Heq)
      as Hnp.
    split; [exact Hnp|]. intros Ea Hw. rewrite Hnp.
    unfold item. rewrite Hdata. cbn [nth].
    now apply equal_in_one_dtype.
Qed.

Lemma in_range_validates_then_compares_witness :
  passes (check_is_in_range (Arr (ints [3; 3; 3])) (Arr (ints [3; 3]))
            false false "Array").
Proof.
  refine (proj2 (proj2 (proj2 (proj2 (in_range_validates_then_compares
                                 (ints [3; 3]) false false "Array" eq_refl))
                          eq_refl eq_refl (s_of_Z 3) (s_of_Z 3) eq_refl
                          eq_refl (ints [3; 3; 3]))
                   eq_refl eq_refl) _).
  repeat constructor.
Defined.

(** C6, as stated, fails: an element need not be equal to the bounds
    to be accepted.  The integer 2^53 + 1 is not 2^53, yet an [int64]
    array holding it is compared with [float64] bounds in [float64],
    where it is rounded to 2^53, and passes. *)
Lemma in_range_rounds_elements :
  passes (check_is_in_range (Arr (ints [2 ^ 53 + 1]))
            (Arr (floats [inject_Z (2 ^ 53); inject_Z (2 ^ 53)]))
            false false "Array")
  /\ s_eq (s_of_Z (2 ^ 53 + 1)) (SReal (Fin (inject_Z (2 ^ 53)))) = false
  /\ ~ Forall (fun x => s_eq x (SReal (Fin (inject_Z (2 ^ 53)))) = true)
         (arr_data (ints [2 ^ 53 + 1])).
Proof.
  split; [vm_compute; reflexivity|]. split; [vm_compute; reflexivity|].
  intros H. inversion H as [|x l Hx _]; subst.
  vm_compute in Hx. discriminate Hx.
Qed.

(** ** Integer-like values *)

Lemma list_eqb_Z_refl (a : list Z) : list_eqb_Z a a = true.
Proof. now apply list_eqb_Z_eq. Qed.

Lemma forallb_combine_map {A} (f : A -> A) (p : A -> A -> bool) (l : list A) :
  forallb (fun q => p (fst q) (snd q)) (combine l (map f l)) =
  forallb (fun x => p x (f x)) l.
Proof. induction l as [|x l IH]; cbn; [reflexivity | now rewrite IH]. Qed.

Lemma integerlike_by_value (a : ndarray) (name : string) :
  dtype_is_complex (arr_dtype a) = false ->
  check_is_integerlike (Arr a) false name =
  if forallb equals_own_floor (arr_data a) then Pass
  else raise_ValueError [Txt name; Txt " must have integer-like values."].
Proof.
  intros H. unfold check_is_integerlike, np_floor. cbn [as_ndarray bind].
  rewrite H. cbn [bind]. unfold array_equal. cbn [arr_shape arr_data].
  rewrite list_eqb_Z_refl, length_map, Nat.eqb_refl, forallb_combine_map.
  cbn [andb]. fold equals_own_floor.
  change (fun x => s_eq x (s_floor x)) with equals_own_floor.
  destruct (forallb equals_own_floor (arr_data a)); reflexivity.
Qed.

Lemma integerlike_complex (a : ndarray) (name : string) :
  dtype_is_complex (arr_dtype a) = true ->
  raises TypeError (check_is_integerlike (Arr a) false name).
Proof.
  intros H. unfold check_is_integerlike, np_floor. cbn [as_ndarray bind].
  rewrite H. eexists. reflexivity.
Qed.

Lemma integerlike_strict (a : ndarray) (name : string) :
  check_is_integerlike (Arr a) true name =
  if issubdtype (arr_dtype a) C_integer then Pass
  else raise_TypeError
         [Txt "Input"; Txt " has incorrect dtype of '"; FDtype (arr_dtype a);
          Txt "'. "; Txt "The dtype must be a subtype of "; FClass C_integer;
          Txt "."].
Proof.
  unfold check_is_integerlike. cbn [as_ndarray bind].
  rewrite try_except_reraise. apply subdtype_generic_message.
Qed.

(** C7, amended. Without [strict], [check_is_integerlike] accepts an
    array of boolean, integer or floating dtype iff every element
    equals its own floor, and raises a value error otherwise: it
    accepts [1.0, 2.0, -3.0] and rejects [1.5]; a complex array is
    refused with a type error whatever it holds.  With [strict] it
    accepts an array iff its dtype is a subtype of [np.integer], so it
    rejects every floating dtype whatever the values. *)
Theorem integerlike_by_value_or_dtype (a : ndarray) (name : string) :
  (dtype_is_complex (arr_dtype a) = false ->
     (passes (check_is_integerlike (Arr a) false name) <->
      Forall (fun x => equals_own_floor x = true) (arr_data a))
     /\ (~ Forall (fun x => equals_own_floor x = true) (arr_data a) ->
         check_is_integerlike (Arr a) false name =
         raise_ValueError [Txt name; Txt " must have integer-like values."]))
  /\ (dtype_is_complex (arr_dtype a) = true ->
      raises TypeError (check_is_integerlike (Arr a) false name))
  /\ passes (check_is_integerlike (Arr (floats [1; 2; -3]%Q)) false name)
  /\ check_is_integerlike (Arr (floats [3 # 2])) false name =
     raise_ValueError [Txt name; Txt " must have integer-like values."]
  /\ (passes (check_is_integerlike (Arr a) true name) <->
      issubdtype (arr_dtype a) C_integer = true)
  /\ (is_floating (arr_dtype a) = true ->
      raises TypeError (check_is_integerlike (Arr a) true name)).
Proof.
  split; [|split; [|split; [|split; [|split]]]].
  - intros H. rewrite (integerlike_by_value a name H).
    rewrite Forall_forall, <- forallb_forall.
    destruct (forallb equals_own_floor (arr_data a)); split.
    + split; reflexivity.
    + intros F. now contradiction F.
    + split; intros F; discriminate F.
    + reflexivity.
  - apply integerlike_complex.
  - reflexivity.
  - reflexivity.
  - rewrite integerlike_strict.
    destruct (issubdtype (arr_dtype a) C_integer); split; intros F;
      (reflexivity || discriminate F).
  - intros H. rewrite integerlike_strict.
    destruct (arr_dtype a); try discriminate H; eexists; reflexivity.
Qed.

Lemma integerlike_by_value_or_dtype_witness :
  raises TypeError (check_is_integerlike (Arr (floats [1; 2; -3]%Q)) true "Array")
  /\ (passes (check_is_integerlike (Arr (floats [1; 2; -3]%Q)) false "Array") <->
      Forall (fun x => equals_own_floor x = true)
             (arr_data (floats [1; 2; -3]%Q))).
Proof.
  split.
  - exact (proj2 (proj2 (proj2 (proj2 (proj2
             (integerlike_by_value_or_dtype (floats [1; 2; -3]%Q) "Array")))))
             eq_refl).
  - exact (proj1 (proj1 (integerlike_by_value_or_dtype
                           (floats [1; 2; -3]%Q) "Array") eq_refl)).
Defined.

(** C7, as stated, fails on complex arrays: floor is not defined on
    them, so even one with no element to object to is refused. *)
Lemma integerlike_rejects_complex :
  Forall (fun x => equals_own_floor x = true) (arr_data empty_complex)
  /\ raises TypeError (check_is_integerlike (Arr empty_complex) false "Array")
  /\ ~ passes (check_is_integerlike (Arr empty_complex) false "Array").
Proof.
  split; [constructor|]. split.
  - eexists. reflexivity.
  - intros H. discriminate H.
Qed.
(** ** Lengths *)

Lemma items_of_ints (ls : list Z) :
  (fix go (l : list value) : option (list ndarray) :=
     match l with
     | [] => Some []
     | x :: l' =>
         match array_of_value x, go l' with
         | Some a, Some rest => Some (a :: rest)
         | _, _ => None
         end
     end) (map VInt ls) =
  Some (map int_item ls).
Proof.
  induction ls as [|z ls IH]; [reflexivity|].
  cbn [map array_of_value]. rewrite IH. reflexivity.
Qed.

Lemma promote_ints (ls : list Z) :
  ls <> [] ->
  fold_right (fun a => promote (arr_dtype a)) bool_ (map int_item ls) = int64.
Proof.
  induction ls as [|x [|y ls] IH]; intros H; [congruence | reflexivity |].
  change (map int_item (x :: y :: ls)) with (int_item x :: map int_item (y :: ls)).
  cbn [fold_right]. rewrite IH by discriminate. reflexivity.
Qed.

Lemma data_of_ints (ls : list Z) :
  map (coerce int64) (flat_map arr_data (map int_item ls)) = map s_of_Z ls.
Proof. induction ls as [|z ls IH]; [reflexivity|]. cbn. now rewrite IH. Qed.

Lemma shapes_of_ints (ls : list Z) :
  forallb (fun a => list_eqb_Z (arr_shape a) []) (map int_item ls) = true.
Proof. induction ls as [|z ls IH]; [reflexivity|]. cbn. exact IH. Qed.

Lemma cast_lengths (ls : list Z) :
  exists e,
    cast_to_ndarray (Val (lengths ls)) = Return e
    /\ dtype_is_complex (arr_dtype e) = false
    /\ arr_data e = map s_of_Z ls.
Proof.
  unfold cast_to_ndarray, lengths. cbn [array_of_value].
  rewrite items_of_ints. destruct ls as [|z ls].
  - eexists. repeat split.
  - unfold stack. change (map int_item (z :: ls)) with (int_item z :: map int_item ls).
    cbv beta iota. change (int_item z :: map int_item ls) with (map int_item (z :: ls)).
    change (arr_shape (int_item z)) with (@nil Z).
    rewrite shapes_of_ints, promote_ints, data_of_ints by discriminate.
    eexists. repeat split.
Qed.

Lemma member_of_ints (n : Z) (ls : list Z) :
  existsb (fun x => s_eq x (s_of_Z n)) (map s_of_Z ls) = true <-> In n ls.
Proof.
  induction ls as [|z ls IH]; cbn [map existsb In].
  - split; [discriminate | contradiction].
  - rewrite orb_true_iff, IH, s_eq_Z, Z.eqb_eq. reflexivity.
Qed.

Lemma ints_equal_own_floor (ls : list Z) :
  forallb equals_own_floor (map s_of_Z ls) = true.
Proof.
  induction ls as [|z ls IH]; [reflexivity|].
  cbn [map forallb]. now rewrite int_equals_own_floor, IH.
Qed.

(** A subject that has a length is a sequence or an array. *)
Lemma sized_is_instance (subject : pyobj) (n : Z) (name : string) :
  py_len subject = Return n ->
  check_is_instance subject (CI_tuple [C_Sequence; C_ndarray]) true name = Pass.
Proof.
  destruct subject as [[]| |a]; intros H; try discriminate H; reflexivity.
Qed.

Lemma unsized_has_no_length (subject : pyobj) (exact_length min_length max_length : value)
    (name : string) :
  (forall n, py_len subject <> Return n) ->
  ~ passes (check_has_length subject exact_length min_length max_length
              false false name).
Proof.
  intros H. unfold passes, check_has_length. cbn [bind].
  destruct (check_is_instance subject _ true name) as [[]|e]; cbn [bind];
    [|discriminate].
  destruct (py_len subject) as [n|e]; [now contradiction (H n)|discriminate].
Qed.

Lemma has_length_exact (subject : pyobj) (ls : list Z) (name : string) :
  passes (check_has_length subject (lengths ls) VNone VNone false false name)
  <-> exists n, py_len subject = Return n /\ In n ls.
Proof.
  destruct (py_len subject) as [n|e] eqn:Hlen.
  - unfold passes, check_has_length. cbn [bind].
    rewrite (sized_is_instance subject n name Hlen). cbn [bind].
    rewrite Hlen. cbn [bind is_None lengths negb].
    destruct (cast_lengths ls) as (e & He & Hc & Hd).
    rewrite He. unfold Pass. cbn [bind].
    rewrite (integerlike_by_value e _ Hc), Hd, ints_equal_own_floor.
    unfold Pass. cbn [bind].
    destruct (existsb _ (map s_of_Z ls)) eqn:E; cbn [negb bind].
    + apply member_of_ints in E. split; [|reflexivity].
      intros _. exists n. split; [reflexivity | assumption].
    + split; [discriminate|]. intros (n' & [= <-] & Hin).
      apply member_of_ints in Hin. congruence.
  - split.
    + intros H. exfalso. revert H. apply unsized_has_no_length.
      intros n. rewrite Hlen. discriminate.
    + intros (n & H & _). discriminate H.
Qed.

Lemma has_length_below_min (subject : pyobj) (n m : Z) (name : string) :
  py_len subject = Return n -> n < m ->
  check_has_length subject VNone (VInt m) VNone false false name =
  raise_ValueError
    [Txt name; Txt " must have a minimum length of ";
     FObj (Arr (zero_dim int64 (s_of_Z m))); Txt ". ";
     Txt "Got length "; FInt n; Txt " instead."].
Proof.
  intros Hlen Hlt. unfold check_has_length. cbn [bind].
  rewrite (sized_is_instance subject n name Hlen). cbn [bind].
  rewrite Hlen. cbn [bind is_None negb cast_to_ndarray array_of_value].
  change (check_is_scalar (Arr (mk_ndarray int64 [] [s_of_Z m])) true "Min length")
    with Pass.
  change (check_is_real (Arr (mk_ndarray int64 [] [s_of_Z m])) "Min length")
    with Pass.
  unfold Pass. cbn [bind arr_data existsb]. rewrite s_lt_Z.
  replace (n <? m) with true by lia. reflexivity.
Qed.

(** C8. With [exact_length] a collection of lengths (and nothing else
    asked), [check_has_length] succeeds iff the subject has a length
    and it is one of them, so [1, 2, 3] passes for [2, 3]; with
    [min_length = m] a subject of length less than [m] fails with a
    value error whose message cites that length. *)
Theorem has_length_exact_and_min (subject : pyobj) (name : string) :
  (forall ls,
     passes (check_has_length subject (lengths ls) VNone VNone false false name)
     <-> exists n, py_len subject = Return n /\ In n ls)
  /\ passes (check_has_length (Val (VList [VInt 1; VInt 2; VInt 3]))
               (lengths [2; 3]) VNone VNone false false name)
  /\ (forall n m,
        py_len subject = Return n -> n < m ->
        check_has_length subject VNone (VInt m) VNone false false name =
        raise_ValueError
          [Txt name; Txt " must have a minimum length of ";
           FObj (Arr (zero_dim int64 (s_of_Z m))); Txt ". ";
           Txt "Got length "; FInt n; Txt " instead."]).
Proof.
  split; [|split].
  - intros ls. apply has_length_exact.
  - apply has_length_exact. exists 3. split; [reflexivity | cbn; auto].
  - intros n m. apply has_length_below_min.
Qed.

Lemma has_length_exact_and_min_witness :
  check_has_length (Val (VList [VInt 1; VInt 2])) VNone (VInt 3) VNone
    false false "Array" =
  raise_ValueError
    [Txt "Array"; Txt " must have a minimum length of ";
     FObj (Arr (zero_dim int64 (s_of_Z 3))); Txt ". ";
     Txt "Got length "; FInt 2; Txt " instead."].
Proof.
  exact (proj2 (proj2 (has_length_exact_and_min
                         (Val (VList [VInt 1; VInt 2])) "Array"))
           2 3 eq_refl eq_refl).
Defined.

(** ** Names in failure messages *)

















Lemma sorted_valid_axis (a : ndarray) (ascending strict : bool) (z : Z)
    (name : string) :
  1 <= ndim a -> - ndim a <= z < ndim a ->
  check_is_sorted (Arr a) ascending strict (VInt z) name =
  sorted_along a ascending strict
    (Z.to_nat (if z <? 0 then ndim a + z else z)) name.
Proof.
  intros Hn Hz. unfold check_is_sorted. cbn [as_ndarray bind is_None].
  replace (ndim a =? 0) with false by lia. rewrite py_eq_int.
  destruct (z =? -1) eqn:E; cbn [negb].
  - cbn [bind]. apply Z.eqb_eq in E. subst z.
    replace (-1 <? 0) with true by reflexivity.
    replace (ndim a + -1 <? 0) with false by lia. reflexivity.
  - rewrite number_int, integerlike_int. unfold Pass. cbn [bind py_int].
    rewrite (in_range_axis z (ndim a) Hn).
    replace (- ndim a <=? z) with true by lia.
    replace (z <=? ndim a - 1) with true by lia.
    unfold Pass. cbn [negb try_except bind].
    destruct (z <? 0) eqn:F.
    + replace (ndim a + z <? 0) with false by lia. reflexivity.
    + rewrite F. reflexivity.
Qed.







Lemma stack_two_ints (m M : Z) :
  stack [int_item m; int_item M] =
  Some (mk_ndarray int64 [2] [s_of_Z m; s_of_Z M]).
Proof. reflexivity. Qed.
















(** Two paths drop the caller's name: the strict branch of
    [check_is_integerlike] calls [check_is_subdtype] with its default
    name, and [check_is_scalar] calls [check_is_number] with its own. *)
Lemma integerlike_strict_label (name : string) :
  check_is_integerlike (Arr (floats [3 # 2])) true name =
  raise_TypeError
    [Txt "Input"; Txt " has incorrect dtype of '"; FDtype float64;
     Txt "'. "; Txt "The dtype must be a subtype of "; FClass C_integer;
     Txt "."].
Proof. reflexivity. Qed.

Lemma scalar_number_label (name : string) :
  check_is_scalar (Val (VStr "a")) true name =
  raise_TypeError
    [Txt "Object"; Txt " "; Txt "must be an instance of"; Txt " ";
     FClassinfo (CI_class C_Real); Txt ". Got "; FClass C_str;
     Txt " instead."].
Proof. reflexivity. Qed.

(** ** Remarks on the boundaries of the properties *)

(** Outside the shape-like inputs the early return is not the general
    path: a tuple holding the float 1.0 equals the literal (1,) and is
    returned unchecked, where the general validation refuses it. *)
Lemma fast_path_on_floats :
  _validate_shape_value (VTuple [VFloat (Fin 1)]) =
  Return (VTuple [VFloat (Fin 1)])
  /\ raises TypeError (_validate_shape_value_slow (VTuple [VFloat (Fin 1)])).
Proof. split; [reflexivity | eexists; reflexivity]. Qed.

(** As the docstring of [check_is_number] warns, a NumPy float passes
    under the built-in definition and a NumPy integer does not. *)
Lemma numpy_float_is_a_builtin_number (x : scalar) (name : string) :
  passes (check_is_number (NpScalar float64 x) (VStr "builtin") true name)
  /\ raises TypeError
       (check_is_number (NpScalar int64 x) (VStr "builtin") true name).
Proof. split; [reflexivity | eexists; reflexivity]. Qed.


(* ================================================================== *)
(** * Further properties of the checks *)

(** ** Instance checks, item by item *)

Lemma instance_allowing_subclasses (obj : pyobj) (ci : classinfo)
    (name : string) :
  (isinstance obj ci = true /\ check_is_instance obj ci true name = Pass)
  \/ (isinstance obj ci = false /\
      exists body,
        check_is_instance obj ci true name =
        raise_TypeError
          [Txt name; Txt " "; Txt body; Txt " "; FClassinfo ci;
           Txt ". Got "; FClass (type_of obj); Txt " instead."]).
Proof.
  unfold check_is_instance. destruct (isinstance obj ci); cbn [andb negb].
  - left. split; reflexivity.
  - right. split; [reflexivity|].
    destruct ci as [c|cs]; cbn [Nat.eqb].
    + eexists. reflexivity.
    + destruct (Nat.eqb (length cs) 1); eexists; reflexivity.
Qed.

Lemma for_each_instance (ci : classinfo) (name : string) (l : list value) :
  (forallb (fun item => isinstance (Val item) ci) l = true /\
   for_each (fun item => check_is_instance (Val item) ci true name) l = Pass)
  \/ (forallb (fun item => isinstance (Val item) ci) l = false /\
      raises TypeError
        (for_each (fun item => check_is_instance (Val item) ci true name) l)).
Proof.
  induction l as [|x l IH]; [left; split; reflexivity|].
  cbn [forallb for_each].
  destruct (instance_allowing_subclasses (Val x) ci name)
    as [[Hi Hc]|[Hi [body Hc]]]; rewrite Hi, Hc; cbn [andb bind].
  - exact IH.
  - right. split; [reflexivity | eexists; reflexivity].
Qed.

Lemma isinstance_int (v : value) :
  isinstance (Val v) (CI_class C_int) = is_int v.
Proof. destruct v; reflexivity. Qed.

(** ** Conversion of integers to arrays *)

Lemma item_of_int (v : value) :
  is_int v = true ->
  array_of_value v = Some (item_of v)
  /\ arr_shape (item_of v) = []
  /\ py_int_dtype (arr_dtype (item_of v)) = true
  /\ arr_data (item_of v) = [s_of_Z (int_or_zero v)].
Proof.
  destruct v; intros H; try discriminate H; repeat split.
Qed.

Lemma items_of_int_values (l : list value) :
  forallb is_int l = true ->
  (fix go (l : list value) : option (list ndarray) :=
     match l with
     | [] => Some []
     | x :: l' =>
         match array_of_value x, go l' with
         | Some a, Some rest => Some (a :: rest)
         | _, _ => None
         end
     end) l = Some (map item_of l).
Proof.
  induction l as [|v l IH]; [reflexivity|].
  cbn [forallb map]. intros H. apply andb_true_iff in H as [Hv Hl].
  destruct (item_of_int v Hv) as [E _]. rewrite E, (IH Hl). reflexivity.
Qed.

Lemma promote_int_values (l : list value) :
  forallb is_int l = true ->
  py_int_dtype
    (fold_right (fun a => promote (arr_dtype a)) bool_ (map item_of l))
  = true.
Proof.
  induction l as [|v l IH]; [reflexivity|].
  cbn [forallb map fold_right]. intros H.
  apply andb_true_iff in H as [Hv Hl]. specialize (IH Hl).
  destruct (item_of_int v Hv) as (_ & _ & Hr & _).
  unfold promote. destruct (Nat.leb _ (dtype_rank (arr_dtype (item_of v))));
    assumption.
Qed.

Lemma low_rank_is_not_complex (d : dtype) :
  py_int_dtype d = true -> dtype_is_complex d = false.
Proof. destruct d; intros H; try reflexivity; discriminate H. Qed.

Lemma data_of_int_values (d : dtype) (l : list value) :
  dtype_is_complex d = false -> forallb is_int l = true ->
  map (coerce d) (flat_map arr_data (map item_of l)) =
  map (fun v => s_of_Z (int_or_zero v)) l.
Proof.
  intros Hd. induction l as [|v l IH]; [reflexivity|].
  cbn [forallb map flat_map]. intros H. apply andb_true_iff in H as [Hv Hl].
  destruct (item_of_int v Hv) as (_ & _ & _ & Hdata).
  rewrite Hdata, map_app, (IH Hl). cbn [map app]. unfold coerce. rewrite Hd.
  reflexivity.
Qed.

Lemma shapes_of_int_values (l : list value) :
  forallb is_int l = true ->
  forallb (fun a => list_eqb_Z (arr_shape a) []) (map item_of l) = true.
Proof.
  induction l as [|v l IH]; [reflexivity|].
  cbn [forallb map]. intros H. apply andb_true_iff in H as [Hv Hl].
  destruct (item_of_int v Hv) as (_ & Hs & _). rewrite Hs, (IH Hl).
  reflexivity.
Qed.

(** A non-empty tuple of integers converts to a one-dimensional array
    of them. *)
Lemma cast_int_tuple (v : value) (l : list value) :
  forallb is_int (v :: l) = true ->
  exists a,
    cast_to_ndarray (Val (VTuple (v :: l))) = Return a
    /\ arr_shape a = [Z.of_nat (length (v :: l))]
    /\ py_int_dtype (arr_dtype a) = true
    /\ arr_data a = map (fun v => s_of_Z (int_or_zero v)) (v :: l).
Proof.
  intros H. unfold cast_to_ndarray. cbn [array_of_value].
  rewrite (items_of_int_values _ H). unfold stack.
  change (map item_of (v :: l)) with (item_of v :: map item_of l).
  cbv beta iota.
  change (item_of v :: map item_of l) with (map item_of (v :: l)).
  pose proof (Hv := H). cbn [forallb] in Hv. apply andb_true_iff in Hv as [Hv _].
  destruct (item_of_int v Hv) as (_ & Hs & _). rewrite Hs.
  rewrite (shapes_of_int_values _ H).
  pose proof (promote_int_values _ H) as Hp.
  pose proof (low_rank_is_not_complex _ Hp) as Hc.
  eexists. split; [reflexivity|]. cbn [arr_shape arr_dtype arr_data].
  split; [now rewrite length_map|]. split; [exact Hp|].
  now apply data_of_int_values.
Qed.

(** ** Comparison with an integer bound *)

(** An array of Python integers is compared with a Python integer
    as it is: the common dtype is [int64]. *)
Lemma result_type_python_int (a : ndarray) (k : Z) :
  py_int_dtype (arr_dtype a) = true -> within int64 (s_of_Z k) = true ->
  float_format (result_type a (dtype_of_number (Val (VInt k))) (s_of_Z k))
  = None.
Proof.
  intros Hd Hw. unfold within, s_of_Z, xreal_of_Z in Hw.
  cbn [dtype_kind dtype_bits] in Hw. rewrite Qfloor_Z in Hw.
  apply andb_true_iff in Hw as [Hlo Hhi].
  cbn [dtype_of_number]. norm_pow.
  rewrite Hhi. apply Z.leb_le in Hlo. apply Z.ltb_lt in Hhi.
  unfold result_type.
  destruct (ndim a =? 0); [destruct (arr_dtype a); try discriminate Hd;
                           reflexivity|].
  destruct (arr_dtype a); try discriminate Hd; [reflexivity|].
  cbn [orb kind_order dtype_kind Nat.ltb Nat.leb].
  unfold min_scalar_type, s_of_Z, xreal_of_Z. cbn [dtype_kind].
  rewrite Qfloor_Z. unfold min_int_type. norm_pow.
  cbn [unsigned_or_bool dtype_kind negb].
  split_ifs; rewrite ?andb_true_r in *; try reflexivity; exfalso; lia.
Qed.

Lemma greater_than_int_bound (a : ndarray) (k : Z) (strict : bool)
    (name : string) :
  py_int_dtype (arr_dtype a) = true -> within int64 (s_of_Z k) = true ->
  check_is_greater_than (Arr a) (Val (VInt k)) strict name =
  if strict && negb (all_cmp s_gt a (s_of_Z k)) then
    raise_ValueError [Txt name; Txt " values must all be greater than ";
                      FObj (Val (VInt k)); Txt "."]
  else if negb (all_cmp s_ge a (s_of_Z k)) then
    raise_ValueError
      [Txt name; Txt " values must all be greater than or equal to ";
       FObj (Val (VInt k)); Txt "."]
  else Pass.
Proof.
  intros Hd Hw. unfold check_is_greater_than. cbn [as_ndarray bind].
  rewrite number_int.
  change (check_is_real (Val (VInt k)) "Array") with Pass.
  unfold Pass. cbn [bind scalar_of_obj num_of_value].
  rewrite !np_all_integer by now apply result_type_python_int.
  reflexivity.
Qed.

Lemma greater_than_cast (arr : pyobj) (a : ndarray) (value : pyobj)
    (strict : bool) (name : string) :
  as_ndarray arr = Return a ->
  check_is_greater_than arr value strict name =
  check_is_greater_than (Arr a) value strict name.
Proof. intros H. unfold check_is_greater_than. rewrite H. reflexivity. Qed.

Lemma valid_dims_as_data (l : list value) :
  forallb is_int l = true ->
  forallb (fun x => s_ge x (s_of_Z (-1)))
    (map (fun v => s_of_Z (int_or_zero v)) l) =
  forallb _is_valid_dim l.
Proof.
  induction l as [|v l IH]; [reflexivity|].
  cbn [forallb map]. intros H. apply andb_true_iff in H as [Hv Hl].
  rewrite (IH Hl), s_ge_Z. f_equal.
  unfold _is_valid_dim, int_or_zero, is_int in *.
  destruct (int_of_value v); [reflexivity | discriminate Hv].
Qed.

(** ** Shape normalization *)

Lemma py_eq_tuple_inv (v : value) (m : list value) :
  py_eq v (VTuple m) = true -> exists l, v = VTuple l.
Proof. destruct v; intros H; try discriminate H. now eexists. Qed.

Lemma py_in_tuples_inv (v : value) (ts : list (list Z)) :
  py_in v (map tuple_of_ints ts) = true -> exists l, v = VTuple l.
Proof.
  unfold py_in. induction ts as [|t ts IH]; cbn [map existsb];
    [discriminate|].
  intros H. apply orb_true_iff in H as [H|H]; [|now apply IH].
  now apply py_eq_tuple_inv in H.
Qed.

(** Past the early returns and the two accepting tests, validation
    ends in a type error or a value error. *)
Lemma general_rejects (shape : value) :
  _is_valid_dim shape = false ->
  is_tuple shape && forallb _is_valid_dim (py_iter shape) = false ->
  raises TypeError (_validate_shape_value_general shape)
  \/ raises ValueError (_validate_shape_value_general shape).
Proof.
  intros Hd Ht. unfold _validate_shape_value_general. rewrite Hd, Ht.
  destruct shape as [ | b | z | x | re im | s | l | l];
    try (left; eexists; reflexivity).
  - destruct b; discriminate Hd.
  - right.
    change (check_is_instance (Val (VInt z)) (CI_tuple [C_int; C_tuple]) true
              "Shape") with Pass.
    unfold Pass. cbn [bind isinstance isinstance_class type_of type_of_value].
    change (issubclass C_int C_int) with true. cbn [bind].
    rewrite (greater_than_cast _ (mk_ndarray int64 [1] [s_of_Z z]))
      by reflexivity.
    rewrite greater_than_int_bound by reflexivity.
    cbn [andb all_cmp arr_data forallb].
    rewrite s_ge_Z. unfold _is_valid_dim in Hd. cbn [int_of_value] in Hd.
    rewrite Hd. eexists. reflexivity.
  - cbn [is_tuple py_iter andb] in Ht.
    change (check_is_instance (Val (VTuple l)) (CI_tuple [C_int; C_tuple]) true
              "Shape") with Pass.
    unfold Pass. cbn [bind isinstance isinstance_class type_of type_of_value].
    change (issubclass C_tuple C_int) with false. cbv iota.
    unfold check_is_iterable_of_some_type.
    change (check_is_iterable (Val (VTuple l)) "Shape") with Pass.
    unfold Pass. cbn [bind py_iter]. rewrite try_except_reraise.
    destruct (for_each_instance (CI_class C_int)
                ("All items of " ++ "Shape")%string l)
      as [[Hall Hpass]|[_ [m Hfail]]].
    + right. rewrite Hpass. unfold Pass. cbn [bind].
      assert (Hint : forallb is_int l = true).
      { rewrite <- Hall. apply forallb_pointwise. intros v.
        symmetry. apply isinstance_int. }
      destruct l as [|v l]; [discriminate Ht|].
      destruct (cast_int_tuple v l Hint) as (a & Hc & _ & Hp & Hdata).
      rewrite (greater_than_cast _ a) by exact Hc.
      rewrite greater_than_int_bound by (first [exact Hp | reflexivity]).
      cbn [andb]. unfold all_cmp.
      rewrite Hdata, (valid_dims_as_data _ Hint), Ht.
      eexists. reflexivity.
    + left. rewrite Hfail. eexists. reflexivity.
Qed.


Lemma common_shapes_are_valid (l : list value) :
  forallb is_int l = true ->
  py_in (VTuple l) common_shapes = true ->
  forallb _is_valid_dim l = true.
Proof.
  intros H E1. destruct l as [|x [|y [|z l]]].
  - reflexivity.
  - cbn in H. rewrite andb_true_r in H.
    cbn [forallb]. rewrite andb_true_r.
    unfold py_in, common_shapes, tuple_of_ints in E1.
    cbn [existsb map py_eq] in E1.
    rewrite !andb_true_r, !andb_false_r, !orb_false_r in E1.
    repeat (apply orb_true_iff in E1; destruct E1 as [E1|E1]);
      eapply valid_dim_of_eq; eauto; lia.
  - cbn in H. rewrite andb_true_r in H. apply andb_true_iff in H as [Hx Hy].
    cbn [forallb]. rewrite andb_true_r.
    unfold py_in, common_shapes, tuple_of_ints in E1.
    cbn [existsb map py_eq] in E1.
    rewrite !andb_true_r, !andb_false_r, !orb_false_r in E1. cbn [orb] in E1.
    apply orb_true_iff in E1; destruct E1 as [E1|E1];
      apply andb_true_iff in E1 as [Ex Ey]; apply andb_true_iff; split;
      eapply valid_dim_of_eq; eauto; lia.
  - exfalso. unfold py_in, common_shapes, tuple_of_ints in E1.
    cbn [existsb map py_eq] in E1.
    rewrite !andb_false_r in E1. discriminate.
Qed.

Lemma ints_are_int (w : list Z) : forallb is_int (map VInt w) = true.
Proof. induction w as [|z w IH]; [reflexivity | exact IH]. Qed.

Lemma valid_dims_of_ints (w : list Z) :
  forallb _is_valid_dim (map VInt w) = forallb (fun z => -1 <=? z) w.
Proof.
  induction w as [|z w IH]; [reflexivity|]. cbn [map forallb].
  now rewrite IH.
Qed.

(** A tuple of [int]s with an entry below -1 is refused with the value
    error of the final comparison. *)
Lemma general_rejects_ints (l : list value) :
  forallb is_int l = true -> forallb _is_valid_dim l = false ->
  _validate_shape_value_general (VTuple l) =
  raise_ValueError
    [Txt "Shape"; Txt " values must all be greater than or equal to ";
     FObj (Val (VInt (-1))); Txt "."].
Proof.
  intros Hint Ht. unfold _validate_shape_value_general.
  change (_is_valid_dim (VTuple l)) with false.
  cbn [is_tuple py_iter andb]. rewrite Ht.
  change (check_is_instance (Val (VTuple l)) (CI_tuple [C_int; C_tuple]) true
            "Shape") with Pass.
  unfold Pass. cbn [bind isinstance isinstance_class type_of type_of_value].
  change (issubclass C_tuple C_int) with false. cbv iota.
  unfold check_is_iterable_of_some_type.
  change (check_is_iterable (Val (VTuple l)) "Shape") with Pass.
  unfold Pass. cbn [bind py_iter]. rewrite try_except_reraise.
  destruct (for_each_instance (CI_class C_int)
              ("All items of " ++ "Shape")%string l)
    as [[_ Hpass]|[Hall _]].
  - rewrite Hpass. unfold Pass. cbn [bind].
    destruct l as [|v l]; [discriminate Ht|].
    destruct (cast_int_tuple v l Hint) as (a & Hc & _ & Hp & Hdata).
    rewrite (greater_than_cast _ a) by exact Hc.
    rewrite greater_than_int_bound by (first [exact Hp | reflexivity]).
      cbn [andb]. unfold all_cmp.
    rewrite Hdata, (valid_dims_as_data _ Hint), Ht. reflexivity.
  - exfalso. rewrite (forallb_pointwise _ is_int) in Hall
      by (intros v; apply isinstance_int).
    congruence.
Qed.

Lemma validate_int_tuple (w : list Z) :
  _validate_shape_value (tuple_of_ints w) =
  if forallb (fun z => -1 <=? z) w then Return (tuple_of_ints w)
  else raise_ValueError
         [Txt "Shape"; Txt " values must all be greater than or equal to ";
          FObj (Val (VInt (-1))); Txt "."].
Proof.
  unfold _validate_shape_value, tuple_of_ints. cbn [is_None].
  rewrite <- valid_dims_of_ints.
  destruct (py_eq (VTuple (map VInt w)) (VTuple [])) eqn:E0.
  { destruct w; [reflexivity | discriminate E0]. }
  destruct (py_in (VTuple (map VInt w)) common_shapes) eqn:E1.
  { now rewrite (common_shapes_are_valid _ (ints_are_int w) E1). }
  destruct (forallb _is_valid_dim (map VInt w)) eqn:Hv.
  - now apply general_valid_tuple.
  - now apply general_rejects_ints; [apply ints_are_int|].
Qed.

Lemma validate_int (n : Z) :
  _validate_shape_value (VInt n) =
  if -1 <=? n then Return (VTuple [VInt n])
  else raise_ValueError
         [Txt "Shape"; Txt " values must all be greater than or equal to ";
          FObj (Val (VInt (-1))); Txt "."].
Proof.
  unfold _validate_shape_value. cbn [is_None].
  change (py_eq (VInt n) (VTuple [])) with false.
  change (py_in (VInt n) common_shapes) with false. cbv iota.
  unfold _validate_shape_value_general.
  change (_is_valid_dim (VInt n)) with (-1 <=? n).
  destruct (-1 <=? n) eqn:E; [reflexivity|].
  cbn [is_tuple andb].
  change (check_is_instance (Val (VInt n)) (CI_tuple [C_int; C_tuple]) true
            "Shape") with Pass.
  unfold Pass. cbn [bind isinstance isinstance_class type_of type_of_value].
  change (issubclass C_int C_int) with true. cbn [bind].
  rewrite (greater_than_cast _ (mk_ndarray int64 [1] [s_of_Z n]))
    by reflexivity.
  rewrite greater_than_int_bound by reflexivity.
  cbn [andb all_cmp arr_data forallb].
  rewrite s_ge_Z, E. reflexivity.
Qed.


(** X2. Normalizing a shape is idempotent: what [_validate_shape_value]
    returns, it returns again when given it. *)
Theorem validate_shape_idempotent (shape t : value) :
  _validate_shape_value shape = Return t ->
  _validate_shape_value t = Return t.
Proof.
  unfold _validate_shape_value at 1.
  destruct (is_None shape); [discriminate|].
  destruct (py_eq shape (VTuple [])) eqn:E0.
  { intros [= <-]. destruct (py_eq_tuple_inv _ _ E0) as [l ->].
    unfold _validate_shape_value. cbn [is_None]. now rewrite E0. }
  destruct (py_in shape common_shapes) eqn:E1.
  { intros [= <-].
    destruct (py_in_tuples_inv shape
                [[-1]; [1]; [3]; [2]; [1; 3]; [-1; 3]] E1) as [l ->].
    unfold _validate_shape_value. cbn [is_None]. now rewrite E0, E1. }
  unfold _validate_shape_value_general.
  destruct (_is_valid_dim shape) eqn:Hd.
  { intros [= <-]. unfold _validate_shape_value. cbn [is_None].
    assert (F : py_eq (VTuple [shape]) (VTuple []) = false) by reflexivity.
    rewrite F.
    destruct (py_in (VTuple [shape]) common_shapes); [reflexivity|].
    apply general_valid_tuple. cbn [forallb]. now rewrite Hd. }
  destruct (is_tuple shape && forallb _is_valid_dim (py_iter shape)) eqn:Ht.
  { intros [= <-]. destruct shape as [ | | | | | | l | ]; try discriminate Ht.
    unfold _validate_shape_value. cbn [is_None]. rewrite E0, E1.
    apply general_valid_tuple. exact Ht. }
  intros H. exfalso.
  destruct (general_rejects shape Hd Ht) as [[m E]|[m E]];
    unfold _validate_shape_value_general in E; rewrite Hd, Ht in E;
    rewrite E in H; discriminate H.
Qed.

Lemma validate_shape_idempotent_witness :
  _validate_shape_value (VTuple [VInt 5]) = Return (VTuple [VInt 5]).
Proof.
  exact (validate_shape_idempotent (VInt 5) (VTuple [VInt 5]) eq_refl).
Defined.

(** X3. On an [int] and on a tuple of [int]s the bound of a dimension
    decides: with every entry at least -1 the shape is returned as a
    tuple, the tuple unchanged; an entry below -1 raises the value
    error "Shape values must all be greater than or equal to -1.". *)
Theorem validate_shape_bound (n : Z) (w : list Z) :
  _validate_shape_value (VInt n) =
    (if -1 <=? n then Return (VTuple [VInt n])
     else raise_ValueError
            [Txt "Shape"; Txt " values must all be greater than or equal to ";
             FObj (Val (VInt (-1))); Txt "."])
  /\ _validate_shape_value (tuple_of_ints w) =
     (if forallb (fun z => -1 <=? z) w then Return (tuple_of_ints w)
      else raise_ValueError
             [Txt "Shape"; Txt " values must all be greater than or equal to ";
              FObj (Val (VInt (-1))); Txt "."]).
Proof. split; [apply validate_int | apply validate_int_tuple]. Qed.

(** ** Shapes with a wildcard, the scalar shape and no shape *)

Lemma allowed_one_dim (shape : list Z) (n : Z) :
  _shape_is_allowed (map VInt shape) [VInt n] = true <->
  exists m, shape = [m] /\ (m = n \/ n = -1).
Proof.
  destruct shape as [|m [|m' shape]].
  - split; [discriminate | intros (m & H & _); discriminate H].
  - unfold _shape_is_allowed. cbn [map length Nat.eqb andb all_map2].
    rewrite !py_eq_int, andb_true_r. split.
    + intros H. exists m. split; [reflexivity|].
      destruct (m =? n) eqn:E; [left; lia|].
      destruct (n =? -1) eqn:F; [right; lia | discriminate H].
    + intros (m0 & [= <-] & [->| ->]).
      * now rewrite Z.eqb_refl.
      * now destruct (m =? -1).
  - split; [discriminate | intros (m0 & H & _); discriminate H].
Qed.

(** X4. The shapes that stand for a whole family: [()] admits exactly
    the 0-dimensional arrays, the integer [-1] exactly the
    one-dimensional ones and an integer [n >= 0] exactly the arrays of
    shape [(n,)]; [None] is refused with a type error and an empty list
    of shapes with a value error, whatever the array. *)
Theorem has_shape_families (a : ndarray) (name : string) :
  (passes (check_has_shape (Arr a) (VTuple []) name) <-> arr_shape a = [])
  /\ (passes (check_has_shape (Arr a) (VInt (-1)) name) <->
      exists m, arr_shape a = [m])
  /\ (forall n, 0 <= n ->
        (passes (check_has_shape (Arr a) (VInt n) name) <->
         arr_shape a = [n]))
  /\ raises TypeError (check_has_shape (Arr a) VNone name)
  /\ raises ValueError (check_has_shape (Arr a) (VList []) name).
Proof.
  split; [|split; [|split; [|split]]].
  - rewrite (has_shape_passes_iff a (VTuple []) name
               (_shape_is_allowed (py_iter (array_shape_value a)) [])).
    + unfold _shape_is_allowed, array_shape_value, tuple_of_ints.
      cbn [py_iter]. rewrite length_map.
      destruct (arr_shape a); cbn; split; intros H;
        (reflexivity || discriminate H).
    + cbn [py_iter shape_loop].
      change (_validate_shape_value (VTuple [])) with (Return (VTuple [])).
      cbn [bind py_iter].
      destruct (_shape_is_allowed _ []); reflexivity.
  - rewrite (has_shape_passes_iff a (VInt (-1)) name
               (_shape_is_allowed (py_iter (array_shape_value a)) [VInt (-1)])).
    + unfold array_shape_value, tuple_of_ints. cbn [py_iter].
      rewrite allowed_one_dim. split.
      * intros (m & H & _). now exists m.
      * intros (m & H). exists m. auto.
    + cbn [py_iter shape_loop]. rewrite validate_int.
      change (-1 <=? -1) with true. cbn [bind py_iter].
      destruct (_shape_is_allowed _ _); reflexivity.
  - intros n Hn.
    rewrite (has_shape_passes_iff a (VInt n) name
               (_shape_is_allowed (py_iter (array_shape_value a)) [VInt n])).
    + unfold array_shape_value, tuple_of_ints. cbn [py_iter].
      rewrite allowed_one_dim. split.
      * intros (m & H & [->|E]); [exact H | lia].
      * intros H. exists n. auto.
    + cbn [py_iter shape_loop]. rewrite validate_int.
      replace (-1 <=? n) with true by lia. cbn [bind py_iter].
      destruct (_shape_is_allowed _ _); reflexivity.
  - eexists. reflexivity.
  - eexists. reflexivity.
Qed.

Lemma has_shape_families_witness :
  passes (check_has_shape (Arr (ints [1; 2; 3])) (VInt 3) "Array")
  <-> arr_shape (ints [1; 2; 3]) = [3].
Proof.
  exact (proj1 (proj2 (proj2 (has_shape_families (ints [1; 2; 3]) "Array")))
           3 ltac:(discriminate)).
Defined.

(** ** Sortedness along an axis *)

Lemma sorted_along_op (a : ndarray) (ascending strict : bool) (axis : nat)
    (name : string) :
  sorted_along a ascending strict axis name = Pass <->
  forallb (fun p => sorted_op ascending strict (fst p) (snd p))
    (axis_pairs a axis) = true.
Proof.
  unfold sorted_along.
  destruct ascending, strict; cbn [andb negb sorted_op];
    match goal with
    | |- context [forallb ?f ?l] => destruct (forallb f l)
    end; cbn [negb]; split; intros H; (reflexivity || discriminate H).
Qed.

Lemma flat_map_shift {A} (f : nat -> list A) (start len : nat) :
  flat_map f (seq (S start) len) = flat_map (fun i => f (S i)) (seq start len).
Proof.
  revert start. induction len as [|len IH]; intros start; [reflexivity|].
  cbn [seq flat_map]. now rewrite IH.
Qed.

Lemma flat_map_in_ext {A B} (f g : A -> list B) (l : list A) :
  (forall x, In x l -> f x = g x) -> flat_map f l = flat_map g l.
Proof.
  induction l as [|x l IH]; intros H; [reflexivity|].
  cbn [flat_map]. rewrite (H x) by (left; reflexivity).
  rewrite IH; [reflexivity|]. intros y Hy. apply H. now right.
Qed.

Lemma pairs_by_index (l : list scalar) :
  flat_map
    (fun i =>
       match nth_error l i, nth_error l (S i) with
       | Some x, Some y => [(x, y)]
       | _, _ => []
       end)
    (seq 0 (length l)) = adjacent l.
Proof.
  unfold adjacent. induction l as [|x l IH]; [reflexivity|].
  cbn [length seq flat_map]. rewrite flat_map_shift.
  rewrite (flat_map_in_ext _
    (fun i =>
       match nth_error l i, nth_error l (S i) with
       | Some x, Some y => [(x, y)]
       | _, _ => []
       end)) by (intros; reflexivity).
  rewrite IH. destruct l as [|y l]; reflexivity.
Qed.

(** On a one-dimensional array the pairs compared are the adjacent
    elements. *)
Lemma axis_pairs_one_dim (d : dtype) (l : list scalar) :
  axis_pairs (vector d l) 0 = adjacent l.
Proof.
  unfold axis_pairs, vector. cbn [arr_shape arr_data skipn nth shape_size fold_right].
  change (Z.to_nat 1) with 1%nat. rewrite Nat2Z.id.
  rewrite <- pairs_by_index. apply flat_map_in_ext.
  intros i Hi. apply in_seq in Hi. cbn [Nat.add] in Hi.
  rewrite Nat.div_1_r, Nat.mod_small, Nat.add_1_r by lia.
  destruct (Nat.ltb (S i) (length l)) eqn:E; [reflexivity|].
  apply Nat.ltb_ge in E.
  destruct (nth_error l i); [|reflexivity].
  assert (F : nth_error l (S i) = None) by (apply nth_error_None; lia).
  now rewrite F.
Qed.

Lemma adjacent_sorted (op : scalar -> scalar -> bool) (l : list scalar) :
  forallb (fun p => op (fst p) (snd p)) (adjacent l) = true <->
  Sorted (fun x y => op x y = true) l.
Proof.
  unfold adjacent. induction l as [|x l IH]; [split; constructor|].
  destruct l as [|y l].
  - split; [repeat constructor | reflexivity].
  - cbn [tl combine forallb fst snd]. cbn [tl] in IH.
    rewrite andb_true_iff, IH. split.
    + intros [H1 H2]. constructor; [exact H2 | now constructor].
    + intros H. inversion H as [|? ? H2 H1]; subst.
      inversion H1; subst. split; assumption.
Qed.

Lemma wf_vector (a : ndarray) (n : Z) :
  wf_array a = true -> arr_shape a = [n] ->
  a = vector (arr_dtype a) (arr_data a).
Proof.
  unfold wf_array, size. intros H E. rewrite E in H.
  apply andb_true_iff in H as [H _]. apply andb_true_iff in H as [_ H].
  apply Z.eqb_eq in H. cbn [shape_size fold_right] in H.
  destruct a as [d sh data]. cbn [arr_shape arr_dtype arr_data] in *.
  unfold vector. subst sh. f_equal. f_equal. lia.
Qed.

Lemma sorted_last_axis (a : ndarray) (ascending strict : bool)
    (name : string) :
  1 <= ndim a ->
  check_is_sorted (Arr a) ascending strict (VInt (-1)) name =
  sorted_along a ascending strict (Z.to_nat (ndim a - 1)) name.
Proof.
  intros Hn. rewrite sorted_valid_axis by lia.
  replace (-1 <? 0) with true by reflexivity.
  now replace (ndim a + -1) with (ndim a - 1) by lia.
Qed.

(** X5. On a one-dimensional array [check_is_sorted] passes iff each
    element stands in the asked-for order to its successor: [<=], [<],
    [>=] or [>] by [ascending] and [strict].  An empty array and an
    array of one element are sorted in every sense. *)
Theorem sorted_one_dim (a : ndarray) (n : Z) (ascending strict : bool)
    (name : string) :
  wf_array a = true -> arr_shape a = [n] ->
  passes (check_is_sorted (Arr a) ascending strict (VInt (-1)) name) <->
  Sorted (fun x y => sorted_op ascending strict x y = true) (arr_data a).
Proof.
  intros Hwf Hs. pose proof (wf_vector a n Hwf Hs) as Hv.
  unfold passes. rewrite sorted_last_axis by (unfold ndim; rewrite Hs; cbn; lia).
  unfold ndim. rewrite Hs. cbn [length Z.of_nat].
  change (Z.to_nat (Z.of_nat 1 - 1)) with 0%nat.
  rewrite sorted_along_op, Hv, axis_pairs_one_dim.
  apply adjacent_sorted.
Qed.

Lemma sorted_one_dim_witness :
  passes (check_is_sorted (Arr (ints [1; 2; 2])) true false (VInt (-1)) "Array")
  <-> Sorted (fun x y => sorted_op true false x y = true)
        (arr_data (ints [1; 2; 2])).
Proof.
  exact (sorted_one_dim (ints [1; 2; 2]) 3 true false "Array" eq_refl eq_refl).
Defined.

Lemma s_lt_le (x y : scalar) : s_lt x y = true -> s_le x y = true.
Proof.
  unfold s_lt, s_le, s_cmp, xleb.
  destruct (cparts x) as [xr xi], (cparts y) as [yr yi].
  destruct (xltb xr yr), (xisnan xi), (xisnan yi), (xeqb xr yr),
    (xltb xi yi); cbn; intros H; try reflexivity; try discriminate H.
Qed.

Lemma s_gt_ge (x y : scalar) : s_gt x y = true -> s_ge x y = true.
Proof.
  unfold s_gt, s_ge, s_cmp, xgeb, xgtb, xleb.
  destruct (cparts x) as [xr xi], (cparts y) as [yr yi].
  destruct (xltb yr xr), (xisnan xi), (xisnan yi), (xeqb xr yr),
    (xltb yi xi); cbn; intros H; try reflexivity; try discriminate H.
Qed.

Lemma sorted_op_weaken (ascending : bool) (x y : scalar) :
  sorted_op ascending true x y = true -> sorted_op ascending false x y = true.
Proof. destruct ascending; [apply s_lt_le | apply s_gt_ge]. Qed.

Lemma forallb_impl {A} (f g : A -> bool) (l : list A) :
  (forall x, f x = true -> g x = true) ->
  forallb f l = true -> forallb g l = true.
Proof.
  intros H. rewrite !forallb_forall. intros F x Hx. apply H, F, Hx.
Qed.

Lemma sorted_along_weaken (a : ndarray) (ascending : bool) (axis : nat)
    (name : string) :
  sorted_along a ascending true axis name = Pass ->
  sorted_along a ascending false axis name = Pass.
Proof.
  rewrite !sorted_along_op. apply forallb_impl.
  intros p. apply sorted_op_weaken.
Qed.

(** X6. Whatever the array and the axis, an array that passes
    [check_is_sorted] with [strict=True] passes it with [strict=False],
    in the same direction: the strict comparison of two elements, real
    or complex, entails the non-strict one. *)
Theorem sorted_strict_entails_sorted (arr : pyobj) (ascending : bool)
    (axis : value) (name : string) :
  passes (check_is_sorted arr ascending true axis name) ->
  passes (check_is_sorted arr ascending false axis name).
Proof.
  unfold passes, check_is_sorted.
  destruct (as_ndarray arr) as [a|e]; cbn [bind]; [|intros H; exact H].
  destruct (ndim a =? 0); [intros H; exact H|].
  match goal with
  | |- bind ?c _ = _ -> _ => destruct c as [[b z]|e]
  end; cbn [bind]; [|intros H; exact H].
  apply sorted_along_weaken.
Qed.

Lemma sorted_strict_entails_sorted_witness :
  passes (check_is_sorted (Arr (ints [1; 2; 5])) true false (VInt 0) "Array").
Proof.
  apply (sorted_strict_entails_sorted (Arr (ints [1; 2; 5])) true (VInt 0)
           "Array").
  vm_compute. reflexivity.
Defined.

(** X7. A negative axis counts from the last one: on an array of
    [ndim] dimensions, axis [z] with [-ndim <= z < 0] is checked as
    axis [ndim + z], with the same outcome and the same message. *)
Theorem sorted_negative_axis (a : ndarray) (ascending strict : bool) (z : Z)
    (name : string) :
  - ndim a <= z < 0 ->
  check_is_sorted (Arr a) ascending strict (VInt z) name =
  check_is_sorted (Arr a) ascending strict (VInt (ndim a + z)) name.
Proof.
  intros Hz. assert (Hn : 1 <= ndim a) by lia.
  rewrite !sorted_valid_axis by lia.
  replace (z <? 0) with true by lia.
  replace (ndim a + z <? 0) with false by lia. reflexivity.
Qed.

Lemma sorted_negative_axis_witness :
  check_is_sorted (Arr (mk_ndarray int64 [2; 2] (map s_of_Z [1; 2; 0; 3])))
    true false (VInt (-2)) "Array" =
  check_is_sorted (Arr (mk_ndarray int64 [2; 2] (map s_of_Z [1; 2; 0; 3])))
    true false (VInt (2 + -2)) "Array".
Proof.
  apply (sorted_negative_axis
           (mk_ndarray int64 [2; 2] (map s_of_Z [1; 2; 0; 3]))
           true false (-2) "Array").
  vm_compute. split; [intros H; discriminate H | reflexivity].
Defined.

Lemma flatten_vector (a : ndarray) :
  wf_array a = true -> flatten a = vector (arr_dtype a) (arr_data a).
Proof.
  unfold wf_array, flatten, vector. intros H.
  apply andb_true_iff in H as [H _]. apply andb_true_iff in H as [_ H].
  apply Z.eqb_eq in H. now rewrite H.
Qed.

(** X8. With [axis=None] the array is flattened first: an array of one
    or more dimensions is checked as the one-dimensional array of its
    elements in row-major order, so it passes iff each element stands in
    the asked-for order to the next one, across rows. *)
Theorem sorted_flattened (a : ndarray) (ascending strict : bool)
    (name : string) :
  wf_array a = true -> 1 <= ndim a ->
  check_is_sorted (Arr a) ascending strict VNone name =
  check_is_sorted (Arr (flatten a)) ascending strict (VInt (-1)) name
  /\ (passes (check_is_sorted (Arr a) ascending strict VNone name) <->
      Sorted (fun x y => sorted_op ascending strict x y = true) (arr_data a)).
Proof.
  intros Hwf Hn.
  assert (E : check_is_sorted (Arr a) ascending strict VNone name =
              sorted_along (flatten a) ascending strict 0 name).
  { unfold check_is_sorted. cbn [as_ndarray bind is_None].
    replace (ndim a =? 0) with false by lia. reflexivity. }
  split.
  - rewrite E. rewrite sorted_last_axis by (cbn; lia). reflexivity.
  - unfold passes. rewrite E, sorted_along_op, (flatten_vector a Hwf),
      axis_pairs_one_dim. apply adjacent_sorted.
Qed.

Lemma sorted_flattened_witness :
  passes (check_is_sorted
            (Arr (mk_ndarray int64 [2; 2] (map s_of_Z [1; 2; 3; 4])))
            true true VNone "Array") <->
  Sorted (fun x y => sorted_op true true x y = true) (map s_of_Z [1; 2; 3; 4]).
Proof.
  exact (proj2 (sorted_flattened
                  (mk_ndarray int64 [2; 2] (map s_of_Z [1; 2; 3; 4]))
                  true true "Array" eq_refl ltac:(vm_compute; intros H; discriminate H))).
Defined.

(** ** Dtype checks *)

(** X9. [check_is_real] and [check_is_numeric] look at the dtype alone,
    never at the elements or the shape.  A real array is numeric, and a
    numeric array is real unless its dtype is complex: arrays of an
    integer or floating dtype pass both checks, complex arrays pass
    [check_is_numeric] and fail [check_is_real], and boolean arrays
    fail both, each time with a type error. *)
Theorem real_and_numeric_by_dtype (a : ndarray) (name name' : string) :
  (passes (check_is_real (Arr a) name) <->
   passes (check_is_numeric (Arr a) name')
   /\ dtype_is_complex (arr_dtype a) = false)
  /\ (is_real_dtype (arr_dtype a) = true ->
      passes (check_is_real (Arr a) name)
      /\ passes (check_is_numeric (Arr a) name))
  /\ (dtype_is_complex (arr_dtype a) = true ->
      passes (check_is_numeric (Arr a) name)
      /\ raises TypeError (check_is_real (Arr a) name))
  /\ (arr_dtype a = bool_ ->
      raises TypeError (check_is_numeric (Arr a) name)
      /\ raises TypeError (check_is_real (Arr a) name))
  /\ (forall b : ndarray,
        arr_dtype b = arr_dtype a ->
        check_is_real (Arr b) name = check_is_real (Arr a) name
        /\ check_is_numeric (Arr b) name = check_is_numeric (Arr a) name).
Proof.
  unfold passes. rewrite !real_by_dtype, !numeric_by_dtype.
  split; [|split; [|split; [|split]]].
  - destruct (arr_dtype a); vm_compute; split;
      try (intros H; discriminate H);
      try (intros [H1 H2]; first [discriminate H1 | discriminate H2]);
      intros _; repeat split.
  - intros H. destruct (arr_dtype a); try discriminate H; split; reflexivity.
  - intros H. destruct (arr_dtype a); try discriminate H;
      (split; [reflexivity | eexists; reflexivity]).
  - intros ->. split; eexists; reflexivity.
  - intros b E. rewrite !real_by_dtype, !numeric_by_dtype, E.
    split; reflexivity.
Qed.

(** ** Comparisons with a bound *)

Lemma nan_compares_false (x v : scalar) :
  s_isnan x = true ->
  s_gt x v = false /\ s_ge x v = false /\ s_lt x v = false /\ s_le x v = false.
Proof.
  unfold s_isnan, s_gt, s_ge, s_lt, s_le, s_cmp, xgtb, xgeb, xleb.
  destruct (cparts x) as [xr xi], (cparts v) as [yr yi].
  destruct xr as [p| | |], xi as [q| | |]; cbn [xisnan orb];
    intros H; try discriminate H;
    destruct yr as [r| | |], yi as [s| | |];
    cbn [xltb xeqb xisnan negb andb orb];
    repeat split; try reflexivity;
    repeat match goal with
    | |- context [Qle_bool ?a ?b] => destruct (Qle_bool a b)
    | |- context [Qeq_bool ?a ?b] => destruct (Qeq_bool a b)
    end; reflexivity.
Qed.

Lemma all_cmp_nan (op : scalar -> scalar -> bool) (a : ndarray) (v : scalar) :
  (forall x, s_isnan x = true -> op x v = false) ->
  existsb s_isnan (arr_data a) = true -> all_cmp op a v = false.
Proof.
  intros Hop H. apply existsb_exists in H as [x [Hx Hn]].
  unfold all_cmp. destruct (forallb _ _) eqn:E; [|reflexivity].
  rewrite forallb_forall in E. specialize (E x Hx).
  rewrite (Hop x Hn) in E. discriminate E.
Qed.

Lemma np_all_nan (op : scalar -> scalar -> bool) (a : ndarray)
    (value : pyobj) (v : scalar) :
  (forall x w, s_isnan x = true -> op x w = false) ->
  existsb s_isnan (arr_data a) = true -> np_all op a value v = false.
Proof.
  intros Hop H. unfold np_all. apply all_cmp_nan; [intros x; apply Hop|].
  unfold astype. cbn [arr_data].
  apply existsb_exists in H as [x [Hx Hn]]. apply existsb_exists.
  eexists. split; [apply in_map, Hx|].
  unfold s_isnan in *. now rewrite np_cast_isnan.
Qed.

Lemma greater_than_nan (a : ndarray) (value : pyobj) (strict : bool)
    (name : string) :
  existsb s_isnan (arr_data a) = true ->
  ~ passes (check_is_greater_than (Arr a) value strict name).
Proof.
  intros Hn. unfold passes, check_is_greater_than. cbn [as_ndarray bind].
  destruct (check_is_number _ _ _ _); cbn [bind]; [|intros H; discriminate H].
  destruct (check_is_real _ _); cbn [bind]; [|intros H; discriminate H].
  destruct (scalar_of_obj value) as [v|]; [|intros H; discriminate H].
  rewrite (np_all_nan s_gt), (np_all_nan s_ge);
    try exact Hn; try (intros x w Hx; apply nan_compares_false, Hx).
  destruct strict; cbn; intros H; discriminate H.
Qed.

Lemma less_than_nan (a : ndarray) (value : pyobj) (strict : bool)
    (name : string) :
  existsb s_isnan (arr_data a) = true ->
  ~ passes (check_is_less_than (Arr a) value strict name).
Proof.
  intros Hn. unfold passes, check_is_less_than. cbn [as_ndarray bind].
  destruct (check_is_number _ _ _ _); cbn [bind]; [|intros H; discriminate H].
  destruct (check_is_real _ _); cbn [bind]; [|intros H; discriminate H].
  destruct (scalar_of_obj value) as [v|]; [|intros H; discriminate H].
  rewrite (np_all_nan s_lt), (np_all_nan s_le);
    try exact Hn; try (intros x w Hx; apply nan_compares_false, Hx).
  destruct strict; cbn; intros H; discriminate H.
Qed.

(** X10. An array that holds a NaN, as an element or as the real or
    imaginary part of one, passes none of the comparison checks,
    whatever the bound, the range and the strictness: NaN compares
    false with everything. *)
Theorem nan_fails_every_comparison (a : ndarray) (name : string) :
  existsb s_isnan (arr_data a) = true ->
  (forall value strict,
     ~ passes (check_is_greater_than (Arr a) value strict name)
     /\ ~ passes (check_is_less_than (Arr a) value strict name))
  /\ ~ passes (check_is_nonnegative (Arr a) name)
  /\ (forall rng strict_lower strict_upper,
        ~ passes (check_is_in_range (Arr a) rng strict_lower strict_upper
                    name)).
Proof.
  intros Hn. split; [|split].
  - intros value strict. split;
      [apply greater_than_nan | apply less_than_nan]; exact Hn.
  - unfold check_is_nonnegative. rewrite try_except_reraise.
    apply greater_than_nan, Hn.
  - intros rng sl su. unfold passes, check_is_in_range.
    destruct (cast_to_ndarray rng) as [r|e]; cbn [bind];
      [|intros H; discriminate H].
    destruct (check_has_shape _ _ _); cbn [bind]; [|intros H; discriminate H].
    destruct (check_is_sorted_default _ _); cbn [bind];
      [|intros H; discriminate H].
    cbn [as_ndarray bind]. rewrite try_except_reraise.
    destruct (check_is_greater_than (Arr a) (item r 0) sl name) as [[]|e] eqn:E;
      cbn [bind]; [|intros H; discriminate H].
    exfalso. exact (greater_than_nan a _ _ _ Hn E).
Qed.

Lemma nan_fails_every_comparison_witness :
  existsb s_isnan [SReal NaN] = true
  /\ ~ passes (check_is_nonnegative (Arr (vector float64 [SReal NaN])) "Array").
Proof.
  split; [reflexivity|].
  exact (proj1 (proj2 (nan_fails_every_comparison
                         (vector float64 [SReal NaN]) "Array" eq_refl))).
Defined.

Lemma greater_than_number (a : ndarray) (v : value) (strict : bool)
    (name : string) :
  is_real_number v = true ->
  check_is_greater_than (Arr a) (Val v) strict name =
  if strict && negb (np_all s_gt a (Val v) (number_of v)) then
    raise_ValueError [Txt name; Txt " values must all be greater than ";
                      FObj (Val v); Txt "."]
  else if negb (np_all s_ge a (Val v) (number_of v)) then
    raise_ValueError [Txt name; Txt " values must all be greater than or equal to ";
                      FObj (Val v); Txt "."]
  else Pass.
Proof. destruct v; intros H; try discriminate H; reflexivity. Qed.

Lemma less_than_number (a : ndarray) (v : value) (strict : bool)
    (name : string) :
  is_real_number v = true ->
  check_is_less_than (Arr a) (Val v) strict name =
  if strict && negb (np_all s_lt a (Val v) (number_of v)) then
    raise_ValueError [Txt name; Txt " values must all be less than ";
                      FObj (Val v); Txt "."]
  else if negb (np_all s_le a (Val v) (number_of v)) then
    raise_ValueError [Txt name; Txt " values must all be less than or equal to ";
                      FObj (Val v); Txt "."]
  else Pass.
Proof. destruct v; intros H; try discriminate H; reflexivity. Qed.

Lemma all_cmp_weaken (f g : scalar -> scalar -> bool) (a : ndarray)
    (v : scalar) :
  (forall x, f x v = true -> g x v = true) ->
  all_cmp f a v = true -> all_cmp g a v = true.
Proof. intros H. unfold all_cmp. apply forallb_impl. exact H. Qed.

Lemma np_all_weaken (f g : scalar -> scalar -> bool) (a : ndarray)
    (value : pyobj) (v : scalar) :
  (forall x w, f x w = true -> g x w = true) ->
  np_all f a value v = true -> np_all g a value v = true.
Proof. intros H. unfold np_all. apply all_cmp_weaken. intros x. apply H. Qed.

Lemma strict_or_not_passes (strict : bool) (p q : bool) (e1 e2 : exn) :
  (p = true -> q = true) ->
  (if strict && negb p then Raise e1
   else if negb q then Raise e2 else Pass) = Pass <->
  (if strict then p else q) = true.
Proof.
  intros Hpq. destruct strict, p, q; cbn; split; intros H;
    try reflexivity; try discriminate H.
  discriminate (Hpq eq_refl).
Qed.

Lemma real_number_dtype (v : value) :
  is_real_number v = true ->
  is_real_dtype (dtype_of_number (Val v)) = true.
Proof.
  destruct v; intros H; try discriminate H; [|reflexivity].
  cbn [dtype_of_number]. now destruct (z <? 2 ^ 63).
Qed.

(** X11. The bound of [check_is_greater_than] and [check_is_less_than]
    must be a Python [int] or [float].  With such a bound the check
    passes iff [np.all(arr > value)] holds, or [<] for the other check,
    and [>=] or [<=] when not strict: the comparison NumPy makes once
    array and bound are converted to their common dtype, which is the
    comparison of the elements as they are when the array has the dtype
    of the bound.  Any other Python value is a type error before a
    single element is compared: [None], text and sequences, complex
    numbers, and also [True] and [False], which are numbers but make a
    boolean array, not a real one. *)
Theorem comparison_bound (a : ndarray) (v : value) (strict : bool)
    (name : string) :
  if is_real_number v then
    (passes (check_is_greater_than (Arr a) (Val v) strict name) <->
     np_all (if strict then s_gt else s_ge) a (Val v) (number_of v) = true)
    /\ (passes (check_is_less_than (Arr a) (Val v) strict name) <->
        np_all (if strict then s_lt else s_le) a (Val v) (number_of v) = true)
    /\ (arr_dtype a = dtype_of_number (Val v) ->
        within (arr_dtype a) (number_of v) = true ->
        (passes (check_is_greater_than (Arr a) (Val v) strict name) <->
         Forall
           (fun x => (if strict then s_gt else s_ge) x (number_of v) = true)
           (arr_data a))
        /\ (passes (check_is_less_than (Arr a) (Val v) strict name) <->
            Forall
              (fun x => (if strict then s_lt else s_le) x (number_of v) = true)
              (arr_data a)))
  else
    raises TypeError (check_is_greater_than (Arr a) (Val v) strict name)
    /\ raises TypeError (check_is_less_than (Arr a) (Val v) strict name).
Proof.
  destruct (is_real_number v) eqn:E.
  - unfold passes. rewrite greater_than_number, less_than_number by exact E.
    assert (G : (if strict && negb (np_all s_gt a (Val v) (number_of v))
                 then raise_ValueError
                        [Txt name; Txt " values must all be greater than ";
                         FObj (Val v); Txt "."]
                 else if negb (np_all s_ge a (Val v) (number_of v))
                 then raise_ValueError
                        [Txt name;
                         Txt " values must all be greater than or equal to ";
                         FObj (Val v); Txt "."]
                 else Pass) = Pass <->
                np_all (if strict then s_gt else s_ge) a (Val v) (number_of v)
                = true).
    { rewrite strict_or_not_passes.
      - destruct strict; reflexivity.
      - apply np_all_weaken. intros x w. apply s_gt_ge. }
    assert (L : (if strict && negb (np_all s_lt a (Val v) (number_of v))
                 then raise_ValueError
                        [Txt name; Txt " values must all be less than ";
                         FObj (Val v); Txt "."]
                 else if negb (np_all s_le a (Val v) (number_of v))
                 then raise_ValueError
                        [Txt name;
                         Txt " values must all be less than or equal to ";
                         FObj (Val v); Txt "."]
                 else Pass) = Pass <->
                np_all (if strict then s_lt else s_le) a (Val v) (number_of v)
                = true).
    { rewrite strict_or_not_passes.
      - destruct strict; reflexivity.
      - apply np_all_weaken. intros x w. apply s_lt_le. }
    split; [exact G|]. split; [exact L|].
    intros Hd Hw.
    assert (S : forall op,
              np_all op a (Val v) (number_of v) = all_cmp op a (number_of v)).
    { intros op. apply np_all_same; [now symmetry|].
      apply result_type_same; [|exact Hw].
      rewrite Hd. now apply real_number_dtype. }
    rewrite G, L, !S. unfold all_cmp.
    rewrite !Forall_forall, !forallb_forall. split; reflexivity.
  - destruct v; try discriminate E; split; eexists; reflexivity.
Qed.

Lemma comparison_bound_witness :
  passes (check_is_greater_than (Arr (floats [3 # 2])) (Val (VFloat (Fin 1)))
            true "Array") <->
  Forall (fun x => s_gt x (SReal (Fin 1)) = true) (arr_data (floats [3 # 2])).
Proof.
  exact (proj1 (proj2 (proj2 (comparison_bound (floats [3 # 2])
                                (VFloat (Fin 1)) true "Array"))
                  eq_refl eq_refl)).
Defined.
















(** ** Numbers, types and containers *)

Ltac settle :=
  repeat match goal with
  | |- _ /\ _ => split
  | |- _ <-> _ => split
  | |- _ -> _ => intro
  | H : _ \/ _ |- _ => destruct H
  | H : _ /\ _ |- _ => destruct H
  | H : Raise _ = Return _ |- _ => discriminate H
  | H : Return _ = Raise _ |- _ => discriminate H
  | H : true = false |- _ => discriminate H
  | H : false = true |- _ => discriminate H
  | |- ?x = ?x => reflexivity
  | |- exists _, _ => eexists; reflexivity
  end.

(** X14. The three definitions of a number are nested: whatever
    [check_is_number] accepts as a ["builtin"] or a ["numpy"] number it
    accepts as an ["abstract"] one, and under each definition a real
    number is a number.  No Python value is a ["numpy"] number, and no
    array is a number under any definition. *)
Theorem number_definitions_nest (num : pyobj) (must_be_real : bool)
    (name : string) :
  (passes (check_is_number num (VStr "builtin") must_be_real name)
   \/ passes (check_is_number num (VStr "numpy") must_be_real name) ->
   passes (check_is_number num (VStr "abstract") must_be_real name))
  /\ (forall d, In d definitions ->
        passes (check_is_number num (VStr d) true name) ->
        passes (check_is_number num (VStr d) false name))
  /\ (forall v,
        raises TypeError
          (check_is_number (Val v) (VStr "numpy") must_be_real name))
  /\ (forall a d, In d definitions ->
        raises TypeError
          (check_is_number (Arr a) (VStr d) must_be_real name)).
Proof.
  unfold passes, raises, definitions. split; [|split; [|split]].
  - destruct num as [v|d x|a]; [destruct v | destruct d |];
      destruct must_be_real; vm_compute; settle.
  - intros d [<-|[<-|[<-|[]]]];
      (destruct num as [v|d x|a]; [destruct v | destruct d |]);
      vm_compute; settle.
  - intros v. destruct v, must_be_real; eexists; reflexivity.
  - intros a d [<-|[<-|[<-|[]]]]; destruct must_be_real; eexists; reflexivity.
Qed.

Lemma pyclass_beq_refl (c : pyclass) : pyclass_beq c c = true.
Proof. apply internal_pyclass_dec_lb. reflexivity. Qed.

Lemma issubclass_refl (c : pyclass) : issubclass c c = true.
Proof.
  unfold issubclass. cbn [ancestors existsb]. now rewrite pyclass_beq_refl.
Qed.

Lemma pyclass_beq_issubclass (c k : pyclass) :
  pyclass_beq c k = true -> issubclass c k = true.
Proof.
  intros H. apply internal_pyclass_dec_bl in H. subst k. apply issubclass_refl.
Qed.

Lemma type_among (obj : pyobj) (ci : classinfo) (name : string) :
  passes (check_is_type obj ci name) <->
  existsb (pyclass_beq (type_of obj)) (classinfo_list ci) = true.
Proof.
  unfold passes, check_is_type. rewrite try_except_reraise.
  unfold check_is_instance. cbn [andb negb].
  destruct ci as [c|cs]; cbn [classinfo_list existsb].
  - rewrite orb_false_r. destruct (pyclass_beq (type_of obj) c); cbn [negb];
      split; intros H; first [reflexivity | discriminate H].
  - destruct (existsb _ cs); cbn [negb]; split; intros H;
      first [reflexivity | discriminate H].
Qed.

Lemma instance_among (obj : pyobj) (ci : classinfo) (name : string) :
  passes (check_is_instance obj ci true name) <->
  existsb (issubclass (type_of obj)) (classinfo_list ci) = true.
Proof.
  unfold passes.
  destruct (instance_allowing_subclasses obj ci name)
    as [[Hi Hc]|[Hi [body Hc]]]; rewrite Hc;
    unfold isinstance, isinstance_class in Hi;
    destruct ci as [c|cs]; cbn [classinfo_list existsb];
    rewrite ?orb_false_r, Hi; split; intros H;
    first [reflexivity | discriminate H].
Qed.

(** X15. [check_is_type] is the stricter of the two class checks.  It
    passes iff the object's own class is the given one, or one of the
    given ones; what it accepts [check_is_instance] accepts as well,
    but not the other way round: [True] is an instance of [int] and is
    not of type [int]. *)
Theorem type_is_stricter_than_instance (obj : pyobj) (ci : classinfo)
    (name : string) :
  (passes (check_is_type obj ci name) <->
   exists c, In c (classinfo_list ci) /\ type_of obj = c)
  /\ (passes (check_is_type obj ci name) ->
      passes (check_is_instance obj ci true name))
  /\ (forall b,
        passes (check_is_instance (Val (VBool b)) (CI_class C_int) true name)
        /\ raises TypeError
             (check_is_type (Val (VBool b)) (CI_class C_int) name)).
Proof.
  split; [|split].
  - rewrite type_among, existsb_exists. split; intros [c [Hc E]]; exists c;
      (split; [exact Hc|]).
    + apply internal_pyclass_dec_bl, E.
    + apply internal_pyclass_dec_lb, E.
  - rewrite type_among, instance_among, !existsb_exists.
    intros [c [Hc E]]. exists c. split; [exact Hc|].
    apply pyclass_beq_issubclass, E.
  - intros b. split; [reflexivity | eexists; reflexivity].
Qed.

(** X16. What counts as text, as a sequence and as an iterable.  Text
    passes [check_is_string], [check_is_sequence] and
    [check_is_iterable]; tuples and lists pass the last two and are
    not text; an array is iterable without being a sequence; numbers,
    [None] and NumPy's numeric scalars fail all three, always with a
    type error.
    Whatever the object, what passes [check_is_string] passes
    [check_is_sequence], and what passes that passes
    [check_is_iterable]. *)
Theorem sequences_and_iterables (name : string) :
  (forall s allow_subclass,
     passes (check_is_string (Val (VStr s)) allow_subclass name)
     /\ passes (check_is_sequence (Val (VStr s)) name)
     /\ passes (check_is_iterable (Val (VStr s)) name))
  /\ (forall v allow_subclass,
        In (type_of_value v) [C_tuple; C_list] ->
        raises TypeError (check_is_string (Val v) allow_subclass name)
        /\ passes (check_is_sequence (Val v) name)
        /\ passes (check_is_iterable (Val v) name))
  /\ (forall a allow_subclass,
        raises TypeError (check_is_string (Arr a) allow_subclass name)
        /\ raises TypeError (check_is_sequence (Arr a) name)
        /\ passes (check_is_iterable (Arr a) name))
  /\ (forall obj allow_subclass,
        (exists v, obj = Val v
                   /\ In (type_of_value v)
                        [C_bool; C_int; C_float; C_complex; C_NoneType])
        \/ (exists d x, obj = NpScalar d x) ->
        raises TypeError (check_is_string obj allow_subclass name)
        /\ raises TypeError (check_is_sequence obj name)
        /\ raises TypeError (check_is_iterable obj name))
  /\ (forall obj allow_subclass name',
        (passes (check_is_string obj allow_subclass name) ->
         passes (check_is_sequence obj name'))
        /\ (passes (check_is_sequence obj name) ->
            passes (check_is_iterable obj name'))).
Proof.
  unfold passes, raises, check_is_string, check_is_sequence,
    check_is_iterable.
  split; [|split; [|split; [|split]]].
  - intros s b. rewrite !try_except_reraise. destruct b; repeat split.
  - intros v b H. rewrite !try_except_reraise.
    destruct v; cbn in H;
      try (exfalso; destruct H as [H|[H|[]]]; discriminate H);
      destruct b; (split; [eexists; reflexivity | split; reflexivity]).
  - intros a b. rewrite !try_except_reraise.
    destruct b;
      (split; [eexists; reflexivity
              | split; [eexists; reflexivity | reflexivity]]).
  - intros obj b H. rewrite !try_except_reraise.
    destruct H as [(v & -> & H)|(d & x & ->)].
    + destruct v; cbn in H;
        try solve [exfalso; repeat (destruct H as [H|H]; [discriminate H|]);
                   destruct H];
        destruct b;
        (split; [eexists; reflexivity | split; eexists; reflexivity]).
    + destruct d, b;
        (split; [eexists; reflexivity | split; eexists; reflexivity]).
  - intros obj b name'. rewrite !try_except_reraise.
    destruct obj as [v|d x|a]; [destruct v | destruct d |]; destruct b;
      vm_compute; split; intros H;
      first [discriminate H | reflexivity].
Qed.

(** ** Iterables and their items *)

Lemma iterable_of_some_type_items (v : value) (ci : classinfo)
    (allow_subclass : bool) (name : string) :
  is_tuple v = true \/ (exists l, v = VList l) \/ (exists s, v = VStr s) ->
  check_is_iterable_of_some_type v ci allow_subclass name =
  for_each
    (fun item =>
       check_is_instance (Val item) ci allow_subclass
         ("All items of " ++ name)%string)
    (py_iter v).
Proof.
  intros H. unfold check_is_iterable_of_some_type.
  rewrite try_except_reraise.
  destruct H as [H|[[l ->]|[s ->]]]; [destruct v; try discriminate H| |];
    reflexivity.
Qed.

Lemma for_each_all (ci : classinfo) (name : string) (l : list value) :
  for_each (fun item => check_is_instance (Val item) ci true name) l = Pass
  <-> Forall (fun item => isinstance (Val item) ci = true) l.
Proof.
  rewrite Forall_forall, <- forallb_forall.
  destruct (for_each_instance ci name l) as [[Hf Hp]|[Hf [m Hr]]];
    rewrite Hf; [rewrite Hp | rewrite Hr]; split; intros H;
    first [reflexivity | discriminate H].
Qed.

Lemma instance_fails (obj : pyobj) (ci : classinfo) (name : string) :
  isinstance obj ci = false ->
  exists e, check_is_instance obj ci true name = Raise e.
Proof.
  intros H.
  destruct (instance_allowing_subclasses obj ci name)
    as [[Hi Hc]|[Hi [body Hc]]]; [congruence|].
  eexists. exact Hc.
Qed.

Lemma instance_passes (obj : pyobj) (ci : classinfo) (name : string) :
  isinstance obj ci = true -> check_is_instance obj ci true name = Pass.
Proof.
  intros H.
  destruct (instance_allowing_subclasses obj ci name)
    as [[Hi Hc]|[Hi [body Hc]]]; [exact Hc | congruence].
Qed.

(** X17. [check_is_iterable_of_some_type] on a list or a tuple passes
    iff every item is an instance of the type, so always on an empty
    one; and it stops at the first item that is not: its outcome is the
    failure of [check_is_instance] on that item, reported under
    "All items of <name>", whatever comes after it. *)
Theorem iterable_items_checked_in_order (ci : classinfo) (name : string) :
  (forall l,
     (passes (check_is_iterable_of_some_type (VList l) ci true name) <->
      Forall (fun item => isinstance (Val item) ci = true) l)
     /\ (passes (check_is_iterable_of_some_type (VTuple l) ci true name) <->
         Forall (fun item => isinstance (Val item) ci = true) l))
  /\ (forall pre x post,
        Forall (fun item => isinstance (Val item) ci = true) pre ->
        isinstance (Val x) ci = false ->
        check_is_iterable_of_some_type (VList (pre ++ x :: post)) ci true name
        = check_is_instance (Val x) ci true ("All items of " ++ name)
        /\ raises TypeError
             (check_is_instance (Val x) ci true ("All items of " ++ name))).
Proof.
  split.
  - intros l. unfold passes.
    rewrite !iterable_of_some_type_items
      by (first [left; reflexivity | right; left; eexists; reflexivity]).
    cbn [py_iter]. split; apply for_each_all.
  - intros pre x post Hpre Hx.
    rewrite iterable_of_some_type_items by (right; left; eexists; reflexivity).
    cbn [py_iter]. rewrite for_each_first_failure.
    + destruct (instance_allowing_subclasses (Val x) ci
                  ("All items of " ++ name))
        as [[Hi Hc]|[Hi [body Hc]]]; [congruence|].
      rewrite Hc. cbn [bind]. split; [reflexivity | eexists; reflexivity].
    + apply Forall_impl with (2 := Hpre). intros y Hy.
      apply instance_passes, Hy.
Qed.

Lemma chars_are_strings (s : string) (allow_subclass : bool) (name : string) :
  for_each
    (fun item => check_is_instance (Val item) (CI_class C_str) allow_subclass
                   name)
    (chars_of s) = Pass.
Proof.
  induction s as [|c s IH]; [reflexivity|].
  cbn [chars_of for_each].
  assert (E : check_is_instance (Val (VStr (String c EmptyString)))
                (CI_class C_str) allow_subclass name = Pass)
    by (destruct allow_subclass; reflexivity).
  rewrite E. unfold Pass at 1. cbn [bind]. exact IH.
Qed.

Lemma index_of_empty (s : string) : String.index 0 EmptyString s = Some 0%nat.
Proof. destruct s; reflexivity. Qed.

Lemma contained_is_substring (t s : string) :
  py_contains (VStr s) (VStr t) = true <->
  exists n, substring n (String.length t) s = t.
Proof.
  cbn [py_contains]. destruct (String.index 0 t s) as [m|] eqn:E.
  - split; [intros _ | reflexivity]. exists m.
    exact (index_correct1 0 m t s E).
  - split; [intros H; discriminate H|]. intros [n Hn]. exfalso.
    assert (Ht : t <> EmptyString).
    { intros ->. rewrite index_of_empty in E. discriminate E. }
    exact (index_correct3 0 n t s E Ht (Nat.le_0_l n) Hn).
Qed.

(** X18. Text is itself an iterable of strings, one per character, so
    [check_is_iterable_of_strings] accepts every string; and when the
    container given to [check_is_string_in_iterable] is a string, the
    check passes iff the string looked for occurs in it as a substring,
    at any position and of any length, the empty string always. *)
Theorem text_is_an_iterable_of_strings (s : string) (name : string) :
  (forall allow_subclass,
     passes (check_is_iterable_of_strings (VStr s) allow_subclass name))
  /\ (forall t,
        passes (check_is_string_in_iterable (VStr t) (VStr s) name) <->
        exists n, substring n (String.length t) s = t)
  /\ passes (check_is_string_in_iterable (VStr EmptyString) (VStr s) name).
Proof.
  assert (I : forall b n, check_is_iterable_of_strings (VStr s) b n = Pass).
  { intros b n. unfold check_is_iterable_of_strings.
    rewrite try_except_reraise, iterable_of_some_type_items
      by (right; right; eexists; reflexivity).
    cbn [py_iter]. apply chars_are_strings. }
  assert (C : forall t,
            check_is_string_in_iterable (VStr t) (VStr s) name = Pass <->
            py_contains (VStr s) (VStr t) = true).
  { intros t. unfold check_is_string_in_iterable.
    change (check_is_string (Val (VStr t)) true name) with Pass.
    unfold Pass at 1. cbn [bind]. rewrite I. unfold Pass at 1. cbn [bind].
    destruct (py_contains (VStr s) (VStr t)); cbn [negb]; split; intros H;
      first [reflexivity | discriminate H]. }
  unfold passes. split; [|split].
  - intros b. apply I.
  - intros t. rewrite C. apply contained_is_substring.
  - apply C. cbn [py_contains]. now rewrite index_of_empty.
Qed.

Lemma strings_are_strings (l : list string) (name : string) :
  check_is_iterable_of_strings (VList (map VStr l)) true name = Pass.
Proof.
  unfold check_is_iterable_of_strings.
  rewrite try_except_reraise, iterable_of_some_type_items
    by (right; left; eexists; reflexivity).
  cbn [py_iter]. apply for_each_all. apply Forall_forall.
  intros v Hv. apply in_map_iff in Hv as [s [<- _]]. reflexivity.
Qed.

Lemma string_among (t : string) (l : list string) :
  py_contains (VList (map VStr l)) (VStr t) = true <-> In t l.
Proof.
  cbn [py_contains py_iter]. unfold py_in. rewrite existsb_exists. split.
  - intros [v [Hv E]]. apply in_map_iff in Hv as [s [<- Hs]].
    cbn [py_eq] in E. apply String.eqb_eq in E. now subst s.
  - intros H. exists (VStr t). split; [now apply in_map|].
    cbn [py_eq]. apply String.eqb_refl.
Qed.

(** X19. [check_is_string_in_iterable] with a list of strings passes
    iff the string is one of them; if it is not, the value error shows
    the string, then the list.  A container with an item that is not a
    string is refused with a type error whether the string is in it or
    not. *)
Theorem string_in_list (t : string) (name : string) :
  (forall l,
     passes (check_is_string_in_iterable (VStr t) (VList (map VStr l)) name)
     <-> In t l)
  /\ (forall l, ~ In t l ->
        check_is_string_in_iterable (VStr t) (VList (map VStr l)) name =
        raise_ValueError
          [Txt name; Txt " '"; Txt t; Txt "' is not in the iterable. ";
           Txt name; Txt " must be one of: "; Txt newline_tab;
           FObj (Val (VList (map VStr l)))])
  /\ (forall items,
        forallb (fun item => isinstance (Val item) (CI_class C_str)) items
        = false ->
        raises TypeError
          (check_is_string_in_iterable (VStr t) (VList items) name)).
Proof.
  assert (E : forall l,
            check_is_string_in_iterable (VStr t) (VList (map VStr l)) name =
            if negb (py_contains (VList (map VStr l)) (VStr t)) then
              raise_ValueError
                [Txt name; Txt " '"; Txt t; Txt "' is not in the iterable. ";
                 Txt name; Txt " must be one of: "; Txt newline_tab;
                 FObj (Val (VList (map VStr l)))]
            else Pass).
  { intros l. unfold check_is_string_in_iterable.
    change (check_is_string (Val (VStr t)) true name) with Pass.
    unfold Pass at 1. cbn [bind]. rewrite strings_are_strings.
    unfold Pass at 1. cbn [bind]. reflexivity. }
  split; [|split].
  - intros l. unfold passes. rewrite E, <- string_among.
    destruct (py_contains _ _); cbn [negb]; split; intros H;
      first [reflexivity | discriminate H].
  - intros l Hn. rewrite E.
    destruct (py_contains _ _) eqn:C; [|reflexivity].
    exfalso. apply Hn, string_among, C.
  - intros items Hf. unfold check_is_string_in_iterable.
    change (check_is_string (Val (VStr t)) true name) with Pass.
    unfold Pass at 1. cbn [bind].
    unfold check_is_iterable_of_strings.
    rewrite try_except_reraise, iterable_of_some_type_items
      by (right; left; eexists; reflexivity).
    cbn [py_iter].
    destruct (for_each_instance (CI_class C_str)
                ("All items of " ++ "String Iterable") items)
      as [[Hf' _]|[_ [m Hr]]]; [congruence|].
    rewrite Hr. cbn [bind]. eexists. reflexivity.
Qed.

(** ** Scalars *)

(** X20. [check_is_scalar] treats a NumPy scalar and the 0-dimensional
    array that holds it alike: both pass iff the dtype is a real one,
    or any numeric one when complex numbers are allowed, so the boolean
    dtype never passes although Python's [True] does.  An array of one
    or more dimensions is refused with a value error whatever its dtype;
    the handler for type errors lets it through. *)
Theorem scalar_or_zero_dim (must_be_real : bool) (name : string) :
  (forall d x,
     (passes (check_is_scalar (NpScalar d x) must_be_real name) <->
      passes (check_is_scalar (Arr (zero_dim d x)) must_be_real name))
     /\ (passes (check_is_scalar (Arr (zero_dim d x)) must_be_real name) <->
         (if must_be_real then is_real_dtype d else issubdtype d C_number)
         = true))
  /\ (forall b, passes (check_is_scalar (Val (VBool b)) must_be_real name))
  /\ (forall a, 1 <= ndim a ->
        check_is_scalar (Arr a) must_be_real name =
        raise_ValueError
          [Txt name; Txt " must be a 0-dimensional array, got `ndim=";
           FInt (ndim a); Txt "` instead."]).
Proof.
  split; [|split].
  - intros d x. unfold passes. destruct d, must_be_real; vm_compute; settle.
  - intros b. destruct must_be_real; reflexivity.
  - intros a Hn. unfold check_is_scalar.
    replace (0 <? ndim a) with true by lia. reflexivity.
Qed.

(** ** Lengths *)

Lemma has_shape_wildcard (a : ndarray) (name : string) :
  passes (check_has_shape (Arr a) (VInt (-1)) name) <->
  exists m, arr_shape a = [m].
Proof.
  rewrite (has_shape_passes_iff a (VInt (-1)) name
             (_shape_is_allowed (py_iter (array_shape_value a)) [VInt (-1)])).
  - unfold array_shape_value, tuple_of_ints. cbn [py_iter].
    rewrite allowed_one_dim. split.
    + intros (m & H & _). now exists m.
    + intros (m & H). exists m. auto.
  - cbn [py_iter shape_loop]. rewrite validate_int.
    change (-1 <=? -1) with true. cbn [bind py_iter].
    destruct (_shape_is_allowed _ _); reflexivity.
Qed.

Lemma bound_is_cast (z : Z) (label : string) :
  (m <- cast_to_ndarray (Val (VInt z)) ;;
   check_is_scalar (Arr m) true label ;;
   check_is_real (Arr m) label ;;
   Return (Some m)) = Return (Some (int_item z)).
Proof. reflexivity. Qed.

(** X21. With [min_length] and [max_length] given as integers, or left
    out, [check_has_length] passes iff its subject has a length and
    that length is within the bounds given, both included.  When both
    are given and the minimum exceeds the maximum, nothing passes. *)
Theorem has_length_within (subject : pyobj) (lo hi : option Z)
    (name : string) :
  passes (check_has_length subject VNone (opt_int lo) (opt_int hi)
            false false name) <->
  exists n, py_len subject = Return n
            /\ (forall m, lo = Some m -> m <= n)
            /\ (forall M, hi = Some M -> n <= M).
Proof.
  destruct (py_len subject) as [n|e] eqn:Hlen.
  - unfold passes, check_has_length. cbn [bind].
    rewrite (sized_is_instance subject n name Hlen). unfold Pass. cbn [bind].
    rewrite Hlen. cbn [bind is_None negb].
    destruct lo as [m|], hi as [M|]; cbn [opt_int is_None negb];
      rewrite ?bound_is_cast; cbn [bind];
      rewrite ?stack_two_ints, ?sorted_default_pair, ?s_le_Z;
      try (destruct (m <=? M) eqn:Ho; unfold Pass; cbn [bind]);
      unfold Pass; cbn [bind int_item arr_data existsb];
      rewrite ?s_lt_Z, ?s_gt_Z, ?orb_false_r;
      try (destruct (n <? m) eqn:E1); try (destruct (M <? n) eqn:E2);
      cbn [bind]; split;
      try (intros H; discriminate H);
      try (intros _; exists n; split; [reflexivity|];
           split; intros k [= <-]; lia);
      try (intros (k & [= <-] & H1 & H2);
           try specialize (H1 _ eq_refl); try specialize (H2 _ eq_refl);
           first [reflexivity | lia]).
  - split.
    + intros H. exfalso. revert H. apply unsized_has_no_length.
      intros n. rewrite Hlen. discriminate.
    + intros (n & H & _). discriminate H.
Qed.

Lemma number_is_cast (v : value) :
  isinstance (Val v) (CI_class C_Number) = true ->
  cast_to_ndarray (Val v) = Return (item_of v) /\ arr_shape (item_of v) = [].
Proof. destruct v; intros H; try discriminate H; split; reflexivity. Qed.

(** X22. A number has no length: without [allow_scalar],
    [check_has_length] refuses a Python number with a type error
    whatever else is asked.  With [allow_scalar] the number is checked
    as the array of shape [(1,)] that holds it, so it has length 1:
    it passes for the exact lengths that include 1, and is
    one-dimensional. *)
Theorem number_has_length_one (v : value) (name : string) :
  isinstance (Val v) (CI_class C_Number) = true ->
  (forall exact_length min_length max_length must_be_1d,
     raises TypeError
       (check_has_length (Val v) exact_length min_length max_length
          must_be_1d false name)
     /\ check_has_length (Val v) exact_length min_length max_length
          must_be_1d true name =
        check_has_length
          (Arr (mk_ndarray (arr_dtype (item_of v)) [1] (arr_data (item_of v))))
          exact_length min_length max_length must_be_1d false name)
  /\ (forall ls must_be_1d,
        passes (check_has_length (Val v) (lengths ls) VNone VNone
                  must_be_1d true name) <-> In 1 ls).
Proof.
  intros Hv. destruct (number_is_cast v Hv) as [Hc Hs].
  assert (E : forall e lo hi m,
            check_has_length (Val v) e lo hi m true name =
            check_has_length
              (Arr (mk_ndarray (arr_dtype (item_of v)) [1]
                      (arr_data (item_of v)))) e lo hi m false name).
  { intros e lo hi m. unfold check_has_length. rewrite Hv, Hc. reflexivity. }
  split.
  - intros e lo hi m. split; [|apply E].
    unfold check_has_length. cbn [bind].
    destruct v; try discriminate Hv; eexists; reflexivity.
  - intros ls m. rewrite E.
    set (a := mk_ndarray _ [1] _).
    assert (M : check_has_length (Arr a) (lengths ls) VNone VNone m false name
                = check_has_length (Arr a) (lengths ls) VNone VNone false false
                    name).
    { destruct m; [|reflexivity]. unfold check_has_length. cbn [bind].
      assert (P : check_has_shape (Arr a) (VInt (-1)) "Array" = Pass)
        by (apply has_shape_wildcard; exists 1; reflexivity).
      rewrite P. reflexivity. }
    rewrite M, has_length_exact. cbn [py_len a arr_shape]. split.
    + intros (n & [= <-] & H). exact H.
    + intros H. exists 1. split; [reflexivity | exact H].
Qed.

Lemma number_has_length_one_witness :
  passes (check_has_length (Val (VFloat (Fin 2)))
            (lengths [1; 3]) VNone VNone true true "Array") <-> In 1 [1; 3].
Proof.
  exact (proj2 (number_has_length_one (VFloat (Fin 2)) "Array" eq_refl)
           [1; 3] true).
Defined.


(** ** Dtypes among several bases *)

(** X24. [check_is_subdtype] with several base dtypes passes iff the
    dtype is a subtype of one of them, whatever their order; with none
    it fails; and a single base behaves the same given alone or as a
    one-element tuple, message included. *)
Theorem subdtype_any_of (d : dtype) (name : string) :
  (forall bases,
     passes (check_is_subdtype d (CI_tuple bases) name) <->
     exists b, In b bases /\ passes (check_is_subdtype d (CI_class b) name))
  /\ (forall bases bases', Permutation bases bases' ->
        (passes (check_is_subdtype d (CI_tuple bases) name) <->
         passes (check_is_subdtype d (CI_tuple bases') name)))
  /\ raises TypeError (check_is_subdtype d (CI_tuple []) name)
  /\ (forall b,
        check_is_subdtype d (CI_tuple [b]) name =
        check_is_subdtype d (CI_class b) name).
Proof.
  assert (P : forall bases,
            passes (check_is_subdtype d (CI_tuple bases) name) <->
            existsb (issubdtype d) bases = true).
  { intros bases. unfold passes, check_is_subdtype. cbn [classinfo_list].
    destruct (existsb _ bases); [split; reflexivity|].
    destruct bases as [|b [|b' bases]]; split; intros H; discriminate H. }
  split; [|split; [|split]].
  - intros bases. rewrite P, existsb_exists. unfold passes.
    split; intros [b [Hb H]]; exists b; (split; [exact Hb|]);
      rewrite subdtype_generic_message in *;
      destruct (issubdtype d b); first [reflexivity | discriminate H].
  - intros bases bases' Hp. rewrite !P.
    now rewrite (existsb_Permutation _ _ _ Hp).
  - eexists. reflexivity.
  - intros b. reflexivity.
Qed.

(** ** The axis given as a float *)

Lemma py_eq_float_int (z k : Z) :
  py_eq (VFloat (Fin (inject_Z z))) (VInt k) = (z =? k).
Proof. cbn [py_eq num_of_value]. apply s_eq_Z. Qed.

Lemma integerlike_whole_float (z : Z) (name : string) :
  check_is_integerlike (Val (VFloat (Fin (inject_Z z)))) false name = Pass.
Proof.
  unfold check_is_integerlike. cbn -[s_eq s_floor].
  unfold array_equal. cbn -[s_eq s_floor].
  change (SReal (Fin (inject_Z z))) with (s_of_Z z).
  fold (equals_own_floor (s_of_Z z)). now rewrite int_equals_own_floor.
Qed.

Lemma py_int_whole_float (z : Z) :
  py_int (VFloat (Fin (inject_Z z))) = Return z.
Proof.
  cbn [py_int]. rewrite Qfloor_Z, Qceiling_Z.
  now destruct (Qle_bool 0 (inject_Z z)).
Qed.

(** X25. An axis given as a whole float is converted with [int] and
    checked as that integer, with one exception: the float [-1.0]
    equals the default [-1], skips the conversion, and is then used as
    a list index, which is a type error for every array of one or more
    dimensions. *)
Theorem sorted_float_axis (a : ndarray) (ascending strict : bool) (z : Z)
    (name : string) :
  1 <= ndim a ->
  (z <> -1 ->
   check_is_sorted (Arr a) ascending strict (VFloat (Fin (inject_Z z))) name =
   check_is_sorted (Arr a) ascending strict (VInt z) name)
  /\ raises TypeError
       (check_is_sorted (Arr a) ascending strict
          (VFloat (Fin (inject_Z (-1)))) name).
Proof.
  intros Hn. split.
  - intros Hz. unfold check_is_sorted. cbn [as_ndarray bind is_None].
    replace (ndim a =? 0) with false by lia.
    rewrite py_eq_float_int, py_eq_int.
    replace (z =? -1) with false by lia. cbn [negb].
    rewrite integerlike_whole_float, integerlike_int, number_int.
    change (check_is_number (Val (VFloat (Fin (inject_Z z)))) (VStr "abstract")
              true "Axis") with Pass.
    unfold Pass. cbn [bind]. rewrite py_int_whole_float. reflexivity.
  - unfold check_is_sorted. cbn [as_ndarray bind is_None].
    replace (ndim a =? 0) with false by lia.
    rewrite py_eq_float_int. cbn [Z.eqb Pos.eqb negb bind].
    eexists. reflexivity.
Qed.

Lemma sorted_float_axis_witness :
  raises TypeError
    (check_is_sorted (Arr (ints [1; 2])) true false
       (VFloat (Fin (inject_Z (-1)))) "Array").
Proof.
  exact (proj2 (sorted_float_axis (ints [1; 2]) true false 0 "Array"
                  ltac:(vm_compute; intros H; discriminate H))).
Defined.

(** ** The definition of a number is checked first *)

Lemma definition_among (d : string) :
  check_is_string_in_iterable (VStr d)
    (VList [VStr "abstract"; VStr "builtin"; VStr "numpy"]) "String" =
  if negb (py_contains (VList (map VStr definitions)) (VStr d)) then
    raise_ValueError
      [Txt "String"; Txt " '"; Txt d; Txt "' is not in the iterable. ";
       Txt "String"; Txt " must be one of: "; Txt newline_tab;
       FObj (Val (VList (map VStr definitions)))]
  else Pass.
Proof. reflexivity. Qed.

(** X26. [check_is_number] looks at the definition before it looks at
    the number: a definition that is not text is a type error and one
    that is not among the three a value error, whatever the number is;
    so the branch that raises [NotImplementedError] is never taken, and
    with a valid definition the only failure is a type error. *)
Theorem number_definition_first (num : pyobj) (must_be_real : bool)
    (name : string) :
  (forall definition,
     ~ raises NotImplementedError
         (check_is_number num definition must_be_real name))
  /\ (forall d,
        In d definitions ->
        passes (check_is_number num (VStr d) must_be_real name)
        \/ raises TypeError (check_is_number num (VStr d) must_be_real name))
  /\ (forall d,
        ~ In d definitions ->
        raises ValueError (check_is_number num (VStr d) must_be_real name))
  /\ (forall definition,
        isinstance (Val definition) (CI_class C_str) = false ->
        raises TypeError (check_is_number num definition must_be_real name)).
Proof.
  assert (V : forall d, In d definitions ->
            passes (check_is_number num (VStr d) must_be_real name)
            \/ raises TypeError
                 (check_is_number num (VStr d) must_be_real name)).
  { intros d Hd. unfold passes, check_is_number.
    rewrite definition_among.
    replace (py_contains (VList (map VStr definitions)) (VStr d)) with true
      by (symmetry; apply string_among, Hd).
    cbn [negb]. unfold Pass at 1. cbn [bind].
    destruct Hd as [<-|[<-|[<-|[]]]];
      cbn [py_eq String.eqb Ascii.eqb Bool.eqb];
      cbn [bind]; rewrite try_except_reraise;
      match goal with
      | |- context [check_is_instance ?o ?ci true ?n] =>
          destruct (instance_allowing_subclasses o ci n)
            as [[_ Hc]|[_ [body Hc]]]; rewrite Hc
      end; first [left; reflexivity | right; eexists; reflexivity]. }
  assert (I : forall d, ~ In d definitions ->
            raises ValueError
              (check_is_number num (VStr d) must_be_real name)).
  { intros d Hd. unfold check_is_number. rewrite definition_among.
    destruct (py_contains (VList (map VStr definitions)) (VStr d)) eqn:C.
    - exfalso. apply Hd, string_among, C.
    - cbn [negb bind]. eexists. reflexivity. }
  assert (T : forall definition,
            isinstance (Val definition) (CI_class C_str) = false ->
            raises TypeError
              (check_is_number num definition must_be_real name)).
  { intros definition Hd. unfold check_is_number.
    destruct definition; try discriminate Hd; eexists; reflexivity. }
  split; [|split; [|split]]; [|exact V|exact I|exact T].
  intros definition [m Hm].
  destruct (isinstance (Val definition) (CI_class C_str)) eqn:S.
  - destruct definition as [| | | | |d| |]; try discriminate S.
    destruct (in_dec string_dec d definitions) as [Hd|Hd].
    + destruct (V d Hd) as [P|[m' P]]; rewrite P in Hm; discriminate Hm.
    + destruct (I d Hd) as [m' P]. rewrite P in Hm. discriminate Hm.
  - destruct (T definition S) as [m' P]. rewrite P in Hm. discriminate Hm.
Qed.
